(** * AutoDash-OS: the device simulation subsystem

    A shallow embedding of the three simulators of [src/system]
    ([BluetoothSim], [USBMonitor], [MockI2C]) and the properties the
    specification states about them.

    Conventions of the embedding:
    - a [QString] is a [string]; [QList] and [QStringList] are [list];
      a [QMap<QString,QTimer*>] is a [gmap string nat] whose values are
      handles of heap-allocated timers;
    - C++ [int] is a [Z] with the wrap-around of 32 bits written out where
      the code computes with it; [double] is an IEEE-754 binary64 value
      ([spec_float] with [prec = 53], [emax = 1024]);
    - every member function is a function on the object's state; the signals
      it emits are appended to the trace [emitted];
    - the clock, the pseudo-random generator and the file system are inputs:
      the clock reading is an argument, the generator is a stream in the
      state, a directory listing is a function of the path;
    - log lines ([LOG_INFO] and the like) are not part of the state. *)

From Stdlib Require Import ZArith List String Ascii Bool Lia.
From Stdlib Require Import SpecFloat DecimalString.
From stdpp Require Import base gmap strings list.

Open Scope Z_scope.

(** ** Qt and C++ runtime: strings, integers, dates, JSON values *)

Module Qt.

(** [static_cast<int>] of a wider integer: two's complement on 32 bits. *)
Definition to_int32 (z : Z) : Z := (z + 2 ^ 31) mod 2 ^ 32 - 2 ^ 31.

(** [static_cast<qint64>]: two's complement on 64 bits. *)
Definition to_int64 (z : Z) : Z := (z + 2 ^ 63) mod 2 ^ 64 - 2 ^ 63.

Definition in_int32 (z : Z) : Prop := - 2 ^ 31 <= z < 2 ^ 31.
Definition in_int64 (z : Z) : Prop := - 2 ^ 63 <= z < 2 ^ 63.

(** [QString::number(z)]: decimal digits, with a leading minus sign. *)
Definition number (z : Z) : string := NilZero.string_of_int (Z.to_int z).

Fixpoint repeat_char (c : ascii) (n : nat) : string :=
  match n with
  | O => EmptyString
  | S n' => String c (repeat_char c n')
  end.

(** [QString("%1").arg(z, width, 10, fill)]: right-aligned in [width]. *)
Definition arg_padded (z : Z) (width : nat) (fill : ascii) : string :=
  let s := number z in
  repeat_char fill (width - String.length s) +:+ s.

Definition hex_digit_upper (v : Z) : ascii :=
  if v <? 10 then ascii_of_nat (Z.to_nat (48 + v))
  else ascii_of_nat (Z.to_nat (55 + v)).

(** [QString("%1").arg(v, 2, 16, QChar('0')).toUpper()] for [0 <= v < 256]. *)
Definition hex2_upper (v : Z) : string :=
  String (hex_digit_upper (v / 16)) (String (hex_digit_upper (v mod 16)) EmptyString).

(** A [QDateTime] in local time, as its calendar fields; a default
    constructed one is null (and invalid). *)
Record QDateTime := mkDateTime {
  dt_valid : bool;
  dt_year : Z; dt_month : Z; dt_day : Z;
  dt_hour : Z; dt_minute : Z; dt_second : Z; dt_msec : Z
}.

Definition null_QDateTime : QDateTime := mkDateTime false 0 0 0 0 0 0 0.

#[global] Instance QDateTime_eq_dec : EqDecision QDateTime.
Proof. solve_decision. Defined.

Definition date_part (t : QDateTime) (sep : string) : string :=
  arg_padded (dt_year t) 4 "0" +:+ "-" +:+ arg_padded (dt_month t) 2 "0" +:+ "-"
  +:+ arg_padded (dt_day t) 2 "0" +:+ sep
  +:+ arg_padded (dt_hour t) 2 "0" +:+ ":" +:+ arg_padded (dt_minute t) 2 "0"
  +:+ ":" +:+ arg_padded (dt_second t) 2 "0".

(** [t.toString(Qt::ISODate)]: seconds resolution, no milliseconds; the
    empty string for an invalid date. *)
Definition toString_ISODate (t : QDateTime) : string :=
  if dt_valid t then date_part t "T" else "".

(** [t.toString("yyyy-MM-dd hh:mm:ss")]. *)
Definition toString_ymd_hms (t : QDateTime) : string :=
  if dt_valid t then date_part t " " else "".

(** The reading of the system clock at one call. *)
Record Clock := mkClock {
  currentMSecsSinceEpoch : Z;
  currentDateTime : QDateTime
}.

(** [std::mt19937]: the stream of its future 32-bit outputs and how many
    were drawn. *)
Record mt19937 := mkRng { outputs : nat -> Z; drawn : nat }.

Definition draw (g : mt19937) : Z * mt19937 :=
  (outputs g (drawn g) mod 2 ^ 32, mkRng (outputs g) (S (drawn g))).

(** [std::mt19937::result_type] is [uint_fast32_t]: an unsigned type of 64
    bits on LP64 targets with glibc and of 32 bits on others; arithmetic on
    it wraps. The model takes 64 bits; a statement that depends on the
    width says so. *)
Definition result_bits : Z := 64.
Definition to_result_type (z : Z) : Z := z mod 2 ^ result_bits.

(** A periodic [QTimer] owned by the object: its interval while active. *)
Definition QTimer := option Z.

(** [QJsonValue]. Numbers built from integers are kept apart from numbers
    built from doubles; an object is its list of members. *)
#[local] Unset Elimination Schemes.
Inductive QJsonValue :=
| JUndefined
| JNull
| JBool (b : bool)
| JInt (z : Z)
| JDouble (d : spec_float)
| JString (s : string)
| JArray (l : list QJsonValue)
| JObject (members : list (string * QJsonValue)).
#[local] Set Elimination Schemes.

Fixpoint member (key : string) (members : list (string * QJsonValue)) : QJsonValue :=
  match members with
  | [] => JUndefined
  | (k, v) :: rest => if decide (k = key) then v else member key rest
  end.

Definition toObject (v : QJsonValue) : list (string * QJsonValue) :=
  match v with JObject m => m | _ => [] end.
Definition toArray (v : QJsonValue) : list QJsonValue :=
  match v with JArray l => l | _ => [] end.
Definition toString (v : QJsonValue) : string :=
  match v with JString s => s | _ => "" end.
Definition toBool (v : QJsonValue) : bool :=
  match v with JBool b => b | _ => false end.
(** [toInt()]: the number when it is an integer that fits [int], else 0. *)
Definition toInt (v : QJsonValue) : Z :=
  match v with
  | JInt z => if decide (- 2 ^ 31 <= z < 2 ^ 31) then z else 0
  | _ => 0
  end.
(** [toVariant().toLongLong()]. *)
Definition toLongLong (v : QJsonValue) : Z :=
  match v with
  | JInt z => if decide (- 2 ^ 63 <= z < 2 ^ 63) then z else 0
  | _ => 0
  end.
(** [toVariant().toStringList()] of an array of strings. *)
Definition toStringList (v : QJsonValue) : list string :=
  match v with JArray l => map toString l | _ => [] end.

(** *** Parsing the dates the simulators write *)

Definition digit_value (c : ascii) : option Z :=
  let n := Z.of_nat (nat_of_ascii c) in
  if (48 <=? n) && (n <=? 57) then Some (n - 48) else None.

Fixpoint digits_value (acc : Z) (l : list ascii) : option Z :=
  match l with
  | [] => Some acc
  | c :: rest =>
      match digit_value c with
      | Some v => digits_value (10 * acc + v) rest
      | None => None
      end
  end.

Definition isLeapYear (y : Z) : bool :=
  ((y mod 4 =? 0) && negb (y mod 100 =? 0)) || (y mod 400 =? 0).

Definition daysInMonth (y m : Z) : Z :=
  match m with
  | 1 | 3 | 5 | 7 | 8 | 10 | 12 => 31
  | 4 | 6 | 9 | 11 => 30
  | 2 => if isLeapYear y then 29 else 28
  | _ => 0
  end.

Definition valid_fields (y mo d h mi s ms : Z) : bool :=
  (0 <=? y) && (y <=? 9999) && (1 <=? mo) && (mo <=? 12)
  && (1 <=? d) && (d <=? daysInMonth y mo)
  && (0 <=? h) && (h <=? 23) && (0 <=? mi) && (mi <=? 59)
  && (0 <=? s) && (s <=? 59) && (0 <=? ms) && (ms <=? 999).

(** [QDateTime::fromString(s, Qt::ISODate)] on the two shapes
    [toString(Qt::ISODate)] writes: the empty string and
    [yyyy-MM-ddTHH:mm:ss]; any other text is read as a null date here. *)
Definition fromString_ISODate (s : string) : QDateTime :=
  match list_ascii_of_string s with
  | [y1; y2; y3; y4; dash1; mo1; mo2; dash2; d1; d2; t; h1; h2; colon1; mi1; mi2;
     colon2; s1; s2] =>
      if decide (dash1 = "-"%char ∧ dash2 = "-"%char ∧ t = "T"%char
                 ∧ colon1 = ":"%char ∧ colon2 = ":"%char) then
        match digits_value 0 [y1; y2; y3; y4], digits_value 0 [mo1; mo2],
              digits_value 0 [d1; d2], digits_value 0 [h1; h2],
              digits_value 0 [mi1; mi2], digits_value 0 [s1; s2] with
        | Some y, Some mo, Some d, Some h, Some mi, Some sec =>
            if valid_fields y mo d h mi sec 0
            then mkDateTime true y mo d h mi sec 0
            else null_QDateTime
        | _, _, _, _, _, _ => null_QDateTime
        end
      else null_QDateTime
  | _ => null_QDateTime
  end.

(** *** [QString] and [QFileInfo] on 8-bit text *)

Definition toLower_char (c : ascii) : ascii :=
  let n := nat_of_ascii c in
  if (65 <=? n)%nat && (n <=? 90)%nat then ascii_of_nat (n + 32) else c.

Fixpoint toLower (s : string) : string :=
  match s with
  | EmptyString => EmptyString
  | String c rest => String (toLower_char c) (toLower rest)
  end.

Definition isSpace (c : ascii) : bool :=
  let n := nat_of_ascii c in
  (n =? 32)%nat || ((9 <=? n)%nat && (n <=? 13)%nat).

Fixpoint skip_spaces (l : list ascii) : list ascii :=
  match l with
  | c :: rest => if isSpace c then skip_spaces rest else l
  | [] => []
  end.

(** [QString::trimmed]. *)
Definition trimmed (s : string) : string :=
  string_of_list_ascii
    (rev (skip_spaces (rev (skip_spaces (list_ascii_of_string s))))).

(** [QString::contains(sub)]. *)
Fixpoint contains (sub s : string) : bool :=
  String.prefix sub s ||
  match s with
  | EmptyString => false
  | String _ rest => contains sub rest
  end.

(** [QString::split(sep)] for a non-empty separator, empty parts kept:
    [skip] counts the characters of a separator still to pass over and
    [part] is the part being read. *)
Fixpoint split_from (sep : string) (skip : nat) (part : string) (s : string) : list string :=
  match s with
  | EmptyString => [part]
  | String c rest =>
      match skip with
      | S k => split_from sep k part rest
      | O =>
          if String.prefix sep s
          then part :: split_from sep (String.length sep - 1) EmptyString rest
          else split_from sep O (part +:+ String c EmptyString) rest
      end
  end.

Definition split (sep s : string) : list string := split_from sep O EmptyString s.

(** [QString::endsWith]. *)
Definition endsWith (suffix s : string) : bool :=
  String.prefix (string_of_list_ascii (rev (list_ascii_of_string suffix)))
                (string_of_list_ascii (rev (list_ascii_of_string s))).

(** What follows the last occurrence of [c], when there is one. *)
Fixpoint after_last (c : ascii) (s : string) : option string :=
  match s with
  | EmptyString => None
  | String x rest =>
      match after_last c rest with
      | Some r => Some r
      | None => if decide (x = c) then Some rest else None
      end
  end.

(** What precedes the first occurrence of [c] (all of [s] without one). *)
Fixpoint before_first (c : ascii) (s : string) : string :=
  match s with
  | EmptyString => EmptyString
  | String x rest => if decide (x = c) then EmptyString else String x (before_first c rest)
  end.

(** [QFileInfo(path).fileName()]: the path without its directories. *)
Definition fileName_of (path : string) : string :=
  match after_last "/" path with Some r => r | None => path end.

(** [QFileInfo(path).suffix()]: after the last dot of the file name. *)
Definition suffix_of (path : string) : string :=
  match after_last "." (fileName_of path) with Some r => r | None => "" end.

(** [QFileInfo(path).baseName()]: the file name up to its first dot. *)
Definition baseName_of (path : string) : string :=
  before_first "." (fileName_of path).

(** *** IEEE-754 binary64 *)

Definition double := spec_float.
Definition dadd : double -> double -> double := SFadd 53 1024.
Definition dmul : double -> double -> double := SFmul 53 1024.
Definition ddiv : double -> double -> double := SFdiv 53 1024.
Definition dlt : double -> double -> bool := SFltb.
Definition dle : double -> double -> bool := SFleb.
(** Conversion of an integer, to nearest even. *)
Definition double_of_Z (z : Z) : double := binary_normalize 53 1024 z 0 false.

Definition is_nan (x : double) : bool :=
  match x with S754_nan => true | _ => false end.
Definition is_finite (x : double) : bool :=
  match x with S754_zero _ | S754_finite _ _ _ => true | _ => false end.

(** [std::clamp(v, lo, hi)]: [lo] if [v < lo], [hi] if [hi < v], else [v]. *)
Definition clamp (v lo hi : double) : double :=
  if dlt v lo then lo else if dlt hi v then hi else v.

(** A double stored in a JSON document: Qt writes a value that is not
    finite as [null]. *)
Definition json_double (d : double) : QJsonValue :=
  if is_finite d then JDouble d else JNull.

(** [toDouble(defaultValue)]. *)
Definition toDouble (v : QJsonValue) (defaultValue : double) : double :=
  match v with
  | JDouble d => d
  | JInt z => double_of_Z z
  | _ => defaultValue
  end.

(** *** Well-formed values *)

(** A date is null or has valid calendar fields. *)
Definition wf_QDateTime (t : QDateTime) : Prop :=
  t = null_QDateTime
  \/ (dt_valid t = true
      /\ valid_fields (dt_year t) (dt_month t) (dt_day t)
           (dt_hour t) (dt_minute t) (dt_second t) (dt_msec t) = true).

(** The date without its milliseconds: what [Qt::ISODate] keeps. *)
Definition whole_seconds (t : QDateTime) : QDateTime :=
  mkDateTime (dt_valid t) (dt_year t) (dt_month t) (dt_day t)
    (dt_hour t) (dt_minute t) (dt_second t) 0.

(** The integers from [lo], [n] of them. *)
Definition Zrange (lo : Z) (n : nat) : list Z := map (λ k, lo + Z.of_nat k) (seq 0 n).

(** [arg_padded z width "0"] is [width] digits that read back as [z]. *)
Definition reads_back (width : nat) (z : Z) : bool :=
  let l := list_ascii_of_string (arg_padded z width "0") in
  (length l =? width)%nat
  && match digits_value 0 l with Some v => v =? z | None => false end.

(** An upper-case hexadecimal digit. *)
Definition is_hex_upper (c : ascii) : bool :=
  let n := nat_of_ascii c in
  ((48 <=? n)%nat && (n <=? 57)%nat) || ((65 <=? n)%nat && (n <=? 70)%nat).

End Qt.
(** ** The wireless device registry: [BluetoothSim.h], [BluetoothSim.cpp] *)

Module BluetoothSim.
Import Qt.

(** An [enum class] is an [int] with named values; [static_cast] from a
    stored ordinal can produce a value that has no name ([_unnamed], never
    built with an ordinal that has one). *)
Inductive BluetoothDeviceType :=
| PHONE | HEADSET | SPEAKER | CAR_AUDIO | SMARTWATCH | TABLET | LAPTOP
| BluetoothDeviceType_unnamed (ordinal : Z).

Inductive ConnectionState :=
| DISCONNECTED | SEARCHING | CONNECTING | CONNECTED | PAIRING | PAIRED | ERROR
| ConnectionState_unnamed (ordinal : Z).

#[global] Instance BluetoothDeviceType_eq_dec : EqDecision BluetoothDeviceType.
Proof. solve_decision. Defined.
#[global] Instance ConnectionState_eq_dec : EqDecision ConnectionState.
Proof. solve_decision. Defined.

Definition BluetoothDeviceType_to_int (t : BluetoothDeviceType) : Z :=
  match t with
  | PHONE => 0 | HEADSET => 1 | SPEAKER => 2 | CAR_AUDIO => 3
  | SMARTWATCH => 4 | TABLET => 5 | LAPTOP => 6
  | BluetoothDeviceType_unnamed z => z
  end.

Definition BluetoothDeviceType_of_int (z : Z) : BluetoothDeviceType :=
  match z with
  | 0 => PHONE | 1 => HEADSET | 2 => SPEAKER | 3 => CAR_AUDIO
  | 4 => SMARTWATCH | 5 => TABLET | 6 => LAPTOP
  | _ => BluetoothDeviceType_unnamed z
  end.

Definition ConnectionState_to_int (s : ConnectionState) : Z :=
  match s with
  | DISCONNECTED => 0 | SEARCHING => 1 | CONNECTING => 2 | CONNECTED => 3
  | PAIRING => 4 | PAIRED => 5 | ERROR => 6
  | ConnectionState_unnamed z => z
  end.

Definition ConnectionState_of_int (z : Z) : ConnectionState :=
  match z with
  | 0 => DISCONNECTED | 1 => SEARCHING | 2 => CONNECTING | 3 => CONNECTED
  | 4 => PAIRING | 5 => PAIRED | 6 => ERROR
  | _ => ConnectionState_unnamed z
  end.

Record BluetoothDevice := {
  deviceId : string;
  deviceName : string;
  deviceAddress : string;
  deviceType : BluetoothDeviceType;
  connectionState : ConnectionState;
  isPaired : bool;
  isTrusted : bool;
  signalStrength : Z;
  lastSeen : string;
  pairedTime : QDateTime;
  supportedProfiles : list string;
  manufacturer : string;
  model : string;
  firmwareVersion : string
}.

(** Modelled from the spec: [QList::removeOne] needs [operator==] on
    [BluetoothDevice], which the sources do not declare; the device that is
    "moved" is compared member by member. *)
#[global] Instance BluetoothDevice_eq_dec : EqDecision BluetoothDevice.
Proof. solve_decision. Defined.

Definition set_connectionState (v : ConnectionState) (d : BluetoothDevice) : BluetoothDevice :=
  Build_BluetoothDevice (deviceId d) (deviceName d) (deviceAddress d) (deviceType d) v (isPaired d) (isTrusted d) (signalStrength d) (lastSeen d) (pairedTime d) (supportedProfiles d) (manufacturer d) (model d) (firmwareVersion d).
Definition set_isPaired (v : bool) (d : BluetoothDevice) : BluetoothDevice :=
  Build_BluetoothDevice (deviceId d) (deviceName d) (deviceAddress d) (deviceType d) (connectionState d) v (isTrusted d) (signalStrength d) (lastSeen d) (pairedTime d) (supportedProfiles d) (manufacturer d) (model d) (firmwareVersion d).
Definition set_signalStrength (v : Z) (d : BluetoothDevice) : BluetoothDevice :=
  Build_BluetoothDevice (deviceId d) (deviceName d) (deviceAddress d) (deviceType d) (connectionState d) (isPaired d) (isTrusted d) v (lastSeen d) (pairedTime d) (supportedProfiles d) (manufacturer d) (model d) (firmwareVersion d).
Definition set_pairedTime (v : QDateTime) (d : BluetoothDevice) : BluetoothDevice :=
  Build_BluetoothDevice (deviceId d) (deviceName d) (deviceAddress d) (deviceType d) (connectionState d) (isPaired d) (isTrusted d) (signalStrength d) (lastSeen d) v (supportedProfiles d) (manufacturer d) (model d) (firmwareVersion d).

Inductive Signal :=
| deviceDiscovered (device : BluetoothDevice)
| deviceRemoved (id : string)
| devicePaired (id : string)
| deviceUnpaired (id : string)
| deviceConnected (id : string)
| deviceDisconnected (id : string)
| connectionStateChanged (id : string) (state : ConnectionState)
| signalStrengthChanged (id : string) (strength : Z)
| pairingError (id : string) (error : string)
| connectionError (id : string) (error : string)
| discoveryStarted
| discoveryStopped.

(** A single-shot [QTimer] made with [new QTimer(this)]: the handle stands
    for the pointer, [timer_device] for the [deviceId] its lambda captured. *)
Inductive TimerKind := PairingTimer | ConnectionTimer.

Record SingleShot := {
  timer_handle : nat;
  timer_kind : TimerKind;
  timer_device : string;
  timer_interval : Z
}.

(** The object: the members of [class BluetoothSim], then what it acts on
    (its armed single-shot timers, the signals emitted so far and the
    contents of [config/bluetooth_devices.json]). *)
Record BluetoothSim := {
  m_discoveryTimer : QTimer;
  m_stateTimer : QTimer;
  m_signalTimer : QTimer;
  m_randomGenerator : mt19937;
  m_availableDevices : list BluetoothDevice;
  m_pairedDevices : list BluetoothDevice;
  m_pairingTimers : gmap string nat;
  m_connectionTimers : gmap string nat;
  m_isInitialized : bool;
  m_isDiscovering : bool;
  m_autoReconnect : bool;
  m_simulateBluetoothOff : bool;
  m_simulateInterference : bool;
  m_simulateLowBattery : bool;
  m_discoveryTimeout : Z;
  m_pairingTimeout : Z;
  m_connectionTimeout : Z;
  m_supportedProfiles : list string;
  heap_timers : list SingleShot;
  next_timer : nat;
  emitted : list Signal;
  config_file : option QJsonValue
}.

Definition set_m_discoveryTimer (v : QTimer) (st : BluetoothSim) : BluetoothSim :=
  Build_BluetoothSim v (m_stateTimer st) (m_signalTimer st) (m_randomGenerator st) (m_availableDevices st) (m_pairedDevices st) (m_pairingTimers st) (m_connectionTimers st) (m_isInitialized st) (m_isDiscovering st) (m_autoReconnect st) (m_simulateBluetoothOff st) (m_simulateInterference st) (m_simulateLowBattery st) (m_discoveryTimeout st) (m_pairingTimeout st) (m_connectionTimeout st) (m_supportedProfiles st) (heap_timers st) (next_timer st) (emitted st) (config_file st).
Definition set_m_stateTimer (v : QTimer) (st : BluetoothSim) : BluetoothSim :=
  Build_BluetoothSim (m_discoveryTimer st) v (m_signalTimer st) (m_randomGenerator st) (m_availableDevices st) (m_pairedDevices st) (m_pairingTimers st) (m_connectionTimers st) (m_isInitialized st) (m_isDiscovering st) (m_autoReconnect st) (m_simulateBluetoothOff st) (m_simulateInterference st) (m_simulateLowBattery st) (m_discoveryTimeout st) (m_pairingTimeout st) (m_connectionTimeout st) (m_supportedProfiles st) (heap_timers st) (next_timer st) (emitted st) (config_file st).
Definition set_m_signalTimer (v : QTimer) (st : BluetoothSim) : BluetoothSim :=
  Build_BluetoothSim (m_discoveryTimer st) (m_stateTimer st) v (m_randomGenerator st) (m_availableDevices st) (m_pairedDevices st) (m_pairingTimers st) (m_connectionTimers st) (m_isInitialized st) (m_isDiscovering st) (m_autoReconnect st) (m_simulateBluetoothOff st) (m_simulateInterference st) (m_simulateLowBattery st) (m_discoveryTimeout st) (m_pairingTimeout st) (m_connectionTimeout st) (m_supportedProfiles st) (heap_timers st) (next_timer st) (emitted st) (config_file st).
Definition set_m_randomGenerator (v : mt19937) (st : BluetoothSim) : BluetoothSim :=
  Build_BluetoothSim (m_discoveryTimer st) (m_stateTimer st) (m_signalTimer st) v (m_availableDevices st) (m_pairedDevices st) (m_pairingTimers st) (m_connectionTimers st) (m_isInitialized st) (m_isDiscovering st) (m_autoReconnect st) (m_simulateBluetoothOff st) (m_simulateInterference st) (m_simulateLowBattery st) (m_discoveryTimeout st) (m_pairingTimeout st) (m_connectionTimeout st) (m_supportedProfiles st) (heap_timers st) (next_timer st) (emitted st) (config_file st).
Definition set_m_availableDevices (v : list BluetoothDevice) (st : BluetoothSim) : BluetoothSim :=
  Build_BluetoothSim (m_discoveryTimer st) (m_stateTimer st) (m_signalTimer st) (m_randomGenerator st) v (m_pairedDevices st) (m_pairingTimers st) (m_connectionTimers st) (m_isInitialized st) (m_isDiscovering st) (m_autoReconnect st) (m_simulateBluetoothOff st) (m_simulateInterference st) (m_simulateLowBattery st) (m_discoveryTimeout st) (m_pairingTimeout st) (m_connectionTimeout st) (m_supportedProfiles st) (heap_timers st) (next_timer st) (emitted st) (config_file st).
Definition set_m_pairedDevices (v : list BluetoothDevice) (st : BluetoothSim) : BluetoothSim :=
  Build_BluetoothSim (m_discoveryTimer st) (m_stateTimer st) (m_signalTimer st) (m_randomGenerator st) (m_availableDevices st) v (m_pairingTimers st) (m_connectionTimers st) (m_isInitialized st) (m_isDiscovering st) (m_autoReconnect st) (m_simulateBluetoothOff st) (m_simulateInterference st) (m_simulateLowBattery st) (m_discoveryTimeout st) (m_pairingTimeout st) (m_connectionTimeout st) (m_supportedProfiles st) (heap_timers st) (next_timer st) (emitted st) (config_file st).
Definition set_m_pairingTimers (v : gmap string nat) (st : BluetoothSim) : BluetoothSim :=
  Build_BluetoothSim (m_discoveryTimer st) (m_stateTimer st) (m_signalTimer st) (m_randomGenerator st) (m_availableDevices st) (m_pairedDevices st) v (m_connectionTimers st) (m_isInitialized st) (m_isDiscovering st) (m_autoReconnect st) (m_simulateBluetoothOff st) (m_simulateInterference st) (m_simulateLowBattery st) (m_discoveryTimeout st) (m_pairingTimeout st) (m_connectionTimeout st) (m_supportedProfiles st) (heap_timers st) (next_timer st) (emitted st) (config_file st).
Definition set_m_connectionTimers (v : gmap string nat) (st : BluetoothSim) : BluetoothSim :=
  Build_BluetoothSim (m_discoveryTimer st) (m_stateTimer st) (m_signalTimer st) (m_randomGenerator st) (m_availableDevices st) (m_pairedDevices st) (m_pairingTimers st) v (m_isInitialized st) (m_isDiscovering st) (m_autoReconnect st) (m_simulateBluetoothOff st) (m_simulateInterference st) (m_simulateLowBattery st) (m_discoveryTimeout st) (m_pairingTimeout st) (m_connectionTimeout st) (m_supportedProfiles st) (heap_timers st) (next_timer st) (emitted st) (config_file st).
Definition set_m_isInitialized (v : bool) (st : BluetoothSim) : BluetoothSim :=
  Build_BluetoothSim (m_discoveryTimer st) (m_stateTimer st) (m_signalTimer st) (m_randomGenerator st) (m_availableDevices st) (m_pairedDevices st) (m_pairingTimers st) (m_connectionTimers st) v (m_isDiscovering st) (m_autoReconnect st) (m_simulateBluetoothOff st) (m_simulateInterference st) (m_simulateLowBattery st) (m_discoveryTimeout st) (m_pairingTimeout st) (m_connectionTimeout st) (m_supportedProfiles st) (heap_timers st) (next_timer st) (emitted st) (config_file st).
Definition set_m_isDiscovering (v : bool) (st : BluetoothSim) : BluetoothSim :=
  Build_BluetoothSim (m_discoveryTimer st) (m_stateTimer st) (m_signalTimer st) (m_randomGenerator st) (m_availableDevices st) (m_pairedDevices st) (m_pairingTimers st) (m_connectionTimers st) (m_isInitialized st) v (m_autoReconnect st) (m_simulateBluetoothOff st) (m_simulateInterference st) (m_simulateLowBattery st) (m_discoveryTimeout st) (m_pairingTimeout st) (m_connectionTimeout st) (m_supportedProfiles st) (heap_timers st) (next_timer st) (emitted st) (config_file st).
Definition set_m_autoReconnect (v : bool) (st : BluetoothSim) : BluetoothSim :=
  Build_BluetoothSim (m_discoveryTimer st) (m_stateTimer st) (m_signalTimer st) (m_randomGenerator st) (m_availableDevices st) (m_pairedDevices st) (m_pairingTimers st) (m_connectionTimers st) (m_isInitialized st) (m_isDiscovering st) v (m_simulateBluetoothOff st) (m_simulateInterference st) (m_simulateLowBattery st) (m_discoveryTimeout st) (m_pairingTimeout st) (m_connectionTimeout st) (m_supportedProfiles st) (heap_timers st) (next_timer st) (emitted st) (config_file st).
Definition set_m_simulateBluetoothOff (v : bool) (st : BluetoothSim) : BluetoothSim :=
  Build_BluetoothSim (m_discoveryTimer st) (m_stateTimer st) (m_signalTimer st) (m_randomGenerator st) (m_availableDevices st) (m_pairedDevices st) (m_pairingTimers st) (m_connectionTimers st) (m_isInitialized st) (m_isDiscovering st) (m_autoReconnect st) v (m_simulateInterference st) (m_simulateLowBattery st) (m_discoveryTimeout st) (m_pairingTimeout st) (m_connectionTimeout st) (m_supportedProfiles st) (heap_timers st) (next_timer st) (emitted st) (config_file st).
Definition set_m_simulateInterference (v : bool) (st : BluetoothSim) : BluetoothSim :=
  Build_BluetoothSim (m_discoveryTimer st) (m_stateTimer st) (m_signalTimer st) (m_randomGenerator st) (m_availableDevices st) (m_pairedDevices st) (m_pairingTimers st) (m_connectionTimers st) (m_isInitialized st) (m_isDiscovering st) (m_autoReconnect st) (m_simulateBluetoothOff st) v (m_simulateLowBattery st) (m_discoveryTimeout st) (m_pairingTimeout st) (m_connectionTimeout st) (m_supportedProfiles st) (heap_timers st) (next_timer st) (emitted st) (config_file st).
Definition set_m_simulateLowBattery (v : bool) (st : BluetoothSim) : BluetoothSim :=
  Build_BluetoothSim (m_discoveryTimer st) (m_stateTimer st) (m_signalTimer st) (m_randomGenerator st) (m_availableDevices st) (m_pairedDevices st) (m_pairingTimers st) (m_connectionTimers st) (m_isInitialized st) (m_isDiscovering st) (m_autoReconnect st) (m_simulateBluetoothOff st) (m_simulateInterference st) v (m_discoveryTimeout st) (m_pairingTimeout st) (m_connectionTimeout st) (m_supportedProfiles st) (heap_timers st) (next_timer st) (emitted st) (config_file st).
Definition set_m_discoveryTimeout (v : Z) (st : BluetoothSim) : BluetoothSim :=
  Build_BluetoothSim (m_discoveryTimer st) (m_stateTimer st) (m_signalTimer st) (m_randomGenerator st) (m_availableDevices st) (m_pairedDevices st) (m_pairingTimers st) (m_connectionTimers st) (m_isInitialized st) (m_isDiscovering st) (m_autoReconnect st) (m_simulateBluetoothOff st) (m_simulateInterference st) (m_simulateLowBattery st) v (m_pairingTimeout st) (m_connectionTimeout st) (m_supportedProfiles st) (heap_timers st) (next_timer st) (emitted st) (config_file st).
Definition set_m_pairingTimeout (v : Z) (st : BluetoothSim) : BluetoothSim :=
  Build_BluetoothSim (m_discoveryTimer st) (m_stateTimer st) (m_signalTimer st) (m_randomGenerator st) (m_availableDevices st) (m_pairedDevices st) (m_pairingTimers st) (m_connectionTimers st) (m_isInitialized st) (m_isDiscovering st) (m_autoReconnect st) (m_simulateBluetoothOff st) (m_simulateInterference st) (m_simulateLowBattery st) (m_discoveryTimeout st) v (m_connectionTimeout st) (m_supportedProfiles st) (heap_timers st) (next_timer st) (emitted st) (config_file st).
Definition set_m_connectionTimeout (v : Z) (st : BluetoothSim) : BluetoothSim :=
  Build_BluetoothSim (m_discoveryTimer st) (m_stateTimer st) (m_signalTimer st) (m_randomGenerator st) (m_availableDevices st) (m_pairedDevices st) (m_pairingTimers st) (m_connectionTimers st) (m_isInitialized st) (m_isDiscovering st) (m_autoReconnect st) (m_simulateBluetoothOff st) (m_simulateInterference st) (m_simulateLowBattery st) (m_discoveryTimeout st) (m_pairingTimeout st) v (m_supportedProfiles st) (heap_timers st) (next_timer st) (emitted st) (config_file st).
Definition set_heap_timers (v : list SingleShot) (st : BluetoothSim) : BluetoothSim :=
  Build_BluetoothSim (m_discoveryTimer st) (m_stateTimer st) (m_signalTimer st) (m_randomGenerator st) (m_availableDevices st) (m_pairedDevices st) (m_pairingTimers st) (m_connectionTimers st) (m_isInitialized st) (m_isDiscovering st) (m_autoReconnect st) (m_simulateBluetoothOff st) (m_simulateInterference st) (m_simulateLowBattery st) (m_discoveryTimeout st) (m_pairingTimeout st) (m_connectionTimeout st) (m_supportedProfiles st) v (next_timer st) (emitted st) (config_file st).
Definition set_next_timer (v : nat) (st : BluetoothSim) : BluetoothSim :=
  Build_BluetoothSim (m_discoveryTimer st) (m_stateTimer st) (m_signalTimer st) (m_randomGenerator st) (m_availableDevices st) (m_pairedDevices st) (m_pairingTimers st) (m_connectionTimers st) (m_isInitialized st) (m_isDiscovering st) (m_autoReconnect st) (m_simulateBluetoothOff st) (m_simulateInterference st) (m_simulateLowBattery st) (m_discoveryTimeout st) (m_pairingTimeout st) (m_connectionTimeout st) (m_supportedProfiles st) (heap_timers st) v (emitted st) (config_file st).
Definition set_emitted (v : list Signal) (st : BluetoothSim) : BluetoothSim :=
  Build_BluetoothSim (m_discoveryTimer st) (m_stateTimer st) (m_signalTimer st) (m_randomGenerator st) (m_availableDevices st) (m_pairedDevices st) (m_pairingTimers st) (m_connectionTimers st) (m_isInitialized st) (m_isDiscovering st) (m_autoReconnect st) (m_simulateBluetoothOff st) (m_simulateInterference st) (m_simulateLowBattery st) (m_discoveryTimeout st) (m_pairingTimeout st) (m_connectionTimeout st) (m_supportedProfiles st) (heap_timers st) (next_timer st) v (config_file st).
Definition set_config_file (v : option QJsonValue) (st : BluetoothSim) : BluetoothSim :=
  Build_BluetoothSim (m_discoveryTimer st) (m_stateTimer st) (m_signalTimer st) (m_randomGenerator st) (m_availableDevices st) (m_pairedDevices st) (m_pairingTimers st) (m_connectionTimers st) (m_isInitialized st) (m_isDiscovering st) (m_autoReconnect st) (m_simulateBluetoothOff st) (m_simulateInterference st) (m_simulateLowBattery st) (m_discoveryTimeout st) (m_pairingTimeout st) (m_connectionTimeout st) (m_supportedProfiles st) (heap_timers st) (next_timer st) (emitted st) v.

Definition emit (s : Signal) (st : BluetoothSim) : BluetoothSim :=
  set_emitted (emitted st ++ [s]) st.

Definition DEFAULT_SUPPORTED_PROFILES : list string :=
  ["A2DP"; "AVRCP"; "HFP"; "HSP"; "PBAP"; "MAP"; "OPP"; "HID"].

(** The first element of the list with this id, and its index: what each
    [for (auto& device : list) if (device.deviceId == deviceId)] finds. *)
Definition findDevice (id : string) (l : list BluetoothDevice) :
  option (nat * BluetoothDevice) :=
  list_find (λ d, deviceId d = id) l.

(** [QList::removeOne]: drops the first element equal to [x]. *)
Fixpoint removeOne (x : BluetoothDevice) (l : list BluetoothDevice) :
  list BluetoothDevice :=
  match l with
  | [] => []
  | y :: rest => if decide (y = x) then rest else y :: removeOne x rest
  end.

(** [QList::erase(it)] at a position. *)
Definition erase_at {A} (i : nat) (l : list A) : list A := take i l ++ drop (S i) l.

(** *** Stack state and discovery *)

Definition isInitialized (st : BluetoothSim) : bool :=
  m_isInitialized st && negb (m_simulateBluetoothOff st).

Definition initialize (st : BluetoothSim) : bool * BluetoothSim :=
  if m_simulateBluetoothOff st then (false, st)
  else (true, set_m_signalTimer (Some 3000)
                (set_m_stateTimer (Some 5000) (set_m_isInitialized true st))).

Definition startDiscovery (st : BluetoothSim) : BluetoothSim :=
  if negb (isInitialized st) then st
  else emit discoveryStarted
         (set_m_discoveryTimer (Some 2000) (set_m_isDiscovering true st)).

Definition stopDiscovery (st : BluetoothSim) : BluetoothSim :=
  emit discoveryStopped (set_m_discoveryTimer None (set_m_isDiscovering false st)).

Definition isDiscovering (st : BluetoothSim) : bool :=
  m_isDiscovering st && isInitialized st.

(** *** Queries *)

Definition default_BluetoothDevice : BluetoothDevice :=
  Build_BluetoothDevice "" "" "" PHONE DISCONNECTED false false 0 ""
    null_QDateTime [] "" "" "".

Definition getDevice (id : string) (st : BluetoothSim) : BluetoothDevice :=
  match findDevice id (m_availableDevices st) with
  | Some (_, d) => d
  | None =>
      match findDevice id (m_pairedDevices st) with
      | Some (_, d) => d
      | None => default_BluetoothDevice
      end
  end.

Definition isDevicePaired (id : string) (st : BluetoothSim) : bool :=
  match findDevice id (m_pairedDevices st) with
  | Some (_, d) => isPaired d
  | None => false
  end.

Definition getConnectionState (id : string) (st : BluetoothSim) : ConnectionState :=
  match findDevice id (m_pairedDevices st) with
  | Some (_, d) => connectionState d
  | None => DISCONNECTED
  end.

Definition getSignalStrength (id : string) (st : BluetoothSim) : Z :=
  match findDevice id (m_availableDevices st) with
  | Some (_, d) => signalStrength d
  | None =>
      match findDevice id (m_pairedDevices st) with
      | Some (_, d) => signalStrength d
      | None => 0
      end
  end.

(** *** Persistence *)

Definition device_toJson (d : BluetoothDevice) : QJsonValue :=
  JObject
    [ ("deviceId", JString (deviceId d));
      ("deviceName", JString (deviceName d));
      ("deviceAddress", JString (deviceAddress d));
      ("deviceType", JInt (BluetoothDeviceType_to_int (deviceType d)));
      ("connectionState", JInt (ConnectionState_to_int (connectionState d)));
      ("isPaired", JBool (isPaired d));
      ("isTrusted", JBool (isTrusted d));
      ("signalStrength", JInt (signalStrength d));
      ("lastSeen", JString (lastSeen d));
      ("pairedTime", JString (toString_ISODate (pairedTime d)));
      ("supportedProfiles", JArray (map JString (supportedProfiles d)));
      ("manufacturer", JString (manufacturer d));
      ("model", JString (model d));
      ("firmwareVersion", JString (firmwareVersion d)) ].

(** [savePairedDevices]: the whole file is overwritten (opening it for
    writing is taken to succeed). *)
Definition savePairedDevices (st : BluetoothSim) : BluetoothSim :=
  set_config_file (Some (JArray (map device_toJson (m_pairedDevices st)))) st.

(** *** Pairing *)

(** [simulatePairingProcess]: a new single-shot timer is armed and recorded
    under the device id, replacing what the map held there. *)
Definition simulatePairingProcess (id : string) (st : BluetoothSim) : BluetoothSim :=
  let t := next_timer st in
  let timer := Build_SingleShot t PairingTimer id (to_int32 (m_pairingTimeout st * 1000)) in
  set_m_pairingTimers (<[id := t]> (m_pairingTimers st))
    (set_next_timer (S t) (set_heap_timers (heap_timers st ++ [timer]) st)).

Definition pairDevice (id : string) (st : BluetoothSim) : bool * BluetoothSim :=
  if negb (isInitialized st) then (false, st)
  else
    match findDevice id (m_availableDevices st) with
    | Some (i, d) =>
        if decide (connectionState d = PAIRING) then (false, st)
        else
          let st1 :=
            set_m_availableDevices
              (<[i := set_connectionState PAIRING d]> (m_availableDevices st)) st in
          let st2 := emit (connectionStateChanged id PAIRING) st1 in
          (true, simulatePairingProcess id st2)
    | None => (false, st)
    end.

(** The lambda connected to the pairing timer's [timeout], for the captured
    [id]; [now] is the clock reading when it runs. [device] is a reference
    into [m_availableDevices]: the element is updated in place, a copy of it
    is appended to [m_pairedDevices], and the first element equal to it is
    removed from [m_availableDevices]. *)
Definition pairingCompleted (now : Clock) (id : string) (st : BluetoothSim) : BluetoothSim :=
  let st' :=
    match findDevice id (m_availableDevices st) with
    | Some (i, d) =>
        let device :=
          set_pairedTime (currentDateTime now)
            (set_connectionState PAIRED (set_isPaired true d)) in
        let available := <[i := device]> (m_availableDevices st) in
        let st1 := set_m_availableDevices available st in
        let st2 := set_m_pairedDevices (m_pairedDevices st1 ++ [device]) st1 in
        let st3 := set_m_availableDevices (removeOne device (m_availableDevices st2)) st2 in
        let st4 := emit (devicePaired id) st3 in
        let st5 := emit (connectionStateChanged id PAIRED) st4 in
        savePairedDevices st5
    | None => st
    end in
  set_m_pairingTimers (delete id (m_pairingTimers st')) st'.

(** *** Connection *)

Definition simulateConnectionProcess (id : string) (st : BluetoothSim) : BluetoothSim :=
  let t := next_timer st in
  let timer := Build_SingleShot t ConnectionTimer id (to_int32 (m_connectionTimeout st * 1000)) in
  set_m_connectionTimers (<[id := t]> (m_connectionTimers st))
    (set_next_timer (S t) (set_heap_timers (heap_timers st ++ [timer]) st)).

Definition connectDevice (id : string) (st : BluetoothSim) : bool * BluetoothSim :=
  if negb (isInitialized st) then (false, st)
  else if negb (isDevicePaired id st) then (false, st)
  else
    match findDevice id (m_pairedDevices st) with
    | Some (i, d) =>
        if decide (connectionState d = CONNECTING) then (false, st)
        else
          let st1 :=
            set_m_pairedDevices
              (<[i := set_connectionState CONNECTING d]> (m_pairedDevices st)) st in
          let st2 := emit (connectionStateChanged id CONNECTING) st1 in
          (true, simulateConnectionProcess id st2)
    | None => (false, st)
    end.

Definition connectionCompleted (id : string) (st : BluetoothSim) : BluetoothSim :=
  let st' :=
    match findDevice id (m_pairedDevices st) with
    | Some (i, d) =>
        let st1 :=
          set_m_pairedDevices
            (<[i := set_connectionState CONNECTED d]> (m_pairedDevices st)) st in
        emit (connectionStateChanged id CONNECTED) (emit (deviceConnected id) st1)
    | None => st
    end in
  set_m_connectionTimers (delete id (m_connectionTimers st')) st'.

(** The loop of [disconnectDevice] goes on past a device with the id that is
    not connected: it stops at the first one that has the id and is
    [CONNECTED]. *)
Definition disconnectDevice (id : string) (st : BluetoothSim) : bool * BluetoothSim :=
  match list_find (λ d, deviceId d = id ∧ connectionState d = CONNECTED)
          (m_pairedDevices st) with
  | Some (i, d) =>
      let st1 :=
        set_m_pairedDevices
          (<[i := set_connectionState DISCONNECTED d]> (m_pairedDevices st)) st in
      (true, emit (connectionStateChanged id DISCONNECTED) (emit (deviceDisconnected id) st1))
  | None => (false, st)
  end.

Definition unpairDevice (id : string) (st : BluetoothSim) : bool * BluetoothSim :=
  match findDevice id (m_pairedDevices st) with
  | Some (i, d) =>
      let st1 :=
        if decide (connectionState d = CONNECTED) then snd (disconnectDevice id st)
        else st in
      let st2 := set_m_pairedDevices (erase_at i (m_pairedDevices st1)) st1 in
      (true, savePairedDevices (emit (deviceUnpaired id) st2))
  | None => (false, st)
  end.

(** A fired single-shot timer runs its lambda, is deleted, and the map entry
    of its device id is removed. *)
Definition timeout (now : Clock) (handle : nat) (st : BluetoothSim) : BluetoothSim :=
  match list_find (λ t, timer_handle t = handle) (heap_timers st) with
  | Some (i, t) =>
      let st1 := set_heap_timers (erase_at i (heap_timers st)) st in
      match timer_kind t with
      | PairingTimer => pairingCompleted now (timer_device t) st1
      | ConnectionTimer => connectionCompleted (timer_device t) st1
      end
  | None => st
  end.

(** *** Device simulation *)

(** [generateDeviceAddress]: six draws, each printed as two upper-case
    hexadecimal digits, joined by colons. *)
Fixpoint generateDeviceAddress_from (n : nat) (first : bool) (g : mt19937) : string * mt19937 :=
  match n with
  | O => ("", g)
  | S n' =>
      let (r, g1) := draw g in
      let (rest, g2) := generateDeviceAddress_from n' false g1 in
      ((if first then "" else ":") +:+ hex2_upper (to_result_type r mod 256) +:+ rest, g2)
  end.

Definition generateDeviceAddress (g : mt19937) : string * mt19937 :=
  generateDeviceAddress_from 6 true g.

Definition generateSupportedProfiles (type : BluetoothDeviceType) : list string :=
  match type with
  | PHONE => ["A2DP"; "AVRCP"; "HFP"; "HSP"; "PBAP"; "MAP"]
  | HEADSET => ["A2DP"; "AVRCP"; "HFP"; "HSP"]
  | SPEAKER => ["A2DP"; "AVRCP"]
  | CAR_AUDIO => ["A2DP"; "AVRCP"; "HFP"; "HSP"; "PBAP"; "MAP"]
  | SMARTWATCH => ["HFP"; "HSP"; "OPP"]
  | _ => ["A2DP"; "AVRCP"]
  end.

(** The record [simulateDeviceAppearance] builds, and the generator after
    the seven draws it makes (six for the address, one for the strength). *)
Definition newDevice (now1 now2 : Clock) (name : string) (type : BluetoothDeviceType)
  (g : mt19937) : BluetoothDevice * mt19937 :=
  let id := "BT_" +:+ number (currentMSecsSinceEpoch now1) in
  let (address, g1) := generateDeviceAddress g in
  let (r, g2) := draw g1 in
  ({| deviceId := id;
      deviceName := name;
      deviceAddress := address;
      deviceType := type;
      connectionState := DISCONNECTED;
      isPaired := false;
      isTrusted := false;
      signalStrength := to_int32 (to_result_type (75 + to_result_type r mod 25));
      lastSeen := toString_ymd_hms (currentDateTime now2);
      pairedTime := null_QDateTime;
      supportedProfiles := generateSupportedProfiles type;
      manufacturer := "Generic Manufacturer";
      model := "Generic Model";
      firmwareVersion := "1.0.0" |}, g2).

(** [simulateDeviceAppearance]; the clock is read twice, for the id
    ([now1]) and for [lastSeen] ([now2]). *)
Definition simulateDeviceAppearance (now1 now2 : Clock) (name : string)
  (type : BluetoothDeviceType) (st : BluetoothSim) : BluetoothSim :=
  let (device, g) := newDevice now1 now2 name type (m_randomGenerator st) in
  emit (deviceDiscovered device)
    (set_m_availableDevices (m_availableDevices st ++ [device])
       (set_m_randomGenerator g st)).

Definition simulateDeviceDisappearance (id : string) (st : BluetoothSim) : BluetoothSim :=
  match findDevice id (m_availableDevices st) with
  | Some (i, _) =>
      set_m_availableDevices (erase_at i (m_availableDevices st))
        (emit (deviceRemoved id) st)
  | None => st
  end.

Definition simulateConnectionError (id : string) (enable : bool) (st : BluetoothSim) : BluetoothSim :=
  if enable then emit (connectionError id "Simulated connection error") st else st.

Definition simulatePairingError (id : string) (enable : bool) (st : BluetoothSim) : BluetoothSim :=
  if enable then emit (pairingError id "Simulated pairing error") st else st.

Definition simulateBluetoothOff (enable : bool) (st : BluetoothSim) : BluetoothSim :=
  let st1 := set_m_simulateBluetoothOff enable st in
  if enable then stopDiscovery st1 else st1.

Definition simulateInterference (enable : bool) (st : BluetoothSim) : BluetoothSim :=
  set_m_simulateInterference enable st.

Definition simulateLowBattery (enable : bool) (st : BluetoothSim) : BluetoothSim :=
  set_m_simulateLowBattery enable st.

(** [generateMockDevices]: seven appearances in a row; [clock k] is the
    [k]-th reading of the system clock during the call. *)
Definition mockDevices : list (string * BluetoothDeviceType) :=
  [ ("iPhone 15 Pro", PHONE); ("Samsung Galaxy S24", PHONE);
    ("Sony WH-1000XM5", HEADSET); ("Bose QuietComfort 45", HEADSET);
    ("JBL Flip 6", SPEAKER); ("VW Passat Audio", CAR_AUDIO);
    ("Apple Watch Series 9", SMARTWATCH) ].

Fixpoint appearances (clock : nat -> Clock) (k : nat)
  (l : list (string * BluetoothDeviceType)) (st : BluetoothSim) : BluetoothSim :=
  match l with
  | [] => st
  | (name, type) :: rest =>
      appearances clock (S (S k)) rest
        (simulateDeviceAppearance (clock k) (clock (S k)) name type st)
  end.

Definition generateMockDevices (clock : nat -> Clock) (st : BluetoothSim) : BluetoothSim :=
  appearances clock 0 mockDevices st.

(** [updateDeviceStates], the slot of the discovery and state timers. *)
Definition updateDeviceStates (clock : nat -> Clock) (st : BluetoothSim) : BluetoothSim :=
  if negb (isInitialized st) then st
  else if m_isDiscovering st then
    let (r, g) := draw (m_randomGenerator st) in
    let st1 := set_m_randomGenerator g st in
    if to_result_type r mod 100 <? 10 then generateMockDevices clock st1 else st1
  else st.

(** [qBound(0, v, 100)]. *)
Definition qBound (lo v hi : Z) : Z := Z.max lo (Z.min hi v).

(** [device.signalStrength + (m_randomGenerator() % 11 - 5)]: the
    subtraction and the sum are done in the unsigned result type and the sum
    is converted back to [int]. *)
Definition walk (strength r : Z) : Z :=
  to_int32 (to_result_type (to_result_type strength
                             + to_result_type (to_result_type r mod 11 - 5))).

Fixpoint updateSignalStrengths_loop (l : list BluetoothDevice) (g : mt19937) :
  list BluetoothDevice * list Signal * mt19937 :=
  match l with
  | [] => ([], [], g)
  | d :: rest =>
      let (r, g1) := draw g in
      let newStrength := qBound 0 (walk (signalStrength d) r) 100 in
      let '(rest', sigs, g2) := updateSignalStrengths_loop rest g1 in
      if decide (newStrength = signalStrength d) then (d :: rest', sigs, g2)
      else (set_signalStrength newStrength d :: rest',
            signalStrengthChanged (deviceId d) newStrength :: sigs, g2)
  end.

Definition updateSignalStrengths (st : BluetoothSim) : BluetoothSim :=
  if negb (isInitialized st) then st
  else
    let '(available, sigs1, g1) :=
      updateSignalStrengths_loop (m_availableDevices st) (m_randomGenerator st) in
    let '(paired, sigs2, g2) := updateSignalStrengths_loop (m_pairedDevices st) g1 in
    set_emitted (emitted st ++ sigs1 ++ sigs2)
      (set_m_randomGenerator g2
         (set_m_pairedDevices paired (set_m_availableDevices available st))).

Definition updateSignalStrength_in (id : string) (strength : Z)
  (l : list BluetoothDevice) : option (list BluetoothDevice) :=
  match findDevice id l with
  | Some (i, d) => Some (<[i := set_signalStrength strength d]> l)
  | None => None
  end.

Definition updateSignalStrength (id : string) (strength : Z) (st : BluetoothSim) : BluetoothSim :=
  let st1 :=
    match updateSignalStrength_in id strength (m_availableDevices st) with
    | Some l => emit (signalStrengthChanged id strength) (set_m_availableDevices l st)
    | None => st
    end in
  match updateSignalStrength_in id strength (m_pairedDevices st1) with
  | Some l => emit (signalStrengthChanged id strength) (set_m_pairedDevices l st1)
  | None => st1
  end.

(** *** Loading and construction *)

Definition device_fromJson (value : QJsonValue) : BluetoothDevice :=
  let deviceObj := toObject value in
  {| deviceId := toString (member "deviceId" deviceObj);
     deviceName := toString (member "deviceName" deviceObj);
     deviceAddress := toString (member "deviceAddress" deviceObj);
     deviceType := BluetoothDeviceType_of_int (toInt (member "deviceType" deviceObj));
     connectionState := ConnectionState_of_int (toInt (member "connectionState" deviceObj));
     isPaired := toBool (member "isPaired" deviceObj);
     isTrusted := toBool (member "isTrusted" deviceObj);
     signalStrength := toInt (member "signalStrength" deviceObj);
     lastSeen := toString (member "lastSeen" deviceObj);
     pairedTime := fromString_ISODate (toString (member "pairedTime" deviceObj));
     supportedProfiles := toStringList (member "supportedProfiles" deviceObj);
     manufacturer := toString (member "manufacturer" deviceObj);
     model := toString (member "model" deviceObj);
     firmwareVersion := toString (member "firmwareVersion" deviceObj) |}.

(** [loadPairedDevices]: the devices of the file are appended; without a
    file nothing happens, and a document that is not an array holds none. *)
Definition loadPairedDevices (st : BluetoothSim) : BluetoothSim :=
  match config_file st with
  | Some doc =>
      set_m_pairedDevices (m_pairedDevices st ++ map device_fromJson (toArray doc)) st
  | None => st
  end.

(** The constructor, for a seeded generator and the file found on disk. *)
Definition construct (g : mt19937) (file : option QJsonValue) : BluetoothSim :=
  loadPairedDevices
    {| m_discoveryTimer := None; m_stateTimer := None; m_signalTimer := None;
       m_randomGenerator := g;
       m_availableDevices := []; m_pairedDevices := [];
       m_pairingTimers := ∅; m_connectionTimers := ∅;
       m_isInitialized := false; m_isDiscovering := false;
       m_autoReconnect := true; m_simulateBluetoothOff := false;
       m_simulateInterference := false; m_simulateLowBattery := false;
       m_discoveryTimeout := 30; m_pairingTimeout := 10; m_connectionTimeout := 15;
       m_supportedProfiles := DEFAULT_SUPPORTED_PROFILES;
       heap_timers := []; next_timer := O; emitted := [];
       config_file := file |}.

(** The calls and events that act on the registry, for statements about
    every reachable state. *)
Inductive Event :=
| call_initialize
| call_startDiscovery
| call_stopDiscovery
| call_pairDevice (id : string)
| call_unpairDevice (id : string)
| call_connectDevice (id : string)
| call_disconnectDevice (id : string)
| call_simulateDeviceAppearance (now1 now2 : Clock) (name : string) (type : BluetoothDeviceType)
| call_simulateDeviceDisappearance (id : string)
| call_updateSignalStrength (id : string) (strength : Z)
| call_simulateBluetoothOff (enable : bool)
| call_simulateInterference (enable : bool)
| call_simulateLowBattery (enable : bool)
| timer_discovery (clock : nat -> Clock)
| timer_state (clock : nat -> Clock)
| timer_signal
| timer_singleShot (now : Clock) (handle : nat).

Definition step (e : Event) (st : BluetoothSim) : BluetoothSim :=
  match e with
  | call_initialize => snd (initialize st)
  | call_startDiscovery => startDiscovery st
  | call_stopDiscovery => stopDiscovery st
  | call_pairDevice id => snd (pairDevice id st)
  | call_unpairDevice id => snd (unpairDevice id st)
  | call_connectDevice id => snd (connectDevice id st)
  | call_disconnectDevice id => snd (disconnectDevice id st)
  | call_simulateDeviceAppearance now1 now2 name type =>
      simulateDeviceAppearance now1 now2 name type st
  | call_simulateDeviceDisappearance id => simulateDeviceDisappearance id st
  | call_updateSignalStrength id strength => updateSignalStrength id strength st
  | call_simulateBluetoothOff enable => simulateBluetoothOff enable st
  | call_simulateInterference enable => simulateInterference enable st
  | call_simulateLowBattery enable => simulateLowBattery enable st
  | timer_discovery clock =>
      match m_discoveryTimer st with Some _ => updateDeviceStates clock st | None => st end
  | timer_state clock =>
      match m_stateTimer st with Some _ => updateDeviceStates clock st | None => st end
  | timer_signal =>
      match m_signalTimer st with Some _ => updateSignalStrengths st | None => st end
  | timer_singleShot now handle => timeout now handle st
  end.

Definition run (events : list Event) (st : BluetoothSim) : BluetoothSim :=
  fold_left (λ s e, step e s) events st.

(** *** Predicates on the registry *)

(** What the fault leaves behind: the flag is set, discovery is not
    running and its timer is stopped. *)
Definition off_state (st : BluetoothSim) : Prop :=
  m_simulateBluetoothOff st = true
  /\ m_isDiscovering st = false
  /\ m_discoveryTimer st = None.

(** The id and the state of a device are all the pairing logic looks at. *)
Definition key (d : BluetoothDevice) : string * ConnectionState :=
  (deviceId d, connectionState d).

(** A device in state [PAIRING] is the first of the list with its id. *)
Definition pairing_first (ks : list (string * ConnectionState)) : Prop :=
  forall i j id id' s,
    ks !! i = Some (id, PAIRING) -> ks !! j = Some (id', s) -> (j < i)%nat -> id' <> id.

Definition keys (st : BluetoothSim) : list (string * ConnectionState) :=
  key <$> m_availableDevices st.

(** The devices of a list that have the id. *)
Definition with_id (id : string) (l : list BluetoothDevice) : list BluetoothDevice :=
  filter (λ d, deviceId d = id) l.

(** *** Devices as the file can hold them *)

(** An unnamed enumeration value has no named ordinal and fits an [int]. *)
Definition wf_BluetoothDeviceType (t : BluetoothDeviceType) : Prop :=
  match t with
  | BluetoothDeviceType_unnamed z => (z < 0 \/ 6 < z) /\ in_int32 z
  | _ => True
  end.

Definition wf_ConnectionState (s : ConnectionState) : Prop :=
  match s with
  | ConnectionState_unnamed z => (z < 0 \/ 6 < z) /\ in_int32 z
  | _ => True
  end.

Definition wf_device (d : BluetoothDevice) : Prop :=
  wf_BluetoothDeviceType (deviceType d)
  /\ wf_ConnectionState (connectionState d)
  /\ in_int32 (signalStrength d)
  /\ wf_QDateTime (pairedTime d).

(** The device as it comes back from the file: the pairing time to the
    second. *)
Definition persisted (d : BluetoothDevice) : BluetoothDevice :=
  set_pairedTime (whole_seconds (pairedTime d)) d.

(** A tick of the signal timer relates a device to what it becomes: the
    same device but for its strength, which stays in [0, 100] and moves by at
    most 5. *)
Definition strength_step (d d' : BluetoothDevice) : Prop :=
  d' = set_signalStrength (signalStrength d') d
  /\ 0 <= signalStrength d' <= 100
  /\ - 5 <= signalStrength d' - signalStrength d <= 5.

(** The notifications a tick owes: one for each device whose strength is
    not what it was, in the order of the list. *)
Fixpoint strength_changes (before after : list BluetoothDevice) : list Signal :=
  match before, after with
  | d :: before', d' :: after' =>
      (if decide (signalStrength d' = signalStrength d) then []
       else [signalStrengthChanged (deviceId d) (signalStrength d')])
      ++ strength_changes before' after'
  | _, _ => []
  end.

(** An available device as discovery made it or as [pairDevice] left it:
    not paired, disconnected or pairing, never given a pairing time. *)
Definition unpaired_device (d : BluetoothDevice) : Prop :=
  isPaired d = false
  /\ (connectionState d = DISCONNECTED \/ connectionState d = PAIRING)
  /\ pairedTime d = null_QDateTime.

(** Six pairs of upper-case hexadecimal digits separated by colons. *)
Definition is_device_address (s : string) : bool :=
  match list_ascii_of_string s with
  | [a0; b0; c0; a1; b1; c1; a2; b2; c2; a3; b3; c3; a4; b4; c4; a5; b5] =>
      forallb is_hex_upper [a0; b0; a1; b1; a2; b2; a3; b3; a4; b4; a5; b5]
      && forallb (λ c, bool_decide (c = ":"%char)) [c0; c1; c2; c3; c4]
  | _ => false
  end.

(** A device as [simulateDeviceAppearance] makes it, whatever its strength
    and state became since. *)
Definition discovered_device (d : BluetoothDevice) : Prop :=
  String.prefix "BT_" (deviceId d) = true
  /\ is_device_address (deviceAddress d) = true
  /\ supportedProfiles d = generateSupportedProfiles (deviceType d)
  /\ isTrusted d = false
  /\ manufacturer d = "Generic Manufacturer" /\ model d = "Generic Model"
  /\ firmwareVersion d = "1.0.0".

(** *** The two collections *)

(** The record a completed pairing makes of a device. *)
Definition paired_record (now : Clock) (d : BluetoothDevice) : BluetoothDevice :=
  set_pairedTime (currentDateTime now) (set_connectionState PAIRED (set_isPaired true d)).

(** How often a record occurs in a collection. *)
Definition occurrences (d : BluetoothDevice) (l : list BluetoothDevice) : nat :=
  count_occ BluetoothDevice_eq_dec l d.

(** No record is in both collections. *)
Definition disjoint_collections (st : BluetoothSim) : Prop :=
  forall d, d ∈ m_availableDevices st -> d ∉ m_pairedDevices st.

(** Every device of a list has its paired flag. *)
Definition paired_flags (l : list BluetoothDevice) : Prop :=
  Forall (λ d, isPaired d = true) l.

(** The devices a file holds, as [loadPairedDevices] reads them. *)
Definition saved_devices (file : option QJsonValue) : list BluetoothDevice :=
  match file with
  | Some doc => map device_fromJson (toArray doc)
  | None => []
  end.

(** The paired devices have their flag, and so have the devices of the
    file. *)
Definition flagged (st : BluetoothSim) : Prop :=
  paired_flags (m_pairedDevices st) /\ paired_flags (saved_devices (config_file st)).

End BluetoothSim.

(** ** The storage device registry: [USBMonitor.h], [USBMonitor.cpp] *)

Module USBMonitor.
Import Qt.

Record MediaFile := {
  fileName : string;
  filePath : string;
  title : string;
  artist : string;
  album : string;
  duration : string;
  fileSize : Z;
  fileType : string;
  lastModified : QDateTime
}.

Record USBDevice := {
  deviceId : string;
  deviceName : string;
  mountPoint : string;
  totalSpace : Z;
  freeSpace : Z;
  fileSystem : string;
  isConnected : bool;
  connectedTime : QDateTime;
  mediaFiles : list MediaFile
}.

Definition set_mountPoint (v : string) (d : USBDevice) : USBDevice :=
  Build_USBDevice (deviceId d) (deviceName d) v (totalSpace d) (freeSpace d) (fileSystem d) (isConnected d) (connectedTime d) (mediaFiles d).
Definition set_totalSpace (v : Z) (d : USBDevice) : USBDevice :=
  Build_USBDevice (deviceId d) (deviceName d) (mountPoint d) v (freeSpace d) (fileSystem d) (isConnected d) (connectedTime d) (mediaFiles d).
Definition set_freeSpace (v : Z) (d : USBDevice) : USBDevice :=
  Build_USBDevice (deviceId d) (deviceName d) (mountPoint d) (totalSpace d) v (fileSystem d) (isConnected d) (connectedTime d) (mediaFiles d).
Definition set_fileSystem (v : string) (d : USBDevice) : USBDevice :=
  Build_USBDevice (deviceId d) (deviceName d) (mountPoint d) (totalSpace d) (freeSpace d) v (isConnected d) (connectedTime d) (mediaFiles d).
Definition set_isConnected (v : bool) (d : USBDevice) : USBDevice :=
  Build_USBDevice (deviceId d) (deviceName d) (mountPoint d) (totalSpace d) (freeSpace d) (fileSystem d) v (connectedTime d) (mediaFiles d).
Definition set_mediaFiles (v : list MediaFile) (d : USBDevice) : USBDevice :=
  Build_USBDevice (deviceId d) (deviceName d) (mountPoint d) (totalSpace d) (freeSpace d) (fileSystem d) (isConnected d) (connectedTime d) v.

Inductive Signal :=
| deviceConnected (device : USBDevice)
| deviceDisconnected (id : string)
| mediaFilesChanged (id : string) (files : list MediaFile)
| mountError (id : string) (error : string)
| fileSystemError (id : string) (error : string)
| mediaFileAdded (id : string) (file : MediaFile)
| mediaFileRemoved (id : string) (name : string).

(** The file system as a call sees it. A directory that exists has an
    absolute path and regular, non-hidden files, in the order [QDir] lists
    them; a mounted volume has sizes and a type. *)
Record FileEntry := {
  entry_name : string;
  entry_size : Z;
  entry_lastModified : QDateTime
}.

Record Directory := {
  absolutePath : string;
  files : list FileEntry
}.

Record StorageInfo := {
  bytesTotal : Z;
  bytesAvailable : Z;
  fileSystemType : string
}.

Record FileSystem := {
  directory : string -> option Directory;
  storage : string -> option StorageInfo
}.

(** The object: the members of [class USBMonitor] (the watcher as the
    paths it watches), the signals emitted so far and the contents of
    [config/usb_devices.json]. *)
Record USBMonitor := {
  m_fileSystemWatcher : list string;
  m_scanTimer : QTimer;
  m_connectedDevices : list USBDevice;
  m_watchDirectories : list string;
  m_supportedFormats : list string;
  m_isMonitoring : bool;
  m_autoScan : bool;
  m_simulateMountError : bool;
  m_simulateFileSystemError : bool;
  m_simulateCorruptedFiles : bool;
  emitted : list Signal;
  config_file : option QJsonValue
}.

Definition set_m_fileSystemWatcher (v : list string) (st : USBMonitor) : USBMonitor :=
  Build_USBMonitor v (m_scanTimer st) (m_connectedDevices st) (m_watchDirectories st) (m_supportedFormats st) (m_isMonitoring st) (m_autoScan st) (m_simulateMountError st) (m_simulateFileSystemError st) (m_simulateCorruptedFiles st) (emitted st) (config_file st).
Definition set_m_scanTimer (v : QTimer) (st : USBMonitor) : USBMonitor :=
  Build_USBMonitor (m_fileSystemWatcher st) v (m_connectedDevices st) (m_watchDirectories st) (m_supportedFormats st) (m_isMonitoring st) (m_autoScan st) (m_simulateMountError st) (m_simulateFileSystemError st) (m_simulateCorruptedFiles st) (emitted st) (config_file st).
Definition set_m_connectedDevices (v : list USBDevice) (st : USBMonitor) : USBMonitor :=
  Build_USBMonitor (m_fileSystemWatcher st) (m_scanTimer st) v (m_watchDirectories st) (m_supportedFormats st) (m_isMonitoring st) (m_autoScan st) (m_simulateMountError st) (m_simulateFileSystemError st) (m_simulateCorruptedFiles st) (emitted st) (config_file st).
Definition set_m_watchDirectories (v : list string) (st : USBMonitor) : USBMonitor :=
  Build_USBMonitor (m_fileSystemWatcher st) (m_scanTimer st) (m_connectedDevices st) v (m_supportedFormats st) (m_isMonitoring st) (m_autoScan st) (m_simulateMountError st) (m_simulateFileSystemError st) (m_simulateCorruptedFiles st) (emitted st) (config_file st).
Definition set_m_supportedFormats (v : list string) (st : USBMonitor) : USBMonitor :=
  Build_USBMonitor (m_fileSystemWatcher st) (m_scanTimer st) (m_connectedDevices st) (m_watchDirectories st) v (m_isMonitoring st) (m_autoScan st) (m_simulateMountError st) (m_simulateFileSystemError st) (m_simulateCorruptedFiles st) (emitted st) (config_file st).
Definition set_m_isMonitoring (v : bool) (st : USBMonitor) : USBMonitor :=
  Build_USBMonitor (m_fileSystemWatcher st) (m_scanTimer st) (m_connectedDevices st) (m_watchDirectories st) (m_supportedFormats st) v (m_autoScan st) (m_simulateMountError st) (m_simulateFileSystemError st) (m_simulateCorruptedFiles st) (emitted st) (config_file st).
Definition set_m_autoScan (v : bool) (st : USBMonitor) : USBMonitor :=
  Build_USBMonitor (m_fileSystemWatcher st) (m_scanTimer st) (m_connectedDevices st) (m_watchDirectories st) (m_supportedFormats st) (m_isMonitoring st) v (m_simulateMountError st) (m_simulateFileSystemError st) (m_simulateCorruptedFiles st) (emitted st) (config_file st).
Definition set_m_simulateMountError (v : bool) (st : USBMonitor) : USBMonitor :=
  Build_USBMonitor (m_fileSystemWatcher st) (m_scanTimer st) (m_connectedDevices st) (m_watchDirectories st) (m_supportedFormats st) (m_isMonitoring st) (m_autoScan st) v (m_simulateFileSystemError st) (m_simulateCorruptedFiles st) (emitted st) (config_file st).
Definition set_m_simulateFileSystemError (v : bool) (st : USBMonitor) : USBMonitor :=
  Build_USBMonitor (m_fileSystemWatcher st) (m_scanTimer st) (m_connectedDevices st) (m_watchDirectories st) (m_supportedFormats st) (m_isMonitoring st) (m_autoScan st) (m_simulateMountError st) v (m_simulateCorruptedFiles st) (emitted st) (config_file st).
Definition set_m_simulateCorruptedFiles (v : bool) (st : USBMonitor) : USBMonitor :=
  Build_USBMonitor (m_fileSystemWatcher st) (m_scanTimer st) (m_connectedDevices st) (m_watchDirectories st) (m_supportedFormats st) (m_isMonitoring st) (m_autoScan st) (m_simulateMountError st) (m_simulateFileSystemError st) v (emitted st) (config_file st).
Definition set_emitted (v : list Signal) (st : USBMonitor) : USBMonitor :=
  Build_USBMonitor (m_fileSystemWatcher st) (m_scanTimer st) (m_connectedDevices st) (m_watchDirectories st) (m_supportedFormats st) (m_isMonitoring st) (m_autoScan st) (m_simulateMountError st) (m_simulateFileSystemError st) (m_simulateCorruptedFiles st) v (config_file st).
Definition set_config_file (v : option QJsonValue) (st : USBMonitor) : USBMonitor :=
  Build_USBMonitor (m_fileSystemWatcher st) (m_scanTimer st) (m_connectedDevices st) (m_watchDirectories st) (m_supportedFormats st) (m_isMonitoring st) (m_autoScan st) (m_simulateMountError st) (m_simulateFileSystemError st) (m_simulateCorruptedFiles st) (emitted st) v.

Definition emit (s : Signal) (st : USBMonitor) : USBMonitor :=
  set_emitted (emitted st ++ [s]) st.

Definition DEFAULT_SUPPORTED_FORMATS : list string :=
  [ "mp3"; "wav"; "flac"; "aac"; "ogg"; "wma"; "m4a";
    "mp4"; "avi"; "mkv"; "mov"; "wmv"; "flv"; "webm" ].

Definition erase_at {A} (i : nat) (l : list A) : list A := take i l ++ drop (S i) l.

Definition findDevice (id : string) (l : list USBDevice) : option (nat * USBDevice) :=
  list_find (λ d, deviceId d = id) l.

(** [QFileSystemWatcher::addPath]: a path already watched is not added. *)
Definition addPath (path : string) (watched : list string) : list string :=
  if decide (path ∈ watched) then watched else watched ++ [path].

Definition removePath (path : string) (watched : list string) : list string :=
  filter (λ p, p ≠ path) watched.

(** *** Insertion and removal *)

Definition generateDeviceId (now : Clock) : string :=
  "USB_" +:+ number (currentMSecsSinceEpoch now).

(** [simulateUSBInsertion]; the clock is read for the id ([now1]) and for
    the connection time ([now2]). The mount directory is created on disk. *)
Definition simulateUSBInsertion (now1 now2 : Clock) (name : string) (st : USBMonitor) : USBMonitor :=
  let id := generateDeviceId now1 in
  let mount := "mnt/usb/" +:+ id in
  let device :=
    {| deviceId := id; deviceName := name; mountPoint := mount;
       totalSpace := 32000000000; freeSpace := 28000000000;
       fileSystem := "FAT32"; isConnected := true;
       connectedTime := currentDateTime now2; mediaFiles := [] |} in
  let st1 := emit (deviceConnected device)
               (set_m_connectedDevices (m_connectedDevices st ++ [device]) st) in
  if m_isMonitoring st1
  then set_m_fileSystemWatcher (addPath mount (m_fileSystemWatcher st1)) st1
  else st1.

Definition simulateUSBRemoval (id : string) (st : USBMonitor) : USBMonitor :=
  let targetDeviceId :=
    match m_connectedDevices st with
    | first :: _ => if decide (id = "") then deviceId first else id
    | [] => id
    end in
  match findDevice targetDeviceId (m_connectedDevices st) with
  | Some (i, d) =>
      let st1 := emit (deviceDisconnected targetDeviceId) st in
      let st2 :=
        if m_isMonitoring st1
        then set_m_fileSystemWatcher (removePath (mountPoint d) (m_fileSystemWatcher st1)) st1
        else st1 in
      set_m_connectedDevices (erase_at i (m_connectedDevices st2)) st2
  | None => st
  end.

Definition mountDevice (id mount : string) (st : USBMonitor) : USBMonitor :=
  if m_simulateMountError st
  then emit (mountError id "Simulated mount error - device not responding") st
  else
    match findDevice id (m_connectedDevices st) with
    | Some (i, d) =>
        let st1 :=
          set_m_connectedDevices
            (<[i := set_isConnected true (set_mountPoint mount d)]> (m_connectedDevices st)) st in
        if m_isMonitoring st1
        then set_m_fileSystemWatcher (addPath mount (m_fileSystemWatcher st1)) st1
        else st1
    | None => st
    end.

Definition unmountDevice (id : string) (st : USBMonitor) : USBMonitor :=
  match findDevice id (m_connectedDevices st) with
  | Some (i, d) =>
      let st1 :=
        set_m_connectedDevices (<[i := set_isConnected false d]> (m_connectedDevices st)) st in
      if m_isMonitoring st1
      then set_m_fileSystemWatcher (removePath (mountPoint d) (m_fileSystemWatcher st1)) st1
      else st1
  | None => st
  end.

(** *** Media files *)

Definition isMediaFile (formats : list string) (name : string) : bool :=
  bool_decide (toLower (suffix_of name) ∈ formats).

(** [getFileDuration]: the size is a [qint64], the seconds an [int]; the
    quotients truncate. *)
Definition mm_ss (durationSeconds : Z) : string :=
  arg_padded (Z.quot durationSeconds 60) 2 "0" +:+ ":"
  +:+ arg_padded (Z.rem durationSeconds 60) 2 "0".

Definition getFileDuration (path : string) (size : Z) : string :=
  let extension := toLower (suffix_of path) in
  if decide (extension = "mp3") then
    mm_ss (to_int32 (Z.quot (to_int64 (size * 8)) (128 * 1024)))
  else if decide (extension = "wav") then
    mm_ss (to_int32 (Z.quot size (44100 * 2 * 2)))
  else "00:00".

(** [getFileMetadataInternal], as the JSON object it serialises; [size] is
    what [QFileInfo(path).size()] reports. *)
Definition getFileMetadataInternal (path : string) (size : Z) : QJsonValue :=
  let name := baseName_of path in
  let parts := split " - " name in
  let pattern := contains " - " name && (2 <=? length parts)%nat in
  JObject
    [ ("title", JString (if pattern then trimmed (nth 1 parts "") else name));
      ("artist", JString (if pattern then trimmed (nth 0 parts "") else "Unknown Artist"));
      ("album", JString "Unknown Album");
      ("duration", JString (getFileDuration path size)) ].

(** The [MediaFile] the scan builds for one entry of the listing. The text
    [getFileMetadataInternal] returns is never empty, so its members are
    always the ones read. *)
Definition mediaFile_of (dir : Directory) (e : FileEntry) : MediaFile :=
  let path := absolutePath dir +:+ "/" +:+ entry_name e in
  let obj := toObject (getFileMetadataInternal path (entry_size e)) in
  {| fileName := entry_name e;
     filePath := path;
     title := toString (member "title" obj);
     artist := toString (member "artist" obj);
     album := toString (member "album" obj);
     duration := toString (member "duration" obj);
     fileSize := entry_size e;
     fileType := toLower (suffix_of (entry_name e));
     lastModified := entry_lastModified e |}.

(** [dir.entryInfoList(filters, QDir::Files)] for the filters [*.format]
    (formats without wildcard characters): names are matched without regard
    to case; an empty filter list lists every file. *)
Definition matches_filters (formats : list string) (name : string) : bool :=
  match formats with
  | [] => true
  | _ => existsb (λ f, endsWith ("." +:+ toLower f) (toLower name)) formats
  end.

Definition entryInfoList (formats : list string) (dir : Directory) : list FileEntry :=
  filter (λ e, matches_filters formats (entry_name e) = true) (files dir).

(** The list [scanMediaFiles] builds from a directory. *)
Definition scannedFiles (formats : list string) (dir : Directory) : list MediaFile :=
  map (mediaFile_of dir)
    (filter (λ e, isMediaFile formats (entry_name e) = true) (entryInfoList formats dir)).

Definition updateDeviceSpace (fs : FileSystem) (id : string) (st : USBMonitor) : USBMonitor :=
  match findDevice id (m_connectedDevices st) with
  | Some (i, d) =>
      match storage fs (mountPoint d) with
      | Some info =>
          set_m_connectedDevices
            (<[i := set_fileSystem (fileSystemType info)
                      (set_freeSpace (bytesAvailable info)
                         (set_totalSpace (bytesTotal info) d))]> (m_connectedDevices st)) st
      | None => st
      end
  | None => st
  end.

(** The body of the loop of [scanMediaFiles] at position [i]. *)
Definition scan_at (fs : FileSystem) (id : string) (i : nat) (st : USBMonitor) : USBMonitor :=
  match m_connectedDevices st !! i with
  | Some d =>
      if bool_decide (deviceId d = id) && isConnected d then
        match directory fs (mountPoint d) with
        | Some dir =>
            let found := scannedFiles (m_supportedFormats st) dir in
            let st1 :=
              set_m_connectedDevices (<[i := set_mediaFiles found d]> (m_connectedDevices st)) st in
            emit (mediaFilesChanged id found) (updateDeviceSpace fs id st1)
        | None => st
        end
      else st
  | None => st
  end.

(** The loop visits the positions in order; the list is updated in place. *)
Fixpoint scan_loop (fs : FileSystem) (id : string) (n i : nat) (st : USBMonitor) : USBMonitor :=
  match n with
  | O => st
  | S n' => scan_loop fs id n' (S i) (scan_at fs id i st)
  end.

Definition scanMediaFiles (fs : FileSystem) (id : string) (st : USBMonitor) : USBMonitor :=
  scan_loop fs id (length (m_connectedDevices st)) 0 st.

Definition addMediaFile (id : string) (file : MediaFile) (st : USBMonitor) : USBMonitor :=
  match findDevice id (m_connectedDevices st) with
  | Some (i, d) =>
      let files' := mediaFiles d ++ [file] in
      emit (mediaFilesChanged id files')
        (emit (mediaFileAdded id file)
           (set_m_connectedDevices (<[i := set_mediaFiles files' d]> (m_connectedDevices st)) st))
  | None => st
  end.

Definition getMediaFiles (id : string) (st : USBMonitor) : list MediaFile :=
  match findDevice id (m_connectedDevices st) with
  | Some (_, d) => mediaFiles d
  | None => []
  end.

Definition isDeviceConnected (id : string) (st : USBMonitor) : bool :=
  existsb (λ d, bool_decide (deviceId d = id) && isConnected d) (m_connectedDevices st).

Definition setSupportedFormats (formats : list string) (st : USBMonitor) : USBMonitor :=
  set_m_supportedFormats formats st.

(** *** Persistence *)

Definition media_toJson (m : MediaFile) : QJsonValue :=
  JObject
    [ ("fileName", JString (fileName m));
      ("filePath", JString (filePath m));
      ("title", JString (title m));
      ("artist", JString (artist m));
      ("album", JString (album m));
      ("duration", JString (duration m));
      ("fileSize", JInt (fileSize m));
      ("fileType", JString (fileType m));
      ("lastModified", JString (toString_ISODate (lastModified m))) ].

Definition device_toJson (d : USBDevice) : QJsonValue :=
  JObject
    [ ("deviceId", JString (deviceId d));
      ("deviceName", JString (deviceName d));
      ("mountPoint", JString (mountPoint d));
      ("totalSpace", JInt (totalSpace d));
      ("freeSpace", JInt (freeSpace d));
      ("fileSystem", JString (fileSystem d));
      ("isConnected", JBool (isConnected d));
      ("connectedTime", JString (toString_ISODate (connectedTime d)));
      ("mediaFiles", JArray (map media_toJson (mediaFiles d))) ].

Definition saveDeviceList (st : USBMonitor) : USBMonitor :=
  set_config_file (Some (JArray (map device_toJson (m_connectedDevices st)))) st.

Definition media_fromJson (value : QJsonValue) : MediaFile :=
  let mediaObj := toObject value in
  {| fileName := toString (member "fileName" mediaObj);
     filePath := toString (member "filePath" mediaObj);
     title := toString (member "title" mediaObj);
     artist := toString (member "artist" mediaObj);
     album := toString (member "album" mediaObj);
     duration := toString (member "duration" mediaObj);
     fileSize := toLongLong (member "fileSize" mediaObj);
     fileType := toString (member "fileType" mediaObj);
     lastModified := fromString_ISODate (toString (member "lastModified" mediaObj)) |}.

Definition device_fromJson (value : QJsonValue) : USBDevice :=
  let deviceObj := toObject value in
  {| deviceId := toString (member "deviceId" deviceObj);
     deviceName := toString (member "deviceName" deviceObj);
     mountPoint := toString (member "mountPoint" deviceObj);
     totalSpace := toLongLong (member "totalSpace" deviceObj);
     freeSpace := toLongLong (member "freeSpace" deviceObj);
     fileSystem := toString (member "fileSystem" deviceObj);
     isConnected := toBool (member "isConnected" deviceObj);
     connectedTime := fromString_ISODate (toString (member "connectedTime" deviceObj));
     mediaFiles := map media_fromJson (toArray (member "mediaFiles" deviceObj)) |}.

Definition loadDeviceList (st : USBMonitor) : USBMonitor :=
  match config_file st with
  | Some doc =>
      set_m_connectedDevices (m_connectedDevices st ++ map device_fromJson (toArray doc)) st
  | None => st
  end.

Definition construct (file : option QJsonValue) : USBMonitor :=
  loadDeviceList
    {| m_fileSystemWatcher := []; m_scanTimer := None; m_connectedDevices := [];
       m_watchDirectories := ["mnt/usb"; "media/usb"; "tmp/usb"];
       m_supportedFormats := DEFAULT_SUPPORTED_FORMATS;
       m_isMonitoring := false; m_autoScan := true;
       m_simulateMountError := false; m_simulateFileSystemError := false;
       m_simulateCorruptedFiles := false;
       emitted := []; config_file := file |}.

(** *** Views of a device *)

(** What the scan reads of a device, and the list it writes. *)
Definition core (d : USBDevice) : string * bool * string * list MediaFile :=
  (deviceId d, isConnected d, mountPoint d, mediaFiles d).

(** The list a visited device holds after the visit. *)
Definition rescanned (fs : FileSystem) (formats : list string) (id : string)
  (c : string * bool * string * list MediaFile) : string * bool * string * list MediaFile :=
  let '(did, connected, mount, old) := c in
  if bool_decide (did = id) && connected then
    match directory fs mount with
    | Some dir => (did, connected, mount, scannedFiles formats dir)
    | None => c
    end
  else c.

(** *** Removing a file, the views of the registry, the periodic scan *)

Definition findFile (name : string) (l : list MediaFile) : option (nat * MediaFile) :=
  list_find (λ m, fileName m = name) l.

(** [removeMediaFile]: the devices are visited in order from position [i];
    a device with the id that holds a file of that name loses the first
    such file and the call returns; a device with the id that holds none
    is passed over. *)
Fixpoint removeMediaFile_from (id name : string) (i : nat) (rest : list USBDevice)
  (st : USBMonitor) : USBMonitor :=
  match rest with
  | [] => st
  | d :: rest' =>
      if decide (deviceId d = id) then
        match findFile name (mediaFiles d) with
        | Some (j, _) =>
            let files' := erase_at j (mediaFiles d) in
            emit (mediaFilesChanged id files')
              (emit (mediaFileRemoved id name)
                 (set_m_connectedDevices
                    (<[i := set_mediaFiles files' d]> (m_connectedDevices st)) st))
        | None => removeMediaFile_from id name (S i) rest' st
        end
      else removeMediaFile_from id name (S i) rest' st
  end.

Definition removeMediaFile (id name : string) (st : USBMonitor) : USBMonitor :=
  removeMediaFile_from id name 0 (m_connectedDevices st) st.

Definition getConnectedDevices (st : USBMonitor) : list USBDevice :=
  filter (λ d, isConnected d = true) (m_connectedDevices st).

(** [USBDevice{}]: every member value-initialised. *)
Definition empty_USBDevice : USBDevice :=
  {| deviceId := ""; deviceName := ""; mountPoint := ""; totalSpace := 0; freeSpace := 0;
     fileSystem := ""; isConnected := false; connectedTime := null_QDateTime;
     mediaFiles := [] |}.

Definition getDevice (id : string) (st : USBMonitor) : USBDevice :=
  match findDevice id (m_connectedDevices st) with
  | Some (_, d) => d
  | None => empty_USBDevice
  end.

(** [scanDirectory], the slot of the watcher's [directoryChanged]. *)
Definition scanDirectory (fs : FileSystem) (path : string) (st : USBMonitor) : USBMonitor :=
  let deviceId :=
    match list_find (λ d, mountPoint d = path) (m_connectedDevices st) with
    | Some (_, d) => deviceId d
    | None => ""
    end in
  if decide (deviceId = "") then st else scanMediaFiles fs deviceId st.

(** The lambda connected to the scan timer: the devices are visited by
    position, and each connected one is scanned by its id. *)
Definition scanTimer_at (fs : FileSystem) (i : nat) (st : USBMonitor) : USBMonitor :=
  match m_connectedDevices st !! i with
  | Some d => if isConnected d then scanMediaFiles fs (deviceId d) st else st
  | None => st
  end.

Fixpoint scanTimer_loop (fs : FileSystem) (n i : nat) (st : USBMonitor) : USBMonitor :=
  match n with
  | O => st
  | S n' => scanTimer_loop fs n' (S i) (scanTimer_at fs i st)
  end.

Definition scanTimer_timeout (fs : FileSystem) (st : USBMonitor) : USBMonitor :=
  scanTimer_loop fs (length (m_connectedDevices st)) 0 st.

Definition simulateMountError (enable : bool) (st : USBMonitor) : USBMonitor :=
  set_m_simulateMountError enable st.

(** *** What the device list file keeps *)

(** An integer a JSON number holds exactly. *)
Definition exact_number (z : Z) : Prop := - 2 ^ 53 <= z <= 2 ^ 53.

Definition wf_media (m : MediaFile) : Prop :=
  exact_number (fileSize m) /\ wf_QDateTime (lastModified m).

Definition wf_device (d : USBDevice) : Prop :=
  exact_number (totalSpace d) /\ exact_number (freeSpace d)
  /\ wf_QDateTime (connectedTime d)
  /\ Forall wf_media (mediaFiles d).

(** A file and a device as they come back from the list file: the times
    to the second. *)
Definition persisted_media (m : MediaFile) : MediaFile :=
  {| fileName := fileName m; filePath := filePath m; title := title m; artist := artist m;
     album := album m; duration := duration m; fileSize := fileSize m;
     fileType := fileType m; lastModified := whole_seconds (lastModified m) |}.

Definition persisted (d : USBDevice) : USBDevice :=
  {| deviceId := deviceId d; deviceName := deviceName d; mountPoint := mountPoint d;
     totalSpace := totalSpace d; freeSpace := freeSpace d; fileSystem := fileSystem d;
     isConnected := isConnected d; connectedTime := whole_seconds (connectedTime d);
     mediaFiles := map persisted_media (mediaFiles d) |}.

(** The devices with an id. *)
Definition with_id (id : string) (l : list USBDevice) : list USBDevice :=
  filter (λ d, deviceId d = id) l.

(** A file of the listing as the scan records it. *)
Definition scanned_from (formats : list string) (dir : Directory) (m : MediaFile) : Prop :=
  exists e, e ∈ files dir
    /\ fileName m = entry_name e
    /\ filePath m = absolutePath dir +:+ "/" +:+ entry_name e
    /\ fileSize m = entry_size e
    /\ lastModified m = entry_lastModified e
    /\ fileType m = toLower (suffix_of (entry_name e))
    /\ fileType m ∈ formats
    /\ album m = "Unknown Album".

(** What the periodic scan makes of a device: a connected device whose
    mount point is an existing directory holds the files scanned from it,
    any other device is as it was. *)
Definition after_tick (fs : FileSystem) (formats : list string) (d d' : USBDevice) : Prop :=
  deviceId d' = deviceId d /\ isConnected d' = isConnected d
  /\ mountPoint d' = mountPoint d
  /\ mediaFiles d'
     = match directory fs (mountPoint d) with
       | Some dir => if isConnected d then scannedFiles formats dir else mediaFiles d
       | None => mediaFiles d
       end.

(** Rescanning by the device's own id. *)
Definition rescanned_own (fs : FileSystem) (formats : list string)
  (c : string * bool * string * list MediaFile) : string * bool * string * list MediaFile :=
  rescanned fs formats c.1.1.1 c.

(** The devices after the timer's loop has visited the positions below
    [k]: those are rescanned, the others are rescanned or as at the
    start. *)
Definition visited (fs : FileSystem) (formats : list string) (k : nat)
  (cs0 : list (string * bool * string * list MediaFile)) (st : USBMonitor) : Prop :=
  m_supportedFormats st = formats
  /\ length (m_connectedDevices st) = length cs0
  /\ forall j c0, cs0 !! j = Some c0 ->
       exists c, (core <$> m_connectedDevices st) !! j = Some c
                 /\ (c = c0 \/ c = rescanned_own fs formats c0)
                 /\ ((j < k)%nat -> c = rescanned_own fs formats c0).

End USBMonitor.

(** ** The sensor simulator: [MockI2C.h], [MockI2C.cpp] *)

Module MockI2C.
Import Qt.

Record SensorData := {
  temperature : double;
  humidity : double;
  pressure : double;
  lightLevel : double;
  isValid : bool;
  timestamp : string
}.

Definition set_temperature (v : double) (d : SensorData) : SensorData :=
  Build_SensorData v (humidity d) (pressure d) (lightLevel d) (isValid d) (timestamp d).
Definition set_humidity (v : double) (d : SensorData) : SensorData :=
  Build_SensorData (temperature d) v (pressure d) (lightLevel d) (isValid d) (timestamp d).
Definition set_pressure (v : double) (d : SensorData) : SensorData :=
  Build_SensorData (temperature d) (humidity d) v (lightLevel d) (isValid d) (timestamp d).
Definition set_lightLevel (v : double) (d : SensorData) : SensorData :=
  Build_SensorData (temperature d) (humidity d) (pressure d) v (isValid d) (timestamp d).
Definition set_isValid (v : bool) (d : SensorData) : SensorData :=
  Build_SensorData (temperature d) (humidity d) (pressure d) (lightLevel d) v (timestamp d).
Definition set_timestamp (v : string) (d : SensorData) : SensorData :=
  Build_SensorData (temperature d) (humidity d) (pressure d) (lightLevel d) (isValid d) v.

Inductive Signal :=
| dataUpdated (data : SensorData)
| connectionError (error : string)
| sensorError (error : string)
| calibrationChanged.

(** [std::uniform_real_distribution<double>(a, b)]: its parameters. *)
Record uniform_real_distribution := { dist_a : double; dist_b : double }.

(** What one tick takes from the generator: the value each distribution
    returns (for finite [a <= b], a finite value of [[a, b)]), and the two
    raw outputs used for the corruption noise. *)
Record Randomness := {
  temperature_sample : double;
  humidity_sample : double;
  pressure_sample : double;
  light_sample : double;
  temperature_noise : Z;
  humidity_noise : Z
}.

(** The object: the members of [class MockI2C], the signals emitted so far
    and the contents of [config/i2c_calibration.json] and
    [config/sensor_data.json]. *)
Record MockI2C := {
  m_updateTimer : QTimer;
  m_tempDist : uniform_real_distribution;
  m_humidityDist : uniform_real_distribution;
  m_pressureDist : uniform_real_distribution;
  m_lightDist : uniform_real_distribution;
  m_currentData : SensorData;
  m_isConnected : bool;
  m_simulateConnectionError : bool;
  m_simulateSensorFailure : bool;
  m_simulateDataCorruption : bool;
  m_dataLoggingEnabled : bool;
  m_tempOffset : double;
  m_humidityOffset : double;
  m_pressureOffset : double;
  m_lightOffset : double;
  m_tempMin : double; m_tempMax : double;
  m_humidityMin : double; m_humidityMax : double;
  m_pressureMin : double; m_pressureMax : double;
  m_lightMin : double; m_lightMax : double;
  emitted : list Signal;
  config_file : option QJsonValue;
  sensor_log : option QJsonValue
}.

Definition set_m_updateTimer (v : QTimer) (st : MockI2C) : MockI2C :=
  Build_MockI2C v (m_tempDist st) (m_humidityDist st) (m_pressureDist st) (m_lightDist st) (m_currentData st) (m_isConnected st) (m_simulateConnectionError st) (m_simulateSensorFailure st) (m_simulateDataCorruption st) (m_dataLoggingEnabled st) (m_tempOffset st) (m_humidityOffset st) (m_pressureOffset st) (m_lightOffset st) (m_tempMin st) (m_tempMax st) (m_humidityMin st) (m_humidityMax st) (m_pressureMin st) (m_pressureMax st) (m_lightMin st) (m_lightMax st) (emitted st) (config_file st) (sensor_log st).
Definition set_m_tempDist (v : uniform_real_distribution) (st : MockI2C) : MockI2C :=
  Build_MockI2C (m_updateTimer st) v (m_humidityDist st) (m_pressureDist st) (m_lightDist st) (m_currentData st) (m_isConnected st) (m_simulateConnectionError st) (m_simulateSensorFailure st) (m_simulateDataCorruption st) (m_dataLoggingEnabled st) (m_tempOffset st) (m_humidityOffset st) (m_pressureOffset st) (m_lightOffset st) (m_tempMin st) (m_tempMax st) (m_humidityMin st) (m_humidityMax st) (m_pressureMin st) (m_pressureMax st) (m_lightMin st) (m_lightMax st) (emitted st) (config_file st) (sensor_log st).
Definition set_m_humidityDist (v : uniform_real_distribution) (st : MockI2C) : MockI2C :=
  Build_MockI2C (m_updateTimer st) (m_tempDist st) v (m_pressureDist st) (m_lightDist st) (m_currentData st) (m_isConnected st) (m_simulateConnectionError st) (m_simulateSensorFailure st) (m_simulateDataCorruption st) (m_dataLoggingEnabled st) (m_tempOffset st) (m_humidityOffset st) (m_pressureOffset st) (m_lightOffset st) (m_tempMin st) (m_tempMax st) (m_humidityMin st) (m_humidityMax st) (m_pressureMin st) (m_pressureMax st) (m_lightMin st) (m_lightMax st) (emitted st) (config_file st) (sensor_log st).
Definition set_m_pressureDist (v : uniform_real_distribution) (st : MockI2C) : MockI2C :=
  Build_MockI2C (m_updateTimer st) (m_tempDist st) (m_humidityDist st) v (m_lightDist st) (m_currentData st) (m_isConnected st) (m_simulateConnectionError st) (m_simulateSensorFailure st) (m_simulateDataCorruption st) (m_dataLoggingEnabled st) (m_tempOffset st) (m_humidityOffset st) (m_pressureOffset st) (m_lightOffset st) (m_tempMin st) (m_tempMax st) (m_humidityMin st) (m_humidityMax st) (m_pressureMin st) (m_pressureMax st) (m_lightMin st) (m_lightMax st) (emitted st) (config_file st) (sensor_log st).
Definition set_m_lightDist (v : uniform_real_distribution) (st : MockI2C) : MockI2C :=
  Build_MockI2C (m_updateTimer st) (m_tempDist st) (m_humidityDist st) (m_pressureDist st) v (m_currentData st) (m_isConnected st) (m_simulateConnectionError st) (m_simulateSensorFailure st) (m_simulateDataCorruption st) (m_dataLoggingEnabled st) (m_tempOffset st) (m_humidityOffset st) (m_pressureOffset st) (m_lightOffset st) (m_tempMin st) (m_tempMax st) (m_humidityMin st) (m_humidityMax st) (m_pressureMin st) (m_pressureMax st) (m_lightMin st) (m_lightMax st) (emitted st) (config_file st) (sensor_log st).
Definition set_m_currentData (v : SensorData) (st : MockI2C) : MockI2C :=
  Build_MockI2C (m_updateTimer st) (m_tempDist st) (m_humidityDist st) (m_pressureDist st) (m_lightDist st) v (m_isConnected st) (m_simulateConnectionError st) (m_simulateSensorFailure st) (m_simulateDataCorruption st) (m_dataLoggingEnabled st) (m_tempOffset st) (m_humidityOffset st) (m_pressureOffset st) (m_lightOffset st) (m_tempMin st) (m_tempMax st) (m_humidityMin st) (m_humidityMax st) (m_pressureMin st) (m_pressureMax st) (m_lightMin st) (m_lightMax st) (emitted st) (config_file st) (sensor_log st).
Definition set_m_isConnected (v : bool) (st : MockI2C) : MockI2C :=
  Build_MockI2C (m_updateTimer st) (m_tempDist st) (m_humidityDist st) (m_pressureDist st) (m_lightDist st) (m_currentData st) v (m_simulateConnectionError st) (m_simulateSensorFailure st) (m_simulateDataCorruption st) (m_dataLoggingEnabled st) (m_tempOffset st) (m_humidityOffset st) (m_pressureOffset st) (m_lightOffset st) (m_tempMin st) (m_tempMax st) (m_humidityMin st) (m_humidityMax st) (m_pressureMin st) (m_pressureMax st) (m_lightMin st) (m_lightMax st) (emitted st) (config_file st) (sensor_log st).
Definition set_m_simulateConnectionError (v : bool) (st : MockI2C) : MockI2C :=
  Build_MockI2C (m_updateTimer st) (m_tempDist st) (m_humidityDist st) (m_pressureDist st) (m_lightDist st) (m_currentData st) (m_isConnected st) v (m_simulateSensorFailure st) (m_simulateDataCorruption st) (m_dataLoggingEnabled st) (m_tempOffset st) (m_humidityOffset st) (m_pressureOffset st) (m_lightOffset st) (m_tempMin st) (m_tempMax st) (m_humidityMin st) (m_humidityMax st) (m_pressureMin st) (m_pressureMax st) (m_lightMin st) (m_lightMax st) (emitted st) (config_file st) (sensor_log st).
Definition set_m_simulateSensorFailure (v : bool) (st : MockI2C) : MockI2C :=
  Build_MockI2C (m_updateTimer st) (m_tempDist st) (m_humidityDist st) (m_pressureDist st) (m_lightDist st) (m_currentData st) (m_isConnected st) (m_simulateConnectionError st) v (m_simulateDataCorruption st) (m_dataLoggingEnabled st) (m_tempOffset st) (m_humidityOffset st) (m_pressureOffset st) (m_lightOffset st) (m_tempMin st) (m_tempMax st) (m_humidityMin st) (m_humidityMax st) (m_pressureMin st) (m_pressureMax st) (m_lightMin st) (m_lightMax st) (emitted st) (config_file st) (sensor_log st).
Definition set_m_simulateDataCorruption (v : bool) (st : MockI2C) : MockI2C :=
  Build_MockI2C (m_updateTimer st) (m_tempDist st) (m_humidityDist st) (m_pressureDist st) (m_lightDist st) (m_currentData st) (m_isConnected st) (m_simulateConnectionError st) (m_simulateSensorFailure st) v (m_dataLoggingEnabled st) (m_tempOffset st) (m_humidityOffset st) (m_pressureOffset st) (m_lightOffset st) (m_tempMin st) (m_tempMax st) (m_humidityMin st) (m_humidityMax st) (m_pressureMin st) (m_pressureMax st) (m_lightMin st) (m_lightMax st) (emitted st) (config_file st) (sensor_log st).
Definition set_m_dataLoggingEnabled (v : bool) (st : MockI2C) : MockI2C :=
  Build_MockI2C (m_updateTimer st) (m_tempDist st) (m_humidityDist st) (m_pressureDist st) (m_lightDist st) (m_currentData st) (m_isConnected st) (m_simulateConnectionError st) (m_simulateSensorFailure st) (m_simulateDataCorruption st) v (m_tempOffset st) (m_humidityOffset st) (m_pressureOffset st) (m_lightOffset st) (m_tempMin st) (m_tempMax st) (m_humidityMin st) (m_humidityMax st) (m_pressureMin st) (m_pressureMax st) (m_lightMin st) (m_lightMax st) (emitted st) (config_file st) (sensor_log st).
Definition set_m_tempOffset (v : double) (st : MockI2C) : MockI2C :=
  Build_MockI2C (m_updateTimer st) (m_tempDist st) (m_humidityDist st) (m_pressureDist st) (m_lightDist st) (m_currentData st) (m_isConnected st) (m_simulateConnectionError st) (m_simulateSensorFailure st) (m_simulateDataCorruption st) (m_dataLoggingEnabled st) v (m_humidityOffset st) (m_pressureOffset st) (m_lightOffset st) (m_tempMin st) (m_tempMax st) (m_humidityMin st) (m_humidityMax st) (m_pressureMin st) (m_pressureMax st) (m_lightMin st) (m_lightMax st) (emitted st) (config_file st) (sensor_log st).
Definition set_m_humidityOffset (v : double) (st : MockI2C) : MockI2C :=
  Build_MockI2C (m_updateTimer st) (m_tempDist st) (m_humidityDist st) (m_pressureDist st) (m_lightDist st) (m_currentData st) (m_isConnected st) (m_simulateConnectionError st) (m_simulateSensorFailure st) (m_simulateDataCorruption st) (m_dataLoggingEnabled st) (m_tempOffset st) v (m_pressureOffset st) (m_lightOffset st) (m_tempMin st) (m_tempMax st) (m_humidityMin st) (m_humidityMax st) (m_pressureMin st) (m_pressureMax st) (m_lightMin st) (m_lightMax st) (emitted st) (config_file st) (sensor_log st).
Definition set_m_pressureOffset (v : double) (st : MockI2C) : MockI2C :=
  Build_MockI2C (m_updateTimer st) (m_tempDist st) (m_humidityDist st) (m_pressureDist st) (m_lightDist st) (m_currentData st) (m_isConnected st) (m_simulateConnectionError st) (m_simulateSensorFailure st) (m_simulateDataCorruption st) (m_dataLoggingEnabled st) (m_tempOffset st) (m_humidityOffset st) v (m_lightOffset st) (m_tempMin st) (m_tempMax st) (m_humidityMin st) (m_humidityMax st) (m_pressureMin st) (m_pressureMax st) (m_lightMin st) (m_lightMax st) (emitted st) (config_file st) (sensor_log st).
Definition set_m_lightOffset (v : double) (st : MockI2C) : MockI2C :=
  Build_MockI2C (m_updateTimer st) (m_tempDist st) (m_humidityDist st) (m_pressureDist st) (m_lightDist st) (m_currentData st) (m_isConnected st) (m_simulateConnectionError st) (m_simulateSensorFailure st) (m_simulateDataCorruption st) (m_dataLoggingEnabled st) (m_tempOffset st) (m_humidityOffset st) (m_pressureOffset st) v (m_tempMin st) (m_tempMax st) (m_humidityMin st) (m_humidityMax st) (m_pressureMin st) (m_pressureMax st) (m_lightMin st) (m_lightMax st) (emitted st) (config_file st) (sensor_log st).
Definition set_m_tempMin (v : double) (st : MockI2C) : MockI2C :=
  Build_MockI2C (m_updateTimer st) (m_tempDist st) (m_humidityDist st) (m_pressureDist st) (m_lightDist st) (m_currentData st) (m_isConnected st) (m_simulateConnectionError st) (m_simulateSensorFailure st) (m_simulateDataCorruption st) (m_dataLoggingEnabled st) (m_tempOffset st) (m_humidityOffset st) (m_pressureOffset st) (m_lightOffset st) v (m_tempMax st) (m_humidityMin st) (m_humidityMax st) (m_pressureMin st) (m_pressureMax st) (m_lightMin st) (m_lightMax st) (emitted st) (config_file st) (sensor_log st).
Definition set_m_tempMax (v : double) (st : MockI2C) : MockI2C :=
  Build_MockI2C (m_updateTimer st) (m_tempDist st) (m_humidityDist st) (m_pressureDist st) (m_lightDist st) (m_currentData st) (m_isConnected st) (m_simulateConnectionError st) (m_simulateSensorFailure st) (m_simulateDataCorruption st) (m_dataLoggingEnabled st) (m_tempOffset st) (m_humidityOffset st) (m_pressureOffset st) (m_lightOffset st) (m_tempMin st) v (m_humidityMin st) (m_humidityMax st) (m_pressureMin st) (m_pressureMax st) (m_lightMin st) (m_lightMax st) (emitted st) (config_file st) (sensor_log st).
Definition set_m_humidityMin (v : double) (st : MockI2C) : MockI2C :=
  Build_MockI2C (m_updateTimer st) (m_tempDist st) (m_humidityDist st) (m_pressureDist st) (m_lightDist st) (m_currentData st) (m_isConnected st) (m_simulateConnectionError st) (m_simulateSensorFailure st) (m_simulateDataCorruption st) (m_dataLoggingEnabled st) (m_tempOffset st) (m_humidityOffset st) (m_pressureOffset st) (m_lightOffset st) (m_tempMin st) (m_tempMax st) v (m_humidityMax st) (m_pressureMin st) (m_pressureMax st) (m_lightMin st) (m_lightMax st) (emitted st) (config_file st) (sensor_log st).
Definition set_m_humidityMax (v : double) (st : MockI2C) : MockI2C :=
  Build_MockI2C (m_updateTimer st) (m_tempDist st) (m_humidityDist st) (m_pressureDist st) (m_lightDist st) (m_currentData st) (m_isConnected st) (m_simulateConnectionError st) (m_simulateSensorFailure st) (m_simulateDataCorruption st) (m_dataLoggingEnabled st) (m_tempOffset st) (m_humidityOffset st) (m_pressureOffset st) (m_lightOffset st) (m_tempMin st) (m_tempMax st) (m_humidityMin st) v (m_pressureMin st) (m_pressureMax st) (m_lightMin st) (m_lightMax st) (emitted st) (config_file st) (sensor_log st).
Definition set_m_pressureMin (v : double) (st : MockI2C) : MockI2C :=
  Build_MockI2C (m_updateTimer st) (m_tempDist st) (m_humidityDist st) (m_pressureDist st) (m_lightDist st) (m_currentData st) (m_isConnected st) (m_simulateConnectionError st) (m_simulateSensorFailure st) (m_simulateDataCorruption st) (m_dataLoggingEnabled st) (m_tempOffset st) (m_humidityOffset st) (m_pressureOffset st) (m_lightOffset st) (m_tempMin st) (m_tempMax st) (m_humidityMin st) (m_humidityMax st) v (m_pressureMax st) (m_lightMin st) (m_lightMax st) (emitted st) (config_file st) (sensor_log st).
Definition set_m_pressureMax (v : double) (st : MockI2C) : MockI2C :=
  Build_MockI2C (m_updateTimer st) (m_tempDist st) (m_humidityDist st) (m_pressureDist st) (m_lightDist st) (m_currentData st) (m_isConnected st) (m_simulateConnectionError st) (m_simulateSensorFailure st) (m_simulateDataCorruption st) (m_dataLoggingEnabled st) (m_tempOffset st) (m_humidityOffset st) (m_pressureOffset st) (m_lightOffset st) (m_tempMin st) (m_tempMax st) (m_humidityMin st) (m_humidityMax st) (m_pressureMin st) v (m_lightMin st) (m_lightMax st) (emitted st) (config_file st) (sensor_log st).
Definition set_m_lightMin (v : double) (st : MockI2C) : MockI2C :=
  Build_MockI2C (m_updateTimer st) (m_tempDist st) (m_humidityDist st) (m_pressureDist st) (m_lightDist st) (m_currentData st) (m_isConnected st) (m_simulateConnectionError st) (m_simulateSensorFailure st) (m_simulateDataCorruption st) (m_dataLoggingEnabled st) (m_tempOffset st) (m_humidityOffset st) (m_pressureOffset st) (m_lightOffset st) (m_tempMin st) (m_tempMax st) (m_humidityMin st) (m_humidityMax st) (m_pressureMin st) (m_pressureMax st) v (m_lightMax st) (emitted st) (config_file st) (sensor_log st).
Definition set_m_lightMax (v : double) (st : MockI2C) : MockI2C :=
  Build_MockI2C (m_updateTimer st) (m_tempDist st) (m_humidityDist st) (m_pressureDist st) (m_lightDist st) (m_currentData st) (m_isConnected st) (m_simulateConnectionError st) (m_simulateSensorFailure st) (m_simulateDataCorruption st) (m_dataLoggingEnabled st) (m_tempOffset st) (m_humidityOffset st) (m_pressureOffset st) (m_lightOffset st) (m_tempMin st) (m_tempMax st) (m_humidityMin st) (m_humidityMax st) (m_pressureMin st) (m_pressureMax st) (m_lightMin st) v (emitted st) (config_file st) (sensor_log st).
Definition set_emitted (v : list Signal) (st : MockI2C) : MockI2C :=
  Build_MockI2C (m_updateTimer st) (m_tempDist st) (m_humidityDist st) (m_pressureDist st) (m_lightDist st) (m_currentData st) (m_isConnected st) (m_simulateConnectionError st) (m_simulateSensorFailure st) (m_simulateDataCorruption st) (m_dataLoggingEnabled st) (m_tempOffset st) (m_humidityOffset st) (m_pressureOffset st) (m_lightOffset st) (m_tempMin st) (m_tempMax st) (m_humidityMin st) (m_humidityMax st) (m_pressureMin st) (m_pressureMax st) (m_lightMin st) (m_lightMax st) v (config_file st) (sensor_log st).
Definition set_config_file (v : option QJsonValue) (st : MockI2C) : MockI2C :=
  Build_MockI2C (m_updateTimer st) (m_tempDist st) (m_humidityDist st) (m_pressureDist st) (m_lightDist st) (m_currentData st) (m_isConnected st) (m_simulateConnectionError st) (m_simulateSensorFailure st) (m_simulateDataCorruption st) (m_dataLoggingEnabled st) (m_tempOffset st) (m_humidityOffset st) (m_pressureOffset st) (m_lightOffset st) (m_tempMin st) (m_tempMax st) (m_humidityMin st) (m_humidityMax st) (m_pressureMin st) (m_pressureMax st) (m_lightMin st) (m_lightMax st) (emitted st) v (sensor_log st).
Definition set_sensor_log (v : option QJsonValue) (st : MockI2C) : MockI2C :=
  Build_MockI2C (m_updateTimer st) (m_tempDist st) (m_humidityDist st) (m_pressureDist st) (m_lightDist st) (m_currentData st) (m_isConnected st) (m_simulateConnectionError st) (m_simulateSensorFailure st) (m_simulateDataCorruption st) (m_dataLoggingEnabled st) (m_tempOffset st) (m_humidityOffset st) (m_pressureOffset st) (m_lightOffset st) (m_tempMin st) (m_tempMax st) (m_humidityMin st) (m_humidityMax st) (m_pressureMin st) (m_pressureMax st) (m_lightMin st) (m_lightMax st) (emitted st) (config_file st) v.

Definition emit (s : Signal) (st : MockI2C) : MockI2C :=
  set_emitted (emitted st ++ [s]) st.

(** The literals of the source. *)
Definition d0 : double := S754_zero false.
Definition d0_1 : double := ddiv (double_of_Z 1) (double_of_Z 10).
Definition d18 : double := double_of_Z 18.
Definition d25 : double := double_of_Z 25.
Definition d40 : double := double_of_Z 40.
Definition d60 : double := double_of_Z 60.
Definition d1013 : double := double_of_Z 1013.
Definition d1013_5 : double := ddiv (double_of_Z 2027) (double_of_Z 2).
Definition d100 : double := double_of_Z 100.
Definition d1000 : double := double_of_Z 1000.
Definition dm40 : double := double_of_Z (-40).
Definition d80 : double := double_of_Z 80.
Definition d800 : double := double_of_Z 800.
Definition d1200 : double := double_of_Z 1200.
Definition d10000 : double := double_of_Z 10000.

(** *** Bus and configuration *)

Definition begin (st : MockI2C) : bool * MockI2C :=
  if m_simulateConnectionError st
  then (false, emit (connectionError "I2C connection failed - device not responding") st)
  else (true, set_m_updateTimer (Some 5000) (set_m_isConnected true st)).

Definition isConnected (st : MockI2C) : bool :=
  m_isConnected st && negb (m_simulateConnectionError st).

Definition setUpdateInterval (milliseconds : Z) (st : MockI2C) : MockI2C :=
  set_m_updateTimer (Some milliseconds) st.

Definition setTemperatureRange (min max : double) (st : MockI2C) : MockI2C :=
  set_m_tempDist {| dist_a := min; dist_b := max |} (set_m_tempMax max (set_m_tempMin min st)).

Definition setHumidityRange (min max : double) (st : MockI2C) : MockI2C :=
  set_m_humidityDist {| dist_a := min; dist_b := max |}
    (set_m_humidityMax max (set_m_humidityMin min st)).

Definition setPressureRange (min max : double) (st : MockI2C) : MockI2C :=
  set_m_pressureDist {| dist_a := min; dist_b := max |}
    (set_m_pressureMax max (set_m_pressureMin min st)).

Definition setLightRange (min max : double) (st : MockI2C) : MockI2C :=
  set_m_lightDist {| dist_a := min; dist_b := max |}
    (set_m_lightMax max (set_m_lightMin min st)).

Definition simulateConnectionError (enable : bool) (st : MockI2C) : MockI2C :=
  let st1 := set_m_simulateConnectionError enable st in
  if enable then emit (connectionError "Simulated I2C connection error") st1 else st1.

Definition simulateSensorFailure (enable : bool) (st : MockI2C) : MockI2C :=
  let st1 := set_m_simulateSensorFailure enable st in
  if enable then emit (sensorError "Simulated sensor failure") st1 else st1.

Definition simulateDataCorruption (enable : bool) (st : MockI2C) : MockI2C :=
  set_m_simulateDataCorruption enable st.

Definition calibrateTemperature (offset : double) (st : MockI2C) : MockI2C :=
  emit calibrationChanged (set_m_tempOffset offset st).
Definition calibrateHumidity (offset : double) (st : MockI2C) : MockI2C :=
  emit calibrationChanged (set_m_humidityOffset offset st).
Definition calibratePressure (offset : double) (st : MockI2C) : MockI2C :=
  emit calibrationChanged (set_m_pressureOffset offset st).
Definition calibrateLight (offset : double) (st : MockI2C) : MockI2C :=
  emit calibrationChanged (set_m_lightOffset offset st).

Definition enableDataLogging (enable : bool) (st : MockI2C) : MockI2C :=
  set_m_dataLoggingEnabled enable st.

(** *** Persistence *)

Definition range_toJson (min max : double) : QJsonValue :=
  JArray [json_double min; json_double max].

Definition calibration_toJson (st : MockI2C) : QJsonValue :=
  JObject
    [ ("temperature_offset", json_double (m_tempOffset st));
      ("humidity_offset", json_double (m_humidityOffset st));
      ("pressure_offset", json_double (m_pressureOffset st));
      ("light_offset", json_double (m_lightOffset st));
      ("temperature_range", range_toJson (m_tempMin st) (m_tempMax st));
      ("humidity_range", range_toJson (m_humidityMin st) (m_humidityMax st));
      ("pressure_range", range_toJson (m_pressureMin st) (m_pressureMax st));
      ("light_range", range_toJson (m_lightMin st) (m_lightMax st)) ].

Definition saveCalibrationData (st : MockI2C) : MockI2C :=
  set_config_file (Some (calibration_toJson st)) st.

(** [loadCalibrationData]: the four offsets are read, and of the ranges the
    temperature range only. *)
Definition loadCalibrationData (st : MockI2C) : MockI2C :=
  match config_file st with
  | Some doc =>
      let config := toObject doc in
      let st1 :=
        set_m_lightOffset (toDouble (member "light_offset" config) d0)
          (set_m_pressureOffset (toDouble (member "pressure_offset" config) d0)
             (set_m_humidityOffset (toDouble (member "humidity_offset" config) d0)
                (set_m_tempOffset (toDouble (member "temperature_offset" config) d0) st))) in
      match toArray (member "temperature_range" config) with
      | [lo; hi] =>
          let tmin := toDouble lo d18 in
          let tmax := toDouble hi d25 in
          set_m_tempDist {| dist_a := tmin; dist_b := tmax |}
            (set_m_tempMax tmax (set_m_tempMin tmin st1))
      | _ => st1
      end
  | None => st
  end.

(** The constructor; [m_currentData] is not initialised by it and starts
    with whatever [garbage] the memory holds. *)
Definition construct (garbage : SensorData) (file log : option QJsonValue) : MockI2C :=
  loadCalibrationData
    {| m_updateTimer := None;
       m_tempDist := {| dist_a := d18; dist_b := d25 |};
       m_humidityDist := {| dist_a := d40; dist_b := d60 |};
       m_pressureDist := {| dist_a := d1013; dist_b := d1013_5 |};
       m_lightDist := {| dist_a := d100; dist_b := d1000 |};
       m_currentData := garbage;
       m_isConnected := false;
       m_simulateConnectionError := false;
       m_simulateSensorFailure := false;
       m_simulateDataCorruption := false;
       m_dataLoggingEnabled := false;
       m_tempOffset := d0; m_humidityOffset := d0;
       m_pressureOffset := d0; m_lightOffset := d0;
       m_tempMin := d18; m_tempMax := d25;
       m_humidityMin := d40; m_humidityMax := d60;
       m_pressureMin := d1013; m_pressureMax := d1013_5;
       m_lightMin := d100; m_lightMax := d1000;
       emitted := []; config_file := file; sensor_log := log |}.

(** *** The tick *)

(** [(m_randomGenerator() % 100 - 50) * 0.1]: the difference is taken in
    the unsigned result type, then converted to [double]. *)
Definition noise (r : Z) : double :=
  dmul (double_of_Z (to_result_type (to_result_type r mod 100 - 50))) d0_1.

Definition generateRandomData (rnd : Randomness) (st : MockI2C) : MockI2C :=
  let data :=
    set_lightLevel (light_sample rnd)
      (set_pressure (pressure_sample rnd)
         (set_humidity (humidity_sample rnd)
            (set_temperature (temperature_sample rnd) (m_currentData st)))) in
  let data' :=
    if m_simulateDataCorruption st then
      set_humidity (dadd (humidity data) (noise (humidity_noise rnd)))
        (set_temperature (dadd (temperature data) (noise (temperature_noise rnd))) data)
    else data in
  set_m_currentData data' st.

Definition applyCalibration (st : MockI2C) : MockI2C :=
  let d := m_currentData st in
  let d1 :=
    set_lightLevel (dadd (lightLevel d) (m_lightOffset st))
      (set_pressure (dadd (pressure d) (m_pressureOffset st))
         (set_humidity (dadd (humidity d) (m_humidityOffset st))
            (set_temperature (dadd (temperature d) (m_tempOffset st)) d))) in
  let d2 :=
    set_lightLevel (clamp (lightLevel d1) d0 d10000)
      (set_pressure (clamp (pressure d1) d800 d1200)
         (set_humidity (clamp (humidity d1) d0 d100)
            (set_temperature (clamp (temperature d1) dm40 d80) d1))) in
  set_m_currentData d2 st.

(** [getCurrentTimestamp]: "yyyy-MM-dd hh:mm:ss.zzz". *)
Definition getCurrentTimestamp (now : Clock) : string :=
  let t := currentDateTime now in
  if dt_valid t then toString_ymd_hms t +:+ "." +:+ arg_padded (dt_msec t) 3 "0" else "".

Definition logData (st : MockI2C) : MockI2C :=
  let d := m_currentData st in
  let dataPoint :=
    JObject
      [ ("timestamp", JString (timestamp d));
        ("temperature", json_double (temperature d));
        ("humidity", json_double (humidity d));
        ("pressure", json_double (pressure d));
        ("light_level", json_double (lightLevel d)) ] in
  let dataArray := match sensor_log st with Some doc => toArray doc | None => [] end in
  set_sensor_log (Some (JArray (dataArray ++ [dataPoint]))) st.

(** [updateSensorData], the slot of the update timer. *)
Definition updateSensorData (now : Clock) (rnd : Randomness) (st : MockI2C) : MockI2C :=
  if m_simulateSensorFailure st then
    emit (sensorError "Sensor failure - invalid readings")
      (set_m_currentData (set_isValid false (m_currentData st)) st)
  else
    let st1 := applyCalibration (generateRandomData rnd st) in
    let st2 :=
      set_m_currentData
        (set_isValid true (set_timestamp (getCurrentTimestamp now) (m_currentData st1))) st1 in
    let st3 := if m_dataLoggingEnabled st2 then logData st2 else st2 in
    emit (dataUpdated (m_currentData st3)) st3.

(** *** Predicates on readings *)

(** Between its bounds: [lo <= x <= hi] in the order of the doubles, which
    no NaN satisfies. *)
Definition within (lo hi x : double) : Prop := dle lo x = true /\ dle x hi = true.

Definition finite_samples (rnd : Randomness) : Prop :=
  is_finite (temperature_sample rnd) = true /\ is_finite (humidity_sample rnd) = true
  /\ is_finite (pressure_sample rnd) = true /\ is_finite (light_sample rnd) = true.

Definition finite_offsets (st : MockI2C) : Prop :=
  is_finite (m_tempOffset st) = true /\ is_finite (m_humidityOffset st) = true
  /\ is_finite (m_pressureOffset st) = true /\ is_finite (m_lightOffset st) = true.

(** *** Registers *)

Definition d2 : double := double_of_Z 2.
Definition d2_55 : double := ddiv (double_of_Z 255) (double_of_Z 100).

(** The integer part of a finite double (towards zero). *)
Definition truncate (x : double) : option Z :=
  match x with
  | S754_zero _ => Some 0
  | S754_finite s m e =>
      let a :=
        match e with
        | Z0 => Zpos m
        | Zpos p => Zpos m * 2 ^ Zpos p
        | Zneg p => Zpos m / 2 ^ Zpos p
        end in
      Some (if s then - a else a)
  | _ => None
  end.

(** [static_cast<int>] and [static_cast<uint8_t>] of a double: the integer
    part when the type can hold it; the behaviour is undefined otherwise
    ([None]). *)
Definition to_int (x : double) : option Z :=
  match truncate x with
  | Some z => if decide (in_int32 z) then Some z else None
  | None => None
  end.

Definition to_uint8 (x : double) : option Z :=
  match truncate x with
  | Some z => if decide (0 <= z <= 255) then Some z else None
  | None => None
  end.

(** [(i >> 8) & 0xFF] and [i & 0xFF] of an [int]. *)
Definition high_byte (i : Z) : Z := Z.land (Z.shiftr i 8) 255.
Definition low_byte (i : Z) : Z := Z.land i 255.

Definition readRegister (reg : Z) (st : MockI2C) : option Z :=
  if negb (isConnected st) then Some 0
  else
    let d := m_currentData st in
    if reg =? 0 then to_uint8 (dmul (temperature d) d2)
    else if reg =? 1 then to_uint8 (dmul (humidity d) d2_55)
    else if reg =? 2 then option_map high_byte (to_int (pressure d))
    else if reg =? 3 then option_map low_byte (to_int (pressure d))
    else if reg =? 4 then option_map high_byte (to_int (lightLevel d))
    else if reg =? 5 then option_map low_byte (to_int (lightLevel d))
    else Some 0.

Definition writeRegister (reg value : Z) (st : MockI2C) : bool := isConnected st.

(** *** Runs of the update timer *)

Fixpoint ticks (inputs : list (Clock * Randomness)) (st : MockI2C) : MockI2C :=
  match inputs with
  | [] => st
  | (now, rnd) :: rest => ticks rest (updateSensorData now rnd st)
  end.

(** The records of [config/sensor_data.json]. *)
Definition log_entries (st : MockI2C) : list QJsonValue :=
  match sensor_log st with Some doc => toArray doc | None => [] end.

(** The four values and the time stamp of a reading. *)
Definition values (d : SensorData) : double * double * double * double * string :=
  (temperature d, humidity d, pressure d, lightLevel d, timestamp d).

(** The noise term when the generator's result type has [bits] bits:
    [uint_fast32_t] has 32 or 64, depending on the target. [noise_index] is
    the remainder [m_randomGenerator() % 100] of the raw output [r]. *)
Definition noise_index (bits r : Z) : Z := (r mod 2 ^ bits) mod 100.

Definition noise_of_index (bits k : Z) : double :=
  dmul (double_of_Z ((k - 50) mod 2 ^ bits)) d0_1.

Definition noise_at (bits r : Z) : double := noise_of_index bits (noise_index bits r).

(** Not negative; at least [large] for a remainder below 50, at most 5
    from 50 on. *)
Definition noise_shape (bits large k : Z) : bool :=
  dle d0 (noise_of_index bits k)
  && (if k <? 50 then dle (double_of_Z large) (noise_of_index bits k)
      else dle (noise_of_index bits k) (double_of_Z 5)).

End MockI2C.

(** ** Concrete runs *)

Module Examples.
Import Qt.

(** A generator stream and clock readings to run the simulators on. *)
Definition rng : mt19937 := mkRng (λ n, Z.of_nat n * 1000003 + 77) O.

Definition clock_at (ms : Z) : Clock :=
  mkClock ms (mkDateTime true 2024 5 1 12 0 (ms / 1000 mod 60) (ms mod 1000)).

(** The start of [main.cpp]: the stack is initialised, then the phone and
    the headset appear, one call after the other within one millisecond. *)
Definition startup_id : string := "BT_1714564800123".

Definition startup : list BluetoothSim.Event :=
  [ BluetoothSim.call_initialize;
    BluetoothSim.call_simulateDeviceAppearance
      (clock_at 1714564800123) (clock_at 1714564800123) "iPhone 15 Pro" BluetoothSim.PHONE;
    BluetoothSim.call_simulateDeviceAppearance
      (clock_at 1714564800123) (clock_at 1714564800123) "Sony WH-1000XM5" BluetoothSim.HEADSET ].

Definition after_startup : BluetoothSim.BluetoothSim :=
  BluetoothSim.run startup (BluetoothSim.construct rng None).

(** The first device is being paired. *)
Definition pairing_events : list BluetoothSim.Event :=
  startup ++ [BluetoothSim.call_pairDevice startup_id].

Definition while_pairing : BluetoothSim.BluetoothSim :=
  BluetoothSim.run pairing_events (BluetoothSim.construct rng None).

(** Ten seconds later the pairing timer (handle 0) has fired. *)
Definition after_pairing : BluetoothSim.BluetoothSim :=
  BluetoothSim.run [BluetoothSim.timer_singleShot (clock_at 1714564810123) O] while_pairing.

(** The same two appearances one millisecond apart: the ids differ. *)
Definition apart : BluetoothSim.BluetoothSim :=
  BluetoothSim.run
    [ BluetoothSim.call_initialize;
      BluetoothSim.call_simulateDeviceAppearance
        (clock_at 1714564800123) (clock_at 1714564800123) "iPhone 15 Pro" BluetoothSim.PHONE;
      BluetoothSim.call_simulateDeviceAppearance
        (clock_at 1714564800124) (clock_at 1714564800124) "Sony WH-1000XM5"
        BluetoothSim.HEADSET ]
    (BluetoothSim.construct rng None).

(** The paired phone is being connected, and fifteen seconds later the
    connection timer (handle 1) has fired. *)
Definition connecting : BluetoothSim.BluetoothSim :=
  BluetoothSim.run [BluetoothSim.call_connectDevice startup_id] after_pairing.

Definition connected : BluetoothSim.BluetoothSim :=
  BluetoothSim.run [BluetoothSim.timer_singleShot (clock_at 1714564825123) 1%nat] connecting.

(** Discovery is running, then the "Bluetooth off" fault is enabled and
    the panel and the timers go on. *)
Definition discovering : BluetoothSim.BluetoothSim :=
  BluetoothSim.run [BluetoothSim.call_initialize; BluetoothSim.call_startDiscovery]
    (BluetoothSim.construct rng None).

Definition while_off : list BluetoothSim.Event :=
  [ BluetoothSim.call_startDiscovery;
    BluetoothSim.timer_discovery (λ _, clock_at 1714564802000);
    BluetoothSim.call_initialize;
    BluetoothSim.call_simulateBluetoothOff true;
    BluetoothSim.call_startDiscovery ].

(** A drive is inserted and a file is copied into its mount directory. *)
Definition usb_id : string := "USB_1714564800200".

Definition song : USBMonitor.FileEntry :=
  {| USBMonitor.entry_name := "Artist - Title.mp3";
     USBMonitor.entry_size := 4000000;
     USBMonitor.entry_lastModified := mkDateTime true 2024 4 30 18 30 12 250 |}.

Definition usb_dir : USBMonitor.Directory :=
  {| USBMonitor.absolutePath := "/opt/autodash/mnt/usb/USB_1714564800200";
     USBMonitor.files :=
       [ song;
         {| USBMonitor.entry_name := "readme.txt";
            USBMonitor.entry_size := 120;
            USBMonitor.entry_lastModified := null_QDateTime |} ] |}.

Definition disk : USBMonitor.FileSystem :=
  {| USBMonitor.directory :=
       λ path, if decide (path = "mnt/usb/USB_1714564800200") then Some usb_dir else None;
     USBMonitor.storage := λ _, None |}.

Definition inserted : USBMonitor.USBMonitor :=
  USBMonitor.simulateUSBInsertion (clock_at 1714564800200) (clock_at 1714564800200)
    "USB_DRIVE_01" (USBMonitor.construct None).

(** The drive after its directory was scanned. *)
Definition scanned : USBMonitor.USBMonitor :=
  USBMonitor.scanMediaFiles disk usb_id inserted.

(** The same drive after the supported formats were set to WAV only. *)
Definition wav_only : USBMonitor.USBMonitor :=
  USBMonitor.setSupportedFormats ["wav"] inserted.

(** The sensor simulator as constructed without a calibration file, and
    one tick's worth of samples within the default ranges. *)
Definition garbage : MockI2C.SensorData :=
  MockI2C.Build_SensorData (S754_zero false) (S754_zero false) (S754_zero false)
    (S754_zero false) false "".

Definition sensor : MockI2C.MockI2C := MockI2C.construct garbage None None.

Definition samples : MockI2C.Randomness :=
  {| MockI2C.temperature_sample := double_of_Z 21;
     MockI2C.humidity_sample := double_of_Z 47;
     MockI2C.pressure_sample := MockI2C.d1013;
     MockI2C.light_sample := double_of_Z 640;
     MockI2C.temperature_noise := 3141592653;
     MockI2C.humidity_noise := 2718281828 |}.

(** The simulator with a humidity range of 30 to 70 percent and a light
    offset of 3 lux, as [setHumidityRange] and [calibrateLight] leave it. *)
Definition recalibrated : MockI2C.MockI2C :=
  MockI2C.calibrateLight (double_of_Z 3)
    (MockI2C.setHumidityRange (double_of_Z 30) (double_of_Z 70) sensor).

(** The simulator constructed anew from the file [recalibrated] saved. *)
Definition restarted : MockI2C.MockI2C :=
  MockI2C.construct garbage
    (MockI2C.config_file (MockI2C.saveCalibrationData recalibrated)) None.

(** The simulator after [begin] and one tick. *)
Definition measuring : MockI2C.MockI2C :=
  MockI2C.updateSensorData (clock_at 1714564805000) samples (MockI2C.begin sensor).2.

End Examples.

(** * Properties of the runtime model *)

Module QtProofs.
Import Qt.

(** ** Reading the members of a JSON object *)

Lemma member_here (k : string) (v : QJsonValue) (rest : list (string * QJsonValue)) :
  member k ((k, v) :: rest) = v.
Proof. cbn [member]. destruct (decide (k = k)); [reflexivity | contradiction]. Qed.

Lemma member_skip (k k' : string) (v : QJsonValue) (rest : list (string * QJsonValue)) :
  k' <> k -> member k ((k', v) :: rest) = member k rest.
Proof. intros H. cbn [member]. destruct (decide (k' = k)); [contradiction | reflexivity]. Qed.

Lemma member_nil (k : string) : member k [] = JUndefined.
Proof. reflexivity. Qed.

(** ** Printing and parsing a date *)

Lemma Zrange_elem (lo : Z) (n : nat) (z : Z) :
  lo <= z < lo + Z.of_nat n -> In z (Zrange lo n).
Proof.
  intros H. unfold Zrange. apply in_map_iff. exists (Z.to_nat (z - lo)). split; [lia|].
  apply in_seq. lia.
Qed.

Lemma reads_back_2 (z : Z) : 0 <= z < 100 -> reads_back 2 z = true.
Proof.
  intros H.
  assert (Hall : forallb (reads_back 2) (Zrange 0 (Z.to_nat 100)) = true) by (vm_compute; reflexivity).
  rewrite forallb_forall in Hall. apply Hall, Zrange_elem. lia.
Qed.

Lemma reads_back_4 (z : Z) : 0 <= z < 10000 -> reads_back 4 z = true.
Proof.
  intros H.
  assert (Hall : forallb (reads_back 4) (Zrange 0 (Z.to_nat 10000)) = true) by (vm_compute; reflexivity).
  rewrite forallb_forall in Hall. apply Hall, Zrange_elem. lia.
Qed.

Lemma padded_2 (z : Z) :
  0 <= z < 100 ->
  exists a b, arg_padded z 2 "0" = String a (String b "")
              /\ digits_value 0 [a; b] = Some z.
Proof.
  intros H. pose proof (reads_back_2 z H) as Hr. unfold reads_back in Hr.
  rewrite <- (string_of_list_ascii_of_string (arg_padded z 2 "0")).
  destruct (list_ascii_of_string (arg_padded z 2 "0")) as [|a [|b [|c l]]];
    try discriminate.
  exists a, b. split; [reflexivity|].
  apply andb_true_iff in Hr as [_ Hr].
  destruct (digits_value 0 [a; b]) as [v|]; [|discriminate].
  apply Z.eqb_eq in Hr. congruence.
Qed.

Lemma padded_4 (z : Z) :
  0 <= z < 10000 ->
  exists a b c d, arg_padded z 4 "0" = String a (String b (String c (String d "")))
                  /\ digits_value 0 [a; b; c; d] = Some z.
Proof.
  intros H. pose proof (reads_back_4 z H) as Hr. unfold reads_back in Hr.
  rewrite <- (string_of_list_ascii_of_string (arg_padded z 4 "0")).
  destruct (list_ascii_of_string (arg_padded z 4 "0")) as [|a [|b [|c [|d [|e l]]]]];
    try discriminate.
  exists a, b, c, d. split; [reflexivity|].
  apply andb_true_iff in Hr as [_ Hr].
  destruct (digits_value 0 [a; b; c; d]) as [v|]; [|discriminate].
  apply Z.eqb_eq in Hr. congruence.
Qed.

Lemma valid_fields_ranges (y mo d h mi s ms : Z) :
  valid_fields y mo d h mi s ms = true ->
  0 <= y < 10000 /\ 0 <= mo < 100 /\ 0 <= d < 100 /\ 0 <= h < 100
  /\ 0 <= mi < 100 /\ 0 <= s < 100 /\ valid_fields y mo d h mi s 0 = true.
Proof.
  unfold valid_fields. intros H.
  repeat (apply andb_true_iff in H as [H ?]).
  assert (Hd : daysInMonth y mo <= 31).
  { unfold daysInMonth. destruct mo as [|p|p]; try lia.
    do 4 (try destruct p as [p|p|]; try lia); destruct (isLeapYear y); lia. }
  repeat split; lia.
Qed.

(** A date written with [Qt::ISODate] is read back to the second: the
    milliseconds are lost, a null date stays null. *)
Lemma fromString_toString_ISODate (t : QDateTime) :
  wf_QDateTime t -> fromString_ISODate (toString_ISODate t) = whole_seconds t.
Proof.
  intros [->|[Hv Hf]]; [reflexivity|].
  destruct t as [v y mo d h mi s ms]. cbn in Hv, Hf. subst v.
  destruct (valid_fields_ranges _ _ _ _ _ _ _ Hf) as (Hy & Hmo & Hd & Hh & Hmi & Hs & Hf0).
  destruct (padded_4 y Hy) as (y1 & y2 & y3 & y4 & Ey & Vy).
  destruct (padded_2 mo Hmo) as (o1 & o2 & Eo & Vo).
  destruct (padded_2 d Hd) as (a1 & a2 & Ea & Va).
  destruct (padded_2 h Hh) as (h1 & h2 & Eh & Vh).
  destruct (padded_2 mi Hmi) as (i1 & i2 & Ei & Vi).
  destruct (padded_2 s Hs) as (s1 & s2 & Es & Vs).
  unfold toString_ISODate, date_part, whole_seconds.
  cbn [dt_valid dt_year dt_month dt_day dt_hour dt_minute dt_second dt_msec].
  rewrite Ey, Eo, Ea, Eh, Ei, Es.
  unfold fromString_ISODate.
  change (list_ascii_of_string _) with
    [y1; y2; y3; y4; "-"%char; o1; o2; "-"%char; a1; a2; "T"%char; h1; h2;
     ":"%char; i1; i2; ":"%char; s1; s2].
  cbv beta iota.
  destruct (decide _) as [_|Hn]; [|exfalso; apply Hn; repeat split].
  rewrite Vy, Vo, Va, Vh, Vi, Vs, Hf0. reflexivity.
Qed.

Lemma whole_seconds_id (t : QDateTime) : dt_msec t = 0 -> whole_seconds t = t.
Proof. destruct t; cbn; intros ->; reflexivity. Qed.

End QtProofs.

(** Reads a member of a literal object: the names before it differ. *)
Ltac read_member :=
  repeat (rewrite QtProofs.member_skip by discriminate);
  first [rewrite QtProofs.member_here | rewrite QtProofs.member_nil].

(** Replaces a closed term of the goal by its value. *)
Ltac evaluate t :=
  let v := eval vm_compute in t in
  let E := fresh "E" in
  assert (E : t = v) by (vm_compute; reflexivity);
  rewrite E; clear E.

(** Splits a membership in a closed list into its elements. *)
Ltac elems H :=
  vm_compute in H; apply list_elem_of_In in H; cbn in H;
  repeat (destruct H as [<-|H]); try contradiction.

Ltac evaluate_in t H :=
  let v := eval vm_compute in t in
  let E := fresh "E" in
  assert (E : t = v) by (vm_compute; reflexivity);
  rewrite E in H; clear E.

(** * Properties of the wireless device registry *)

Module BluetoothSimProofs.
Import Qt BluetoothSim.

(** ** Looking a device up by id *)

Lemma findDevice_None (id : string) (l : list BluetoothDevice) :
  findDevice id l = None <-> (forall d, d ∈ l -> deviceId d <> id).
Proof.
  unfold findDevice. rewrite list_find_None, Forall_forall. reflexivity.
Qed.

Lemma findDevice_Some (id : string) (l : list BluetoothDevice) (i : nat) (d : BluetoothDevice) :
  findDevice id l = Some (i, d) ->
  l !! i = Some d /\ deviceId d = id
  /\ (forall j y, l !! j = Some y -> (j < i)%nat -> deviceId y <> id).
Proof. unfold findDevice. intros H. apply list_find_Some in H. exact H. Qed.

Lemma findDevice_elem (id : string) (l : list BluetoothDevice) (i : nat) (d : BluetoothDevice) :
  findDevice id l = Some (i, d) -> d ∈ l /\ deviceId d = id.
Proof.
  intros H. apply findDevice_Some in H as (Hi & Hid & _).
  split; [eapply list_elem_of_lookup_2; eassumption | assumption].
Qed.

(** ** C9: the connection state of an id that is not paired *)

(** C9. For an id that no device of the paired collection has,
    [getConnectionState] answers [DISCONNECTED], whatever the available
    collection holds (also a device with this id in state [PAIRING]): the
    available collection is not consulted. *)
Theorem getConnectionState_not_paired (st : BluetoothSim) (id : string)
  (available : list BluetoothDevice) :
  (forall d, d ∈ m_pairedDevices st -> deviceId d <> id) ->
  getConnectionState id (set_m_availableDevices available st) = DISCONNECTED.
Proof.
  intros Hnot. unfold getConnectionState. cbn [set_m_availableDevices m_pairedDevices].
  apply findDevice_None in Hnot. rewrite Hnot. reflexivity.
Qed.

Lemma getConnectionState_not_paired_witness :
  (exists d, d ∈ m_availableDevices Examples.while_pairing
             /\ deviceId d = Examples.startup_id /\ connectionState d = PAIRING)
  /\ getConnectionState Examples.startup_id
       (set_m_availableDevices (m_availableDevices Examples.while_pairing)
          Examples.while_pairing) = DISCONNECTED.
Proof.
  split.
  - eexists. split; [vm_compute; apply list_elem_of_here | split; reflexivity].
  - apply getConnectionState_not_paired.
    intros d Hd. vm_compute in Hd. inversion Hd.
Defined.

(** ** C2: connecting a device that is not paired *)

Lemma isDevicePaired_false (st : BluetoothSim) (id : string) :
  (forall d, d ∈ m_pairedDevices st -> deviceId d = id -> isPaired d = false) ->
  isDevicePaired id st = false.
Proof.
  intros H. unfold isDevicePaired.
  destruct (findDevice id (m_pairedDevices st)) as [[i d]|] eqn:E; [|reflexivity].
  apply findDevice_elem in E as [Hin Hid]. auto.
Qed.

(** C2. When no device of the paired collection has the id, or those that
    have it carry a false paired flag, [connectDevice] returns false and the
    whole object is as before: both collections, every connection state, the
    timers and the emitted signals. *)
Theorem connectDevice_not_paired (st : BluetoothSim) (id : string) :
  (forall d, d ∈ m_pairedDevices st -> deviceId d = id -> isPaired d = false) ->
  connectDevice id st = (false, st).
Proof.
  intros H. unfold connectDevice.
  destruct (negb (isInitialized st)); [reflexivity|].
  rewrite (isDevicePaired_false st id H). reflexivity.
Qed.

Lemma connectDevice_not_paired_witness :
  connectDevice Examples.startup_id Examples.while_pairing
  = (false, Examples.while_pairing).
Proof.
  apply connectDevice_not_paired.
  intros d Hd. vm_compute in Hd. inversion Hd.
Defined.

(** ** C5: the record made for a phone that appears *)

Lemma phone_strength_range (r : Z) :
  75 <= to_int32 (to_result_type (75 + to_result_type r mod 25)) <= 99.
Proof.
  unfold to_int32, to_result_type, result_bits.
  change (2 ^ 64) with 18446744073709551616.
  change (2 ^ 32) with 4294967296. change (2 ^ 31) with 2147483648.
  assert (Hr : 0 <= (r mod 18446744073709551616) mod 25 < 25) by (apply Z.mod_pos_bound; lia).
  rewrite (Z.mod_small (75 + _) 18446744073709551616) by lia.
  rewrite (Z.mod_small (_ + 2147483648) 4294967296) by lia.
  lia.
Qed.

Lemma newDevice_fields (now1 now2 : Clock) (name : string) (type : BluetoothDeviceType)
  (g : mt19937) :
  let d := fst (newDevice now1 now2 name type g) in
  deviceName d = name /\ deviceType d = type
  /\ supportedProfiles d = generateSupportedProfiles type
  /\ 75 <= signalStrength d <= 99
  /\ connectionState d = DISCONNECTED /\ isPaired d = false.
Proof.
  unfold newDevice.
  destruct (generateDeviceAddress g) as [address g1].
  destruct (draw g1) as [r g2]. cbn.
  repeat split; try reflexivity; apply phone_strength_range.
Qed.

(** C5. Every call of [simulateDeviceAppearance] for the type [PHONE]
    appends one record to the available collection; its supported profiles
    are the list A2DP, AVRCP, HFP, HSP, PBAP, MAP and its signal strength is
    at least 75 and at most 100 (in fact at most 99). *)
Theorem simulateDeviceAppearance_phone (now1 now2 : Clock) (name : string)
  (st : BluetoothSim) :
  exists d,
    m_availableDevices (simulateDeviceAppearance now1 now2 name PHONE st)
    = m_availableDevices st ++ [d]
    /\ deviceName d = name /\ deviceType d = PHONE
    /\ supportedProfiles d = ["A2DP"; "AVRCP"; "HFP"; "HSP"; "PBAP"; "MAP"]
    /\ (forall p, p ∈ supportedProfiles d <->
                  p ∈ ["A2DP"; "AVRCP"; "HFP"; "HSP"; "PBAP"; "MAP"])
    /\ 75 <= signalStrength d <= 100.
Proof.
  pose proof (newDevice_fields now1 now2 name PHONE (m_randomGenerator st)) as H.
  unfold simulateDeviceAppearance.
  destruct (newDevice now1 now2 name PHONE (m_randomGenerator st)) as [d g].
  cbn in H. destruct H as (Hn & Ht & Hp & Hs & _).
  exists d. cbn. rewrite Hp. cbn.
  repeat split; auto; lia.
Qed.

(** The strength 100 of the source's comment "75-100%" is never drawn. *)
Lemma simulateDeviceAppearance_below_100 (now1 now2 : Clock) (name : string)
  (type : BluetoothDeviceType) (g : mt19937) :
  signalStrength (fst (newDevice now1 now2 name type g)) <> 100.
Proof.
  destruct (newDevice_fields now1 now2 name type g) as (_ & _ & _ & Hs & _). lia.
Qed.

(** ** C7: the "Bluetooth off" fault *)

Lemma off_not_initialized (st : BluetoothSim) :
  m_simulateBluetoothOff st = true -> isInitialized st = false.
Proof. intros H. unfold isInitialized. rewrite H. apply andb_false_r. Qed.

Lemma simulateBluetoothOff_true_off_state (st : BluetoothSim) :
  off_state (simulateBluetoothOff true st).
Proof. repeat split. Qed.

Ltac unfold_calls :=
  unfold initialize, startDiscovery, stopDiscovery, pairDevice, unpairDevice,
    connectDevice, disconnectDevice,
    simulateDeviceDisappearance, updateSignalStrength, simulateBluetoothOff,
    simulateInterference, simulateLowBattery, updateDeviceStates,
    updateSignalStrengths, timeout, pairingCompleted, connectionCompleted,
    savePairedDevices, stopDiscovery, emit in *.

Lemma simulateDeviceAppearance_off_state now1 now2 name type st :
  off_state st -> off_state (simulateDeviceAppearance now1 now2 name type st).
Proof.
  unfold simulateDeviceAppearance.
  destruct (newDevice now1 now2 name type (m_randomGenerator st)). trivial.
Qed.

Lemma step_off_state (e : Event) (st : BluetoothSim) :
  e <> call_simulateBluetoothOff false ->
  off_state st -> off_state (step e st).
Proof.
  intros He (Hoff & Hdisc & Htimer).
  pose proof (off_not_initialized st Hoff) as Hinit.
  destruct e; cbn [step];
    try (apply simulateDeviceAppearance_off_state; repeat split; assumption);
    try (rewrite Htimer; repeat split; assumption);
    unfold_calls; rewrite ?Hinit, ?Hoff; cbn;
    repeat case_match; cbn; repeat split; try assumption; try congruence.
Qed.

Lemma run_off_state (events : list Event) (st : BluetoothSim) :
  Forall (λ e, e <> call_simulateBluetoothOff false) events ->
  off_state st -> off_state (run events st).
Proof.
  revert st. induction events as [|e events IH]; intros st Hall Hst; [exact Hst|].
  inversion Hall; subst. cbn. apply IH; [assumption|].
  apply step_off_state; assumption.
Qed.

(** C7. Enabling the "Bluetooth off" fault stops discovery (the flag
    [m_isDiscovering] is cleared, the discovery timer is stopped,
    [discoveryStopped] is emitted). For as long as the fault is not
    disabled, whatever is called and whichever timer fires in between:
    the flag stays set, the discovery timer stays stopped, [isDiscovering]
    answers false, and [startDiscovery] changes nothing (it starts no
    timer and emits nothing). *)
Theorem bluetooth_off_blocks_discovery (st : BluetoothSim) (events : list Event) :
  Forall (λ e, e <> call_simulateBluetoothOff false) events ->
  let off := simulateBluetoothOff true st in
  let st' := run events off in
  (m_isDiscovering off = false /\ m_discoveryTimer off = None
   /\ emitted off = emitted st ++ [discoveryStopped])
  /\ m_simulateBluetoothOff st' = true
  /\ m_discoveryTimer st' = None
  /\ isDiscovering st' = false
  /\ startDiscovery st' = st'.
Proof.
  intros Hall off st'.
  destruct (run_off_state events off Hall (simulateBluetoothOff_true_off_state st))
    as (Hoff & Hdisc & Htimer).
  fold st' in Hoff, Hdisc, Htimer.
  split; [repeat split|].
  repeat split; try assumption.
  - unfold isDiscovering. rewrite Hdisc. reflexivity.
  - unfold startDiscovery. rewrite (off_not_initialized st' Hoff). reflexivity.
Qed.

Lemma bluetooth_off_blocks_discovery_witness :
  isDiscovering Examples.discovering = true
  /\ let off := simulateBluetoothOff true Examples.discovering in
     let st' := run Examples.while_off off in
     (m_isDiscovering off = false /\ m_discoveryTimer off = None
      /\ emitted off = emitted Examples.discovering ++ [discoveryStopped])
     /\ m_simulateBluetoothOff st' = true
     /\ m_discoveryTimer st' = None
     /\ isDiscovering st' = false
     /\ startDiscovery st' = st'.
Proof.
  split; [reflexivity|].
  apply bluetooth_off_blocks_discovery.
  repeat constructor; discriminate.
Defined.

(** ** C6: a second request while a pairing is outstanding *)

Lemma pairing_first_nil : pairing_first [].
Proof. intros i j id id' s H. rewrite lookup_nil in H. discriminate. Qed.

Lemma pairing_first_snoc ks id s :
  s <> PAIRING -> pairing_first ks -> pairing_first (ks ++ [(id, s)]).
Proof.
  intros Hs Hks i j id1 id2 s2 Hi Hj Hlt.
  destruct (decide (i < length ks)%nat) as [Hin|Hout].
  - rewrite lookup_app_l in Hi by assumption.
    rewrite lookup_app_l in Hj by lia. eapply Hks; eassumption.
  - rewrite lookup_app_r in Hi by lia.
    destruct (i - length ks)%nat as [|n] eqn:E;
      [cbn in Hi; congruence | destruct n; cbn in Hi; discriminate].
Qed.

Lemma lookup_erase_at {A} (k i : nat) (l : list A) :
  erase_at k l !! i = if decide (i < k)%nat then l !! i else l !! S i.
Proof.
  unfold erase_at. destruct (decide (i < k)%nat) as [Hlt|Hge].
  - destruct (decide (k <= length l)%nat).
    + rewrite lookup_app_l by (rewrite length_take; lia). apply lookup_take_lt. assumption.
    + rewrite take_ge by lia. rewrite drop_ge by lia. rewrite app_nil_r. reflexivity.
  - destruct (decide (k <= length l)%nat).
    + rewrite lookup_app_r by (rewrite length_take; lia).
      rewrite length_take, lookup_drop. f_equal. lia.
    + rewrite take_ge by lia. rewrite drop_ge by lia. rewrite app_nil_r.
      rewrite !lookup_ge_None_2 by lia. reflexivity.
Qed.

Lemma pairing_first_erase ks k : pairing_first ks -> pairing_first (erase_at k ks).
Proof.
  intros Hks i j id id' s Hi Hj Hlt.
  rewrite lookup_erase_at in Hi, Hj.
  destruct (decide (i < k)%nat), (decide (j < k)%nat);
    (eapply Hks; [exact Hi | exact Hj | lia]).
Qed.

Lemma pairing_first_insert ks k id s s' :
  ks !! k = Some (id, s) ->
  (forall j id' s'', ks !! j = Some (id', s'') -> (j < k)%nat -> id' <> id) ->
  pairing_first ks -> pairing_first (<[k := (id, s')]> ks).
Proof.
  intros Hk Hfirst Hks i j id1 id2 s2 Hi Hj Hlt.
  assert (Hklen : (k < length ks)%nat) by (eapply lookup_lt_Some; eassumption).
  destruct (decide (i = k)) as [->|Hik].
  - rewrite list_lookup_insert_eq in Hi by assumption. inversion Hi; subst.
    rewrite list_lookup_insert_ne in Hj by lia. eapply Hfirst; eassumption.
  - rewrite list_lookup_insert_ne in Hi by congruence.
    destruct (decide (j = k)) as [->|Hjk].
    + rewrite list_lookup_insert_eq in Hj by assumption. inversion Hj; subst.
      eapply Hks; [exact Hi | exact Hk | assumption].
    + rewrite list_lookup_insert_ne in Hj by congruence.
      eapply Hks; eassumption.
Qed.

Lemma fmap_erase_at {A B} (f : A -> B) (k : nat) (l : list A) :
  f <$> erase_at k l = erase_at k (f <$> l).
Proof. unfold erase_at. rewrite fmap_app, fmap_take, fmap_drop. reflexivity. Qed.

Lemma findDevice_keys id l i d :
  findDevice id l = Some (i, d) ->
  (key <$> l) !! i = Some (id, connectionState d)
  /\ (forall j id' s, (key <$> l) !! j = Some (id', s) -> (j < i)%nat -> id' <> id).
Proof.
  intros H. apply findDevice_Some in H as (Hi & Hid & Hfirst). split.
  - rewrite list_lookup_fmap, Hi. cbn. unfold key. rewrite Hid. reflexivity.
  - intros j id' s Hj Hlt. rewrite list_lookup_fmap in Hj.
    destruct (l !! j) as [y|] eqn:Ey; [|discriminate].
    cbn in Hj. inversion Hj; subst. eapply Hfirst; eassumption.
Qed.

(** [removeOne] on the element just updated in place removes that very
    position: no earlier element is equal to it, their ids differ. *)
Lemma removeOne_insert_first id l i d d' :
  findDevice id l = Some (i, d) -> deviceId d' = id ->
  removeOne d' (<[i := d']> l) = erase_at i l.
Proof.
  intros H Hid. apply findDevice_Some in H as (Hi & _ & Hfirst).
  revert i Hi Hfirst. induction l as [|y rest IH]; intros i Hi Hfirst.
  - rewrite lookup_nil in Hi. discriminate.
  - destruct i as [|i].
    + cbn. destruct (decide (d' = d')); [reflexivity | congruence].
    + cbn. assert (Hy : deviceId y <> id) by (apply (Hfirst O y); [reflexivity | lia]).
      destruct (decide (y = d')) as [->|_]; [congruence|].
      unfold erase_at. cbn. f_equal. apply IH; [exact Hi|].
      intros j z Hj Hlt. apply (Hfirst (S j) z); [exact Hj | lia].
Qed.

Lemma updateSignalStrengths_loop_keys l g :
  key <$> (updateSignalStrengths_loop l g).1.1 = key <$> l.
Proof.
  revert g. induction l as [|d rest IH]; intros g; [reflexivity|].
  cbn [updateSignalStrengths_loop]. destruct (draw g) as [r g1].
  specialize (IH g1). destruct (updateSignalStrengths_loop rest g1) as [[rest' sigs] g2].
  cbn in IH. destruct (decide _); cbn; rewrite IH; reflexivity.
Qed.

Lemma pairDevice_pairing_first id st :
  pairing_first (keys st) -> pairing_first (keys (pairDevice id st).2).
Proof.
  intros H. unfold pairDevice.
  destruct (negb (isInitialized st)); [exact H|].
  destruct (findDevice id (m_availableDevices st)) as [[i d]|] eqn:E; [|exact H].
  destruct (decide (connectionState d = PAIRING)); [exact H|].
  destruct (findDevice_elem _ _ _ _ E) as [_ Hid].
  apply findDevice_keys in E as [Hi Hfirst].
  unfold keys. cbn. rewrite list_fmap_insert.
  change (key (set_connectionState PAIRING d)) with (deviceId d, PAIRING).
  rewrite Hid. eapply pairing_first_insert; eassumption.
Qed.

Lemma pairingCompleted_available now id st :
  m_availableDevices (pairingCompleted now id st)
  = match findDevice id (m_availableDevices st) with
    | Some (i, _) => erase_at i (m_availableDevices st)
    | None => m_availableDevices st
    end.
Proof.
  unfold pairingCompleted.
  destruct (findDevice id (m_availableDevices st)) as [[i d]|] eqn:E; [|reflexivity].
  cbn. eapply removeOne_insert_first; [exact E|].
  cbn. apply findDevice_elem in E. tauto.
Qed.

Lemma pairingCompleted_pairing_first now id st :
  pairing_first (keys st) -> pairing_first (keys (pairingCompleted now id st)).
Proof.
  intros H. unfold keys. rewrite pairingCompleted_available.
  destruct (findDevice id (m_availableDevices st)) as [[i d]|]; [|exact H].
  rewrite fmap_erase_at. apply pairing_first_erase. exact H.
Qed.

Lemma simulateDeviceAppearance_pairing_first now1 now2 name type st :
  pairing_first (keys st) ->
  pairing_first (keys (simulateDeviceAppearance now1 now2 name type st)).
Proof.
  intros H. unfold simulateDeviceAppearance.
  destruct (newDevice_fields now1 now2 name type (m_randomGenerator st))
    as (_ & _ & _ & _ & Hs & _).
  destruct (newDevice now1 now2 name type (m_randomGenerator st)) as [d g].
  unfold keys. cbn. rewrite fmap_app. cbn. unfold key at 2.
  apply pairing_first_snoc; [|exact H]. cbn in Hs. rewrite Hs. discriminate.
Qed.

Lemma appearances_pairing_first clock l k st :
  pairing_first (keys st) -> pairing_first (keys (appearances clock k l st)).
Proof.
  revert k st. induction l as [|[name type] rest IH]; intros k st H; [exact H|].
  cbn. apply IH. apply simulateDeviceAppearance_pairing_first. exact H.
Qed.

Lemma updateDeviceStates_pairing_first clock st :
  pairing_first (keys st) -> pairing_first (keys (updateDeviceStates clock st)).
Proof.
  intros H. unfold updateDeviceStates.
  destruct (negb (isInitialized st)); [exact H|].
  destruct (m_isDiscovering st); [|exact H].
  destruct (draw (m_randomGenerator st)) as [r g].
  destruct (_ <? 10); [|exact H].
  apply appearances_pairing_first. exact H.
Qed.

Lemma updateSignalStrengths_pairing_first st :
  pairing_first (keys st) -> pairing_first (keys (updateSignalStrengths st)).
Proof.
  intros H. unfold updateSignalStrengths.
  destruct (negb (isInitialized st)); [exact H|].
  pose proof (updateSignalStrengths_loop_keys (m_availableDevices st) (m_randomGenerator st)) as Hk.
  destruct (updateSignalStrengths_loop (m_availableDevices st) (m_randomGenerator st))
    as [[available sigs1] g1].
  destruct (updateSignalStrengths_loop (m_pairedDevices st) g1) as [[paired sigs2] g2].
  unfold keys. cbn. cbn in Hk. rewrite Hk. exact H.
Qed.

Lemma updateSignalStrength_pairing_first id strength st :
  pairing_first (keys st) -> pairing_first (keys (updateSignalStrength id strength st)).
Proof.
  intros H. unfold updateSignalStrength, updateSignalStrength_in.
  assert (Hav : keys
    match findDevice id (m_availableDevices st) with
    | Some (i, d) =>
        emit (signalStrengthChanged id strength)
          (set_m_availableDevices
             (<[i := set_signalStrength strength d]> (m_availableDevices st)) st)
    | None => st
    end = keys st).
  { destruct (findDevice id (m_availableDevices st)) as [[i d]|] eqn:E; [|reflexivity].
    unfold keys. cbn. rewrite list_fmap_insert.
    apply findDevice_Some in E as (Hi & _ & _).
    apply list_insert_id. rewrite list_lookup_fmap, Hi. reflexivity. }
  destruct (findDevice id (m_availableDevices st)) as [[i d]|];
    destruct (findDevice id (m_pairedDevices _)) as [[i' d']|];
    unfold keys in *; cbn in *; rewrite ?Hav; exact H.
Qed.

Lemma simulateDeviceDisappearance_pairing_first id st :
  pairing_first (keys st) -> pairing_first (keys (simulateDeviceDisappearance id st)).
Proof.
  intros H. unfold simulateDeviceDisappearance.
  destruct (findDevice id (m_availableDevices st)) as [[i d]|]; [|exact H].
  unfold keys. cbn. rewrite fmap_erase_at. apply pairing_first_erase. exact H.
Qed.

Lemma step_pairing_first (e : Event) (st : BluetoothSim) :
  pairing_first (keys st) -> pairing_first (keys (step e st)).
Proof.
  intros H. destruct e; cbn [step].
  - unfold initialize. destruct (m_simulateBluetoothOff st); exact H.
  - unfold startDiscovery. destruct (negb (isInitialized st)); exact H.
  - exact H.
  - apply pairDevice_pairing_first. exact H.
  - unfold unpairDevice, disconnectDevice.
    repeat case_match; exact H.
  - unfold connectDevice. repeat case_match; exact H.
  - unfold disconnectDevice. repeat case_match; exact H.
  - apply simulateDeviceAppearance_pairing_first. exact H.
  - apply simulateDeviceDisappearance_pairing_first. exact H.
  - apply updateSignalStrength_pairing_first. exact H.
  - unfold simulateBluetoothOff. destruct enable; exact H.
  - exact H.
  - exact H.
  - destruct (m_discoveryTimer st); [apply updateDeviceStates_pairing_first|]; exact H.
  - destruct (m_stateTimer st); [apply updateDeviceStates_pairing_first|]; exact H.
  - destruct (m_signalTimer st); [apply updateSignalStrengths_pairing_first|]; exact H.
  - unfold timeout. destruct (list_find _ _) as [[i t]|]; [|exact H].
    destruct (timer_kind t).
    + apply pairingCompleted_pairing_first. exact H.
    + unfold connectionCompleted. repeat case_match; exact H.
Qed.

Lemma run_pairing_first (events : list Event) (st : BluetoothSim) :
  pairing_first (keys st) -> pairing_first (keys (run events st)).
Proof.
  revert st. induction events as [|e events IH]; intros st H; [exact H|].
  cbn. apply IH. apply step_pairing_first. exact H.
Qed.

Lemma construct_pairing_first g file : pairing_first (keys (construct g file)).
Proof.
  unfold construct, loadPairedDevices. cbn.
  destruct file; apply pairing_first_nil.
Qed.

Lemma pairDevice_rejected (st : BluetoothSim) (id : string) (i : nat) (d : BluetoothDevice) :
  findDevice id (m_availableDevices st) = Some (i, d) ->
  connectionState d = PAIRING ->
  pairDevice id st = (false, st).
Proof.
  intros Hfind Hstate. unfold pairDevice.
  destruct (negb (isInitialized st)); [reflexivity|].
  rewrite Hfind. destruct (decide (connectionState d = PAIRING)); [reflexivity | contradiction].
Qed.

(** Two calls in a row: the first arms a timer, the second is rejected and
    leaves the object, with that timer and the map entry, as it was. *)
Lemma pairDevice_twice (st st1 : BluetoothSim) (id : string) :
  pairDevice id st = (true, st1) ->
  pairDevice id st1 = (false, st1)
  /\ heap_timers st1
     = heap_timers st
       ++ [Build_SingleShot (next_timer st) PairingTimer id (to_int32 (m_pairingTimeout st * 1000))]
  /\ m_pairingTimers st1 !! id = Some (next_timer st).
Proof.
  intros H. unfold pairDevice in H.
  destruct (negb (isInitialized st)) eqn:Hinit; [discriminate|].
  destruct (findDevice id (m_availableDevices st)) as [[i d]|] eqn:E; [|discriminate].
  destruct (decide (connectionState d = PAIRING)); [discriminate|].
  injection H as <-.
  apply findDevice_Some in E as (Hi & Hid & Hfirst).
  match goal with |- pairDevice id ?s = _ /\ _ => set (st1 := s) end.
  assert (Hav : m_availableDevices st1
                = <[i := set_connectionState PAIRING d]> (m_availableDevices st))
    by reflexivity.
  split; [|split; [reflexivity | apply lookup_insert_eq]].
  apply (pairDevice_rejected st1 id i (set_connectionState PAIRING d)); [|reflexivity].
  rewrite Hav. unfold findDevice. apply list_find_Some. split; [|split].
  - apply list_lookup_insert_eq. eapply lookup_lt_Some; eassumption.
  - exact Hid.
  - intros j y Hj Hlt. rewrite list_lookup_insert_ne in Hj by lia.
    eapply Hfirst; eassumption.
Qed.

(** C6. In every state the registry can reach from its construction, for
    every device of the available collection that is in state [PAIRING],
    [pairDevice] with its id returns false and leaves the whole object as it
    was: the armed single-shot timers and [m_pairingTimers] are untouched,
    so the pending timer is neither reset, cancelled nor replaced. *)
Theorem pairDevice_while_pairing (g : mt19937) (file : option QJsonValue)
  (events : list Event) (d : BluetoothDevice) :
  let st := run events (construct g file) in
  d ∈ m_availableDevices st ->
  connectionState d = PAIRING ->
  pairDevice (deviceId d) st = (false, st).
Proof.
  intros st Hin Hstate.
  pose proof (run_pairing_first events _ (construct_pairing_first g file)) as Hinv.
  fold st in Hinv. unfold keys in Hinv.
  apply list_elem_of_lookup in Hin as [i Hi].
  apply (pairDevice_rejected st (deviceId d) i d); [|exact Hstate].
  unfold findDevice. apply list_find_Some. split; [exact Hi | split; [reflexivity|]].
  intros j y Hj Hlt.
  apply (Hinv i j (deviceId d) (deviceId y) (connectionState y)); [ | | exact Hlt].
  - rewrite list_lookup_fmap, Hi. cbn. unfold key. rewrite Hstate. reflexivity.
  - rewrite list_lookup_fmap, Hj. reflexivity.
Qed.

Lemma pairDevice_while_pairing_witness :
  exists d, d ∈ m_availableDevices Examples.while_pairing
            /\ connectionState d = PAIRING
            /\ pairDevice (deviceId d) Examples.while_pairing
               = (false, Examples.while_pairing).
Proof.
  eexists. split; [vm_compute; apply list_elem_of_here|].
  split; [reflexivity|].
  apply (pairDevice_while_pairing Examples.rng None Examples.pairing_events).
  - vm_compute. apply list_elem_of_here.
  - reflexivity.
Defined.

(** ** C1: what the pairing callback does *)

Lemma with_id_nil_iff id l : with_id id l = [] <-> (forall d, d ∈ l -> deviceId d <> id).
Proof.
  unfold with_id. split.
  - intros H d Hd Hid.
    assert (d ∈ filter (λ d, deviceId d = id) l) as Hin by (apply list_elem_of_filter; auto).
    rewrite H in Hin. inversion Hin.
  - intros H. induction l as [|y rest IH]; [reflexivity|].
    rewrite filter_cons. destruct (decide (deviceId y = id)) as [Hy|_].
    + exfalso. apply (H y); [apply list_elem_of_here | exact Hy].
    + apply IH. intros d Hd. apply H. apply list_elem_of_further. exact Hd.
Qed.

(** The callback on a device that is found: the record with the paired
    flag, the state [PAIRED] and the time of the callback is appended to the
    paired collection, and the position it had is erased from the available
    collection. *)
Lemma pairingCompleted_moves (now : Clock) (id : string) (st : BluetoothSim)
  (i : nat) (d : BluetoothDevice) :
  findDevice id (m_availableDevices st) = Some (i, d) ->
  let moved := set_pairedTime (currentDateTime now)
                 (set_connectionState PAIRED (set_isPaired true d)) in
  let st' := pairingCompleted now id st in
  m_pairedDevices st' = m_pairedDevices st ++ [moved]
  /\ m_availableDevices st' = erase_at i (m_availableDevices st)
  /\ deviceId moved = id /\ isPaired moved = true /\ connectionState moved = PAIRED
  /\ m_pairingTimers st' = delete id (m_pairingTimers st).
Proof.
  intros Hfind moved st'.
  pose proof (pairingCompleted_available now id st) as Hav. rewrite Hfind in Hav.
  destruct (findDevice_elem _ _ _ _ Hfind) as [_ Hid].
  subst st'. split; [|split; [exact Hav|]].
  - unfold pairingCompleted. rewrite Hfind. reflexivity.
  - repeat split; try assumption.
    unfold pairingCompleted. rewrite Hfind. reflexivity.
Qed.

(** When the id is held by one device only, of the available collection,
    the callback leaves it once in the paired collection and not at all in
    the available one. *)
Lemma pairingCompleted_unique_id (now : Clock) (id : string) (st : BluetoothSim)
  (d : BluetoothDevice) :
  with_id id (m_availableDevices st) = [d] ->
  with_id id (m_pairedDevices st) = [] ->
  let st' := pairingCompleted now id st in
  with_id id (m_availableDevices st') = []
  /\ exists moved, with_id id (m_pairedDevices st') = [moved]
       /\ isPaired moved = true /\ connectionState moved = PAIRED
       /\ deviceName moved = deviceName d.
Proof.
  intros Hav Hpaired st'.
  destruct (findDevice id (m_availableDevices st)) as [[i d0]|] eqn:E.
  - destruct (pairingCompleted_moves now id st i d0 E) as (Hp & Ha & Hid & Hflag & Hstate & _).
    fold st' in Hp, Ha.
    apply findDevice_Some in E as (Hi & Hid0 & Hfirst).
    assert (Hsplit : m_availableDevices st
                     = take i (m_availableDevices st) ++ d0 :: drop (S i) (m_availableDevices st)).
    { symmetry. apply take_drop_middle. exact Hi. }
    assert (Hd0 : d0 = d /\ with_id id (erase_at i (m_availableDevices st)) = []).
    { unfold with_id in *. rewrite Hsplit in Hav. unfold erase_at.
      rewrite filter_app, filter_cons in Hav. rewrite filter_app.
      destruct (decide (deviceId d0 = id)); [|contradiction].
      assert (Htake : filter (λ d, deviceId d = id) (take i (m_availableDevices st)) = []).
      { apply with_id_nil_iff. intros y Hy.
        apply list_elem_of_lookup in Hy as [j Hj].
        pose proof (lookup_lt_Some _ _ _ Hj) as Hlen. rewrite length_take in Hlen.
        rewrite lookup_take_lt in Hj by lia. eapply Hfirst; [exact Hj | lia]. }
      rewrite Htake in *. cbn in Hav. inversion Hav as [[Hd Hrest]]. rewrite Hrest.
      split; reflexivity. }
    destruct Hd0 as [-> Hrest]. split; [rewrite Ha; exact Hrest|].
    eexists. rewrite Hp. unfold with_id in *. rewrite filter_app, Hpaired.
    rewrite app_nil_l, filter_cons, filter_nil.
    destruct (decide (deviceId _ = id)) as [_|Hne]; [|contradiction].
    repeat split; reflexivity.
  - pose proof (proj2 (with_id_nil_iff _ _) (proj1 (findDevice_None _ _) E)) as Hnone.
    congruence.
Qed.

(** Two devices that share an id, at the start of [main.cpp]. The phone and
    the headset appear within one millisecond and get the same id; the phone
    is paired and the timer fires. The id is then held by a device of the
    paired collection and by another device, of the available collection:
    [isDevicePaired] says the id is paired while [getDevice] answers the
    unpaired headset. A second pairing of the id pairs the headset. *)
Lemma pairing_callback_shared_id :
  let id := Examples.startup_id in
  let st := Examples.after_pairing in
  (exists d, d ∈ m_pairedDevices st /\ deviceId d = id
             /\ deviceName d = "iPhone 15 Pro"
             /\ isPaired d = true /\ connectionState d = PAIRED)
  /\ (exists d', d' ∈ m_availableDevices st /\ deviceId d' = id
                 /\ deviceName d' = "Sony WH-1000XM5" /\ isPaired d' = false)
  /\ isDevicePaired id st = true
  /\ isPaired (getDevice id st) = false
  /\ length (with_id id
       (m_pairedDevices
          (run [call_pairDevice id; timer_singleShot (Examples.clock_at 1714564825000) 1%nat] st)))
     = 2%nat.
Proof.
  cbv zeta. split; [|split; [|split; [|split]]].
  - eexists. split; [vm_compute; apply list_elem_of_here|]. repeat split.
  - eexists. split; [vm_compute; apply list_elem_of_here|]. repeat split.
  - vm_compute. reflexivity.
  - vm_compute. reflexivity.
  - vm_compute. reflexivity.
Qed.

End BluetoothSimProofs.

(** * Further properties of the wireless device registry *)

Module BluetoothSimMore.
Import Qt BluetoothSim.

(** ** Saving and loading the paired devices *)

Lemma device_members (d : BluetoothDevice) :
  let o := toObject (device_toJson d) in
  member "deviceId" o = JString (deviceId d)
  /\ member "deviceName" o = JString (deviceName d)
  /\ member "deviceAddress" o = JString (deviceAddress d)
  /\ member "deviceType" o = JInt (BluetoothDeviceType_to_int (deviceType d))
  /\ member "connectionState" o = JInt (ConnectionState_to_int (connectionState d))
  /\ member "isPaired" o = JBool (isPaired d)
  /\ member "isTrusted" o = JBool (isTrusted d)
  /\ member "signalStrength" o = JInt (signalStrength d)
  /\ member "lastSeen" o = JString (lastSeen d)
  /\ member "pairedTime" o = JString (toString_ISODate (pairedTime d))
  /\ member "supportedProfiles" o = JArray (map JString (supportedProfiles d))
  /\ member "manufacturer" o = JString (manufacturer d)
  /\ member "model" o = JString (model d)
  /\ member "firmwareVersion" o = JString (firmwareVersion d).
Proof.
  cbv zeta. unfold device_toJson, toObject.
  repeat split; read_member; reflexivity.
Qed.

Lemma toInt_in_range (z : Z) : in_int32 z -> toInt (JInt z) = z.
Proof.
  unfold in_int32, toInt. intros H.
  destruct (decide (- 2 ^ 31 <= z < 2 ^ 31)); [reflexivity | contradiction].
Qed.

Lemma BluetoothDeviceType_roundtrip (t : BluetoothDeviceType) :
  wf_BluetoothDeviceType t ->
  BluetoothDeviceType_of_int (toInt (JInt (BluetoothDeviceType_to_int t))) = t.
Proof.
  destruct t; cbn [wf_BluetoothDeviceType]; intros H; try reflexivity.
  destruct H as [Hout Hin]. cbn [BluetoothDeviceType_to_int].
  rewrite toInt_in_range by assumption.
  unfold BluetoothDeviceType_of_int.
  destruct ordinal as [|p|p]; try lia; try reflexivity.
  do 3 (destruct p as [p|p|]; try lia; try reflexivity).
Qed.

Lemma ConnectionState_roundtrip (s : ConnectionState) :
  wf_ConnectionState s ->
  ConnectionState_of_int (toInt (JInt (ConnectionState_to_int s))) = s.
Proof.
  destruct s; cbn [wf_ConnectionState]; intros H; try reflexivity.
  destruct H as [Hout Hin]. cbn [ConnectionState_to_int].
  rewrite toInt_in_range by assumption.
  unfold ConnectionState_of_int.
  destruct ordinal as [|p|p]; try lia; try reflexivity.
  do 3 (destruct p as [p|p|]; try lia; try reflexivity).
Qed.

Lemma toStringList_strings (l : list string) : toStringList (JArray (map JString l)) = l.
Proof.
  unfold toStringList. induction l as [|x l IH]; [reflexivity|].
  cbn [map]. rewrite IH. reflexivity.
Qed.

Lemma device_fromJson_toJson (d : BluetoothDevice) :
  wf_device d -> device_fromJson (device_toJson d) = persisted d.
Proof.
  intros (Ht & Hs & Hz & Hp).
  destruct (device_members d)
    as (M1 & M2 & M3 & M4 & M5 & M6 & M7 & M8 & M9 & M10 & M11 & M12 & M13 & M14).
  unfold device_fromJson. cbv zeta.
  rewrite M1, M2, M3, M4, M5, M6, M7, M8, M9, M10, M11, M12, M13, M14.
  rewrite BluetoothDeviceType_roundtrip, ConnectionState_roundtrip by assumption.
  rewrite toInt_in_range by assumption.
  rewrite toStringList_strings.
  cbn [toString toBool].
  rewrite QtProofs.fromString_toString_ISODate by assumption.
  destruct d; reflexivity.
Qed.

(** X1. Saving the paired devices and constructing the registry from the file
    gives the same devices in the same order, each with all its fields but
    the milliseconds of its pairing time. *)
Theorem paired_devices_roundtrip (g : mt19937) (st : BluetoothSim) :
  Forall wf_device (m_pairedDevices st) ->
  m_pairedDevices (construct g (config_file (savePairedDevices st)))
  = map persisted (m_pairedDevices st).
Proof.
  intros Hwf. unfold construct, loadPairedDevices, savePairedDevices.
  cbn [config_file set_config_file m_pairedDevices set_m_pairedDevices toArray app].
  induction Hwf as [|d l Hd _ IH]; [reflexivity|].
  cbn [map]. rewrite device_fromJson_toJson by assumption. f_equal. exact IH.
Qed.

(** Shows a concrete device well formed. *)
Ltac wf_concrete :=
  repeat match goal with
         | |- Forall _ _ => constructor
         | |- wf_device _ => unfold wf_device; cbn
         | |- _ /\ _ => split
         | |- True => exact I
         | |- in_int32 _ => unfold in_int32; split; vm_compute; congruence
         | |- wf_QDateTime _ => first [left; reflexivity | right; split; vm_compute; reflexivity]
         end.

Lemma paired_devices_roundtrip_witness :
  m_pairedDevices
    (construct Examples.rng (config_file (savePairedDevices Examples.after_pairing)))
  = map persisted (m_pairedDevices Examples.after_pairing)
  /\ map persisted (m_pairedDevices Examples.after_pairing)
     <> m_pairedDevices Examples.after_pairing.
Proof.
  split.
  - apply paired_devices_roundtrip.
    evaluate (m_pairedDevices Examples.after_pairing). wf_concrete.
  - vm_compute. discriminate.
Defined.

(** ** Requests that are turned down *)

(** X2. [pairDevice] returns false and changes nothing when the stack is not
    initialised (or switched off) or when no available device has the id. *)
Theorem pairDevice_rejects (st : BluetoothSim) (id : string) :
  isInitialized st = false \/ (forall d, d ∈ m_availableDevices st -> deviceId d <> id) ->
  pairDevice id st = (false, st).
Proof.
  intros [Hinit|Hnone]; unfold pairDevice.
  - rewrite Hinit. reflexivity.
  - destruct (negb (isInitialized st)); [reflexivity|].
    apply BluetoothSimProofs.findDevice_None in Hnone. rewrite Hnone. reflexivity.
Qed.

Lemma pairDevice_rejects_witness :
  pairDevice "BT_0" Examples.after_startup = (false, Examples.after_startup).
Proof.
  apply pairDevice_rejects. right. intros d Hd.
  vm_compute in Hd. apply list_elem_of_In in Hd. cbn in Hd.
  destruct Hd as [<-|[<-|[]]]; discriminate.
Defined.

(** X3. [connectDevice] returns false and changes nothing when the stack is not
    initialised, or when the first paired device with the id is already
    [CONNECTING]. *)
Theorem connectDevice_rejects (st : BluetoothSim) (id : string) :
  isInitialized st = false
  \/ (exists i d, findDevice id (m_pairedDevices st) = Some (i, d)
                  /\ connectionState d = CONNECTING) ->
  connectDevice id st = (false, st).
Proof.
  intros [Hinit|(i & d & Hfind & Hstate)]; unfold connectDevice.
  - rewrite Hinit. reflexivity.
  - destruct (negb (isInitialized st)); [reflexivity|].
    destruct (negb (isDevicePaired id st)); [reflexivity|].
    rewrite Hfind. destruct (decide (connectionState d = CONNECTING)); [reflexivity | contradiction].
Qed.

Lemma connectDevice_rejects_witness :
  connectDevice Examples.startup_id (construct Examples.rng None)
  = (false, construct Examples.rng None).
Proof. apply connectDevice_rejects. left. reflexivity. Defined.

(** ** Connecting, disconnecting, unpairing *)

Lemma findDevice_insert (id : string) (l : list BluetoothDevice) (i : nat)
  (d d' : BluetoothDevice) :
  findDevice id l = Some (i, d) -> deviceId d' = id ->
  findDevice id (<[i := d']> l) = Some (i, d').
Proof.
  intros H Hid. apply BluetoothSimProofs.findDevice_Some in H as (Hi & _ & Hfirst).
  unfold findDevice. apply list_find_Some. split; [|split].
  - apply list_lookup_insert_eq. eapply lookup_lt_Some; eassumption.
  - exact Hid.
  - intros j y Hj Hlt. rewrite list_lookup_insert_ne in Hj by lia.
    eapply Hfirst; eassumption.
Qed.

(** X4. For a paired device that is not connecting, on an initialised stack:
    [connectDevice] returns true, the device is [CONNECTING], one
    single-shot timer of [m_connectionTimeout * 1000] ms is armed and
    [connectionStateChanged] is emitted; when the timer's lambda runs the
    device is [CONNECTED], [deviceConnected] and [connectionStateChanged]
    are emitted and the map entry of the id is removed. *)
Theorem connectDevice_connects (st : BluetoothSim) (id : string) (i : nat)
  (d : BluetoothDevice) :
  isInitialized st = true ->
  findDevice id (m_pairedDevices st) = Some (i, d) ->
  isPaired d = true ->
  connectionState d <> CONNECTING ->
  exists st1,
    connectDevice id st = (true, st1)
    /\ getConnectionState id st1 = CONNECTING
    /\ emitted st1 = emitted st ++ [connectionStateChanged id CONNECTING]
    /\ heap_timers st1
       = heap_timers st
         ++ [Build_SingleShot (next_timer st) ConnectionTimer id
               (to_int32 (m_connectionTimeout st * 1000))]
    /\ m_connectionTimers st1 !! id = Some (next_timer st)
    /\ getConnectionState id (connectionCompleted id st1) = CONNECTED
    /\ emitted (connectionCompleted id st1)
       = emitted st1 ++ [deviceConnected id; connectionStateChanged id CONNECTED]
    /\ m_connectionTimers (connectionCompleted id st1) !! id = None.
Proof.
  intros Hinit Hfind Hpaired Hstate.
  destruct (BluetoothSimProofs.findDevice_elem _ _ _ _ Hfind) as [_ Hid].
  unfold connectDevice. rewrite Hinit. unfold isDevicePaired. rewrite Hfind, Hpaired.
  cbn [negb]. destruct (decide (connectionState d = CONNECTING)); [contradiction|].
  eexists. split; [reflexivity|].
  match goal with |- getConnectionState id ?s = _ /\ _ => set (st1 := s) end.
  assert (Hp1 : m_pairedDevices st1
                = <[i := set_connectionState CONNECTING d]> (m_pairedDevices st))
    by reflexivity.
  assert (Hf1 : findDevice id (m_pairedDevices st1)
                = Some (i, set_connectionState CONNECTING d)).
  { rewrite Hp1. eapply findDevice_insert; [exact Hfind | exact Hid]. }
  split; [unfold getConnectionState; rewrite Hf1; reflexivity|].
  split; [reflexivity|]. split; [reflexivity|].
  split; [apply lookup_insert_eq|].
  unfold connectionCompleted. rewrite Hf1.
  match goal with |- getConnectionState id ?s = _ /\ _ => set (st2 := s) end.
  assert (Hp2 : m_pairedDevices st2
                = <[i := set_connectionState CONNECTED (set_connectionState CONNECTING d)]>
                    (m_pairedDevices st1)) by reflexivity.
  split; [|split].
  - unfold getConnectionState. rewrite Hp2.
    rewrite (findDevice_insert id _ i _
               (set_connectionState CONNECTED (set_connectionState CONNECTING d)) Hf1 Hid).
    reflexivity.
  - subst st2. cbn [emitted set_m_connectionTimers emit set_emitted].
    rewrite <- app_assoc. reflexivity.
  - subst st2. cbn [m_connectionTimers set_m_connectionTimers]. apply lookup_delete_eq.
Qed.

(** X5. [disconnectDevice] returns false and changes nothing unless a paired
    device with the id is [CONNECTED]. *)
Theorem disconnectDevice_not_connected (st : BluetoothSim) (id : string) :
  (forall d, d ∈ m_pairedDevices st -> deviceId d = id -> connectionState d <> CONNECTED) ->
  disconnectDevice id st = (false, st).
Proof.
  intros H. unfold disconnectDevice.
  destruct (list_find _ (m_pairedDevices st)) as [[i d]|] eqn:E; [|reflexivity].
  apply list_find_Some in E as (Hi & [Hid Hc] & _).
  exfalso. apply (H d); [eapply list_elem_of_lookup_2; eassumption | assumption | assumption].
Qed.

Lemma disconnectDevice_first_connected (st : BluetoothSim) (id : string) (i : nat)
  (d : BluetoothDevice) :
  findDevice id (m_pairedDevices st) = Some (i, d) ->
  connectionState d = CONNECTED ->
  disconnectDevice id st
  = (true,
     emit (connectionStateChanged id DISCONNECTED)
       (emit (deviceDisconnected id)
          (set_m_pairedDevices
             (<[i := set_connectionState DISCONNECTED d]> (m_pairedDevices st)) st))).
Proof.
  intros Hfind Hstate.
  destruct (BluetoothSimProofs.findDevice_elem _ _ _ _ Hfind) as [_ Hid].
  pose proof (BluetoothSimProofs.findDevice_Some _ _ _ _ Hfind) as (Hi & _ & Hfirst).
  assert (Hlf : list_find (λ d, deviceId d = id ∧ connectionState d = CONNECTED)
                  (m_pairedDevices st) = Some (i, d)).
  { apply list_find_Some. split; [exact Hi | split; [split; assumption|]].
    intros j y Hj Hlt [Hy _]. eapply Hfirst; eassumption. }
  unfold disconnectDevice. rewrite Hlf. reflexivity.
Qed.

(** X6. When the first paired device with the id is [CONNECTED],
    [disconnectDevice] returns true, the device is [DISCONNECTED] at once and
    [deviceDisconnected] then [connectionStateChanged] are emitted. *)
Theorem disconnectDevice_connected (st : BluetoothSim) (id : string) (i : nat)
  (d : BluetoothDevice) :
  findDevice id (m_pairedDevices st) = Some (i, d) ->
  connectionState d = CONNECTED ->
  exists st',
    disconnectDevice id st = (true, st')
    /\ m_pairedDevices st' = <[i := set_connectionState DISCONNECTED d]> (m_pairedDevices st)
    /\ getConnectionState id st' = DISCONNECTED
    /\ emitted st' = emitted st ++ [deviceDisconnected id; connectionStateChanged id DISCONNECTED]
    /\ m_availableDevices st' = m_availableDevices st.
Proof.
  intros Hfind Hstate.
  destruct (BluetoothSimProofs.findDevice_elem _ _ _ _ Hfind) as [_ Hid].
  rewrite (disconnectDevice_first_connected st id i d Hfind Hstate).
  eexists. split; [reflexivity|]. split; [reflexivity|].
  split; [|split].
  - unfold getConnectionState.
    cbn [m_pairedDevices emit set_emitted set_m_pairedDevices].
    rewrite (findDevice_insert id _ i d (set_connectionState DISCONNECTED d) Hfind Hid).
    reflexivity.
  - cbn [emitted emit set_emitted set_m_pairedDevices]. rewrite <- app_assoc. reflexivity.
  - reflexivity.
Qed.

(** Applies a theorem about the first device of a concrete list. *)
Ltac with_first_of l tac :=
  let v := eval vm_compute in l in
  match v with ?d :: _ => tac d end.

Lemma connectDevice_connects_witness :
  exists st1,
    connectDevice Examples.startup_id Examples.after_pairing = (true, st1)
    /\ getConnectionState Examples.startup_id st1 = CONNECTING
    /\ getConnectionState Examples.startup_id
         (connectionCompleted Examples.startup_id st1) = CONNECTED.
Proof.
  with_first_of (m_pairedDevices Examples.after_pairing) ltac:(fun d =>
    destruct (connectDevice_connects Examples.after_pairing Examples.startup_id O d)
      as (st1 & H1 & H2 & _ & _ & _ & H3 & _)).
  - vm_compute. reflexivity.
  - vm_compute. reflexivity.
  - reflexivity.
  - discriminate.
  - exists st1. auto.
Defined.

Lemma disconnectDevice_not_connected_witness :
  disconnectDevice Examples.startup_id Examples.connecting = (false, Examples.connecting).
Proof.
  apply disconnectDevice_not_connected. intros d Hd _. elems Hd. discriminate.
Defined.

Lemma disconnectDevice_connected_witness :
  exists st',
    disconnectDevice Examples.startup_id Examples.connected = (true, st')
    /\ getConnectionState Examples.startup_id Examples.connected = CONNECTED
    /\ getConnectionState Examples.startup_id st' = DISCONNECTED.
Proof.
  with_first_of (m_pairedDevices Examples.connected) ltac:(fun d =>
    destruct (disconnectDevice_connected Examples.connected Examples.startup_id O d)
      as (st' & H1 & _ & H2 & _)).
  - vm_compute. reflexivity.
  - reflexivity.
  - exists st'. split; [exact H1 | split; [vm_compute; reflexivity | exact H2]].
Defined.

(** [unpairDevice] returns false and changes nothing when no paired device
    has the id. *)
Theorem unpairDevice_unknown (st : BluetoothSim) (id : string) :
  (forall d, d ∈ m_pairedDevices st -> deviceId d <> id) ->
  unpairDevice id st = (false, st).
Proof.
  intros H. unfold unpairDevice.
  apply BluetoothSimProofs.findDevice_None in H. rewrite H. reflexivity.
Qed.

Lemma unpairDevice_unknown_witness :
  unpairDevice "BT_0" Examples.connected = (false, Examples.connected).
Proof.
  apply unpairDevice_unknown. intros d Hd. elems Hd. discriminate.
Defined.

Lemma erase_at_insert {A} (i : nat) (x : A) (l : list A) :
  erase_at i (<[i := x]> l) = erase_at i l.
Proof.
  unfold erase_at. rewrite take_insert_ge by lia. rewrite drop_insert_lt by lia. reflexivity.
Qed.

(** X7. [unpairDevice] on an id some paired device has: the first such device
    is erased (the others keep their order), the file is rewritten with
    the remaining devices and [deviceUnpaired] is emitted, after the two
    disconnection signals when the device was connected. The available
    collection is untouched. When no other paired device has the id, the id
    is no longer paired afterwards. *)
Theorem unpairDevice_removes (st : BluetoothSim) (id : string) (i : nat)
  (d : BluetoothDevice) :
  findDevice id (m_pairedDevices st) = Some (i, d) ->
  exists st',
    unpairDevice id st = (true, st')
    /\ m_pairedDevices st' = erase_at i (m_pairedDevices st)
    /\ config_file st' = Some (JArray (map device_toJson (erase_at i (m_pairedDevices st))))
    /\ emitted st'
       = emitted st
         ++ (if decide (connectionState d = CONNECTED)
             then [deviceDisconnected id; connectionStateChanged id DISCONNECTED] else [])
         ++ [deviceUnpaired id]
    /\ m_availableDevices st' = m_availableDevices st
    /\ ((forall j y, m_pairedDevices st !! j = Some y -> j <> i -> deviceId y <> id) ->
        isDevicePaired id st' = false /\ getConnectionState id st' = DISCONNECTED).
Proof.
  intros Hfind. unfold unpairDevice. rewrite Hfind.
  eexists. split; [reflexivity|].
  assert (Hp : m_pairedDevices
                 (if decide (connectionState d = CONNECTED)
                  then (disconnectDevice id st).2 else st)
               = (if decide (connectionState d = CONNECTED)
                  then <[i := set_connectionState DISCONNECTED d]> (m_pairedDevices st)
                  else m_pairedDevices st)
               /\ emitted (if decide (connectionState d = CONNECTED)
                           then (disconnectDevice id st).2 else st)
                  = emitted st
                    ++ (if decide (connectionState d = CONNECTED)
                        then [deviceDisconnected id; connectionStateChanged id DISCONNECTED]
                        else [])
               /\ m_availableDevices (if decide (connectionState d = CONNECTED)
                                      then (disconnectDevice id st).2 else st)
                  = m_availableDevices st).
  { destruct (decide (connectionState d = CONNECTED)) as [Hc|Hc].
    - rewrite (disconnectDevice_first_connected st id i d Hfind Hc).
      cbn [snd m_pairedDevices emitted m_availableDevices emit set_emitted
             set_m_pairedDevices].
      rewrite <- app_assoc. auto.
    - rewrite app_nil_r. auto. }
  destruct Hp as (Hp & He & Ha).
  set (st1 := if decide (connectionState d = CONNECTED)
              then (disconnectDevice id st).2 else st) in *.
  assert (Herase : erase_at i (m_pairedDevices st1) = erase_at i (m_pairedDevices st)).
  { rewrite Hp. destruct (decide _); [apply erase_at_insert | reflexivity]. }
  cbn [m_pairedDevices savePairedDevices set_config_file emit set_emitted
         set_m_pairedDevices config_file emitted m_availableDevices].
  rewrite Herase, He, Ha.
  split; [reflexivity|]. split; [reflexivity|].
  split; [rewrite <- app_assoc; reflexivity|]. split; [reflexivity|].
  intros Hunique.
  assert (Hnone : findDevice id (erase_at i (m_pairedDevices st)) = None).
  { apply BluetoothSimProofs.findDevice_None. intros y Hy.
    apply list_elem_of_lookup in Hy as [j Hj].
    rewrite BluetoothSimProofs.lookup_erase_at in Hj.
    destruct (decide (j < i)%nat); eapply Hunique; try exact Hj; lia. }
  unfold isDevicePaired, getConnectionState.
  cbn [m_pairedDevices savePairedDevices set_config_file emit set_emitted
         set_m_pairedDevices].
  rewrite ?Herase, Hnone. split; reflexivity.
Qed.

Lemma unpairDevice_removes_witness :
  exists st',
    unpairDevice Examples.startup_id Examples.connected = (true, st')
    /\ m_pairedDevices st' = []
    /\ isDevicePaired Examples.startup_id st' = false.
Proof.
  with_first_of (m_pairedDevices Examples.connected) ltac:(fun d =>
    destruct (unpairDevice_removes Examples.connected Examples.startup_id O d)
      as (st' & H1 & H2 & _ & _ & _ & H3)).
  - vm_compute. reflexivity.
  - exists st'. split; [exact H1|]. split.
    + rewrite H2. vm_compute. reflexivity.
    + apply H3. intros j y Hj Hne.
      evaluate_in (m_pairedDevices Examples.connected) Hj.
      destruct j as [|j]; [contradiction | discriminate].
Defined.

(** ** Switching Bluetooth off and on again *)

(** X8. After the fault is enabled and disabled again the stack counts as
    initialised as before, but discovery does not resume: it stays stopped
    until [startDiscovery] is called. The state and signal timers run on. *)
Theorem bluetooth_off_then_on (st : BluetoothSim) :
  let st' := simulateBluetoothOff false (simulateBluetoothOff true st) in
  isInitialized st' = m_isInitialized st
  /\ isDiscovering st' = false
  /\ m_discoveryTimer st' = None
  /\ m_stateTimer st' = m_stateTimer st /\ m_signalTimer st' = m_signalTimer st
  /\ m_availableDevices st' = m_availableDevices st
  /\ m_pairedDevices st' = m_pairedDevices st
  /\ emitted st' = emitted st ++ [discoveryStopped].
Proof.
  cbv zeta. unfold isDiscovering, isInitialized. cbn.
  rewrite andb_true_r. repeat split.
Qed.

(** ** The signal strength walk *)

Lemma qBound_range (v : Z) : 0 <= qBound 0 v 100 <= 100.
Proof. unfold qBound. lia. Qed.

(** The sum in the unsigned type, converted back, is the signed sum. *)
Lemma walk_value (s r : Z) :
  0 <= s <= 100 -> exists k, 0 <= k <= 10 /\ walk s r = s + k - 5.
Proof.
  intros Hs. unfold walk, to_int32, to_result_type, result_bits.
  change (2 ^ 64) with 18446744073709551616.
  change (2 ^ 32) with 4294967296. change (2 ^ 31) with 2147483648.
  set (k := (r mod 18446744073709551616) mod 11).
  assert (Hk : 0 <= k < 11) by (apply Z.mod_pos_bound; lia).
  exists k. split; [lia|].
  rewrite (Z.mod_small s) by lia.
  destruct (Z_lt_le_dec k 5) as [Hlt|Hge].
  - assert (E1 : (k - 5) mod 18446744073709551616 = k - 5 + 18446744073709551616).
    { symmetry. apply (Z.mod_unique_pos _ _ (-1)); lia. }
    rewrite E1.
    destruct (Z_lt_le_dec (s + k - 5) 0) as [Hneg|Hpos].
    + rewrite (Z.mod_small (s + _)) by lia.
      assert (E2 : (s + (k - 5 + 18446744073709551616) + 2147483648) mod 4294967296
                   = s + k - 5 + 2147483648).
      { symmetry. apply (Z.mod_unique_pos _ _ 4294967296); lia. }
      rewrite E2. lia.
    + assert (E2 : (s + (k - 5 + 18446744073709551616)) mod 18446744073709551616
                   = s + k - 5).
      { symmetry. apply (Z.mod_unique_pos _ _ 1); lia. }
      rewrite E2. rewrite (Z.mod_small (_ + 2147483648)) by lia. lia.
  - rewrite (Z.mod_small (k - 5)) by lia.
    rewrite (Z.mod_small (s + _)) by lia.
    rewrite (Z.mod_small (_ + 2147483648)) by lia. lia.
Qed.

Lemma set_signalStrength_same (d : BluetoothDevice) :
  set_signalStrength (signalStrength d) d = d.
Proof. destruct d; reflexivity. Qed.

Lemma updateSignalStrengths_loop_in_range (l : list BluetoothDevice) (g : mt19937) :
  Forall (λ d, 0 <= signalStrength d <= 100) (updateSignalStrengths_loop l g).1.1.
Proof.
  revert g. induction l as [|d rest IH]; intros g; [constructor|].
  cbn [updateSignalStrengths_loop]. destruct (draw g) as [r g1].
  specialize (IH g1). destruct (updateSignalStrengths_loop rest g1) as [[rest' sigs] g2].
  cbn in IH. pose proof (qBound_range (walk (signalStrength d) r)) as Hq.
  destruct (decide _) as [E|Hne]; cbn; constructor;
    first [assumption | rewrite <- E; exact Hq | exact Hq].
Qed.

Lemma updateSignalStrengths_loop_walk (l : list BluetoothDevice) (g : mt19937) :
  Forall (λ d, 0 <= signalStrength d <= 100) l ->
  Forall2 strength_step l (updateSignalStrengths_loop l g).1.1
  /\ (updateSignalStrengths_loop l g).1.2
     = strength_changes l (updateSignalStrengths_loop l g).1.1.
Proof.
  intros Hl. revert g. induction Hl as [|d rest Hd _ IH]; intros g.
  - split; [constructor | reflexivity].
  - cbn [updateSignalStrengths_loop]. destruct (draw g) as [r g1].
    specialize (IH g1). destruct (updateSignalStrengths_loop rest g1) as [[rest' sigs] g2].
    cbn in IH. destruct IH as [IH1 IH2].
    pose proof (qBound_range (walk (signalStrength d) r)) as Hq.
    destruct (walk_value (signalStrength d) r Hd) as (k & Hk & Hw).
    assert (Hstep : - 5 <= qBound 0 (walk (signalStrength d) r) 100 - signalStrength d <= 5)
      by (unfold qBound; lia).
    destruct (decide _) as [E|Hne]; cbn.
    + split.
      * constructor; [|exact IH1].
        repeat split; try lia. symmetry. apply set_signalStrength_same.
      * destruct (decide (signalStrength d = signalStrength d)) as [_|Hn];
          [exact IH2 | congruence].
    + split.
      * constructor; [|exact IH1]. repeat split; cbn; try lia; reflexivity.
      * destruct (decide (_ = signalStrength d)) as [E'|_]; [contradiction|].
        cbn [app]. f_equal. exact IH2.
Qed.

(** X9. After a tick of the signal timer on an initialised stack every known
    device, available or paired, has a strength between 0 and 100, whatever
    it had before (also a value loaded from the file). *)
Theorem updateSignalStrengths_in_range (st : BluetoothSim) (d : BluetoothDevice) :
  isInitialized st = true ->
  d ∈ m_availableDevices (updateSignalStrengths st)
  \/ d ∈ m_pairedDevices (updateSignalStrengths st) ->
  0 <= signalStrength d <= 100.
Proof.
  intros Hinit. unfold updateSignalStrengths. rewrite Hinit. cbn [negb].
  pose proof (updateSignalStrengths_loop_in_range (m_availableDevices st)
                (m_randomGenerator st)) as Ha.
  destruct (updateSignalStrengths_loop (m_availableDevices st) (m_randomGenerator st))
    as [[available sigs1] g1].
  pose proof (updateSignalStrengths_loop_in_range (m_pairedDevices st) g1) as Hp.
  destruct (updateSignalStrengths_loop (m_pairedDevices st) g1) as [[paired sigs2] g2].
  cbn in Ha, Hp. cbn. rewrite Forall_forall in Ha, Hp.
  intros [H|H]; auto.
Qed.

(** X10. A tick on strengths that are between 0 and 100: every device stays the
    same device at the same place, its strength moves by at most 5 and
    stays between 0 and 100, and [signalStrengthChanged] is emitted exactly
    for the devices whose strength changed, available ones first. *)
Theorem updateSignalStrengths_walk (st : BluetoothSim) :
  isInitialized st = true ->
  Forall (λ d, 0 <= signalStrength d <= 100) (m_availableDevices st) ->
  Forall (λ d, 0 <= signalStrength d <= 100) (m_pairedDevices st) ->
  let st' := updateSignalStrengths st in
  Forall2 strength_step (m_availableDevices st) (m_availableDevices st')
  /\ Forall2 strength_step (m_pairedDevices st) (m_pairedDevices st')
  /\ emitted st'
     = emitted st
       ++ strength_changes (m_availableDevices st) (m_availableDevices st')
       ++ strength_changes (m_pairedDevices st) (m_pairedDevices st').
Proof.
  intros Hinit Hav Hpa. cbv zeta. unfold updateSignalStrengths. rewrite Hinit. cbn [negb].
  pose proof (updateSignalStrengths_loop_walk (m_availableDevices st)
                (m_randomGenerator st) Hav) as [Ha1 Ha2].
  destruct (updateSignalStrengths_loop (m_availableDevices st) (m_randomGenerator st))
    as [[available sigs1] g1].
  pose proof (updateSignalStrengths_loop_walk (m_pairedDevices st) g1 Hpa) as [Hp1 Hp2].
  destruct (updateSignalStrengths_loop (m_pairedDevices st) g1) as [[paired sigs2] g2].
  cbn in Ha1, Ha2, Hp1, Hp2. cbn. subst sigs1 sigs2. auto.
Qed.

Lemma updateSignalStrengths_in_range_witness :
  Forall (λ d, 0 <= signalStrength d <= 100)
    (m_availableDevices (updateSignalStrengths Examples.after_startup)).
Proof.
  apply Forall_forall. intros d Hd.
  apply (updateSignalStrengths_in_range Examples.after_startup d).
  - vm_compute. reflexivity.
  - left. exact Hd.
Defined.

Lemma updateSignalStrengths_walk_witness :
  Forall2 strength_step (m_availableDevices Examples.after_startup)
    (m_availableDevices (updateSignalStrengths Examples.after_startup)).
Proof.
  apply updateSignalStrengths_walk.
  - vm_compute. reflexivity.
  - evaluate (m_availableDevices Examples.after_startup).
    repeat constructor; cbn; lia.
  - evaluate (m_pairedDevices Examples.after_startup). constructor.
Defined.

(** ** Pairing from request to completion *)

Lemma with_id_single_find (id : string) (l : list BluetoothDevice) (d : BluetoothDevice) :
  with_id id l = [d] ->
  exists i, findDevice id l = Some (i, d)
            /\ with_id id (take i l) = [] /\ with_id id (drop (S i) l) = [].
Proof.
  intros H.
  assert (Hd : d ∈ with_id id l) by (rewrite H; apply list_elem_of_here).
  unfold with_id in Hd. apply list_elem_of_filter in Hd as [Hid Hin].
  destruct (list_find_elem_of (λ d, deviceId d = id) l d Hin Hid) as [[i x] Hfind].
  exists i. pose proof Hfind as Hf. apply list_find_Some in Hf as (Hi & Hx & Hfirst).
  assert (Hsplit : l = take i l ++ x :: drop (S i) l)
    by (symmetry; apply take_drop_middle; exact Hi).
  assert (Htake : with_id id (take i l) = []).
  { apply BluetoothSimProofs.with_id_nil_iff. intros y Hy.
    apply list_elem_of_lookup in Hy as [j Hj].
    pose proof (lookup_lt_Some _ _ _ Hj) as Hlen. rewrite length_take in Hlen.
    rewrite lookup_take_lt in Hj by lia. eapply Hfirst; [exact Hj | lia]. }
  unfold with_id in *. rewrite Hsplit, filter_app, filter_cons, Htake in H.
  destruct (decide (deviceId x = id)); [|contradiction].
  cbn [app] in H. injection H as -> Hrest. unfold findDevice. auto.
Qed.

Lemma with_id_insert (id : string) (l : list BluetoothDevice) (i : nat)
  (d d' : BluetoothDevice) :
  l !! i = Some d -> deviceId d' = id ->
  with_id id (take i l) = [] -> with_id id (drop (S i) l) = [] ->
  with_id id (<[i := d']> l) = [d'].
Proof.
  intros Hi Hid Htake Hdrop. unfold with_id in *.
  rewrite insert_take_drop by (eapply lookup_lt_Some; eassumption).
  rewrite filter_app, filter_cons, Htake, Hdrop.
  destruct (decide (deviceId d' = id)); [reflexivity | contradiction].
Qed.



(** ** What the available collection holds *)

Lemma Forall_erase_at {A} (P : A -> Prop) (i : nat) (l : list A) :
  Forall P l -> Forall P (erase_at i l).
Proof.
  intros H. unfold erase_at. apply Forall_app. split.
  - apply Forall_take. exact H.
  - apply Forall_drop. exact H.
Qed.

Lemma updateSignalStrength_available id strength st :
  m_availableDevices (updateSignalStrength id strength st)
  = match findDevice id (m_availableDevices st) with
    | Some (i, d) => <[i := set_signalStrength strength d]> (m_availableDevices st)
    | None => m_availableDevices st
    end.
Proof.
  unfold updateSignalStrength, updateSignalStrength_in.
  destruct (findDevice id (m_availableDevices st)) as [[i d]|];
    match goal with |- context [findDevice id (m_pairedDevices ?s)] =>
      destruct (findDevice id (m_pairedDevices s)) as [[i' d']|] end; reflexivity.
Qed.

(** A property of devices that discovery establishes and that neither the
    start of a pairing nor a change of strength destroys holds of every
    available device in every reachable state. *)
Section AvailableInvariant.

Variable P : BluetoothDevice -> Prop.
Hypothesis P_new : forall now1 now2 name type g, P (newDevice now1 now2 name type g).1.
Hypothesis P_pairing : forall d, P d -> P (set_connectionState PAIRING d).
Hypothesis P_strength : forall d z, P d -> P (set_signalStrength z d).

Lemma updateSignalStrengths_loop_keeps (l : list BluetoothDevice) (g : mt19937) :
  Forall P l -> Forall P (updateSignalStrengths_loop l g).1.1.
Proof using P_strength.
  intros H. revert g. induction H as [|d rest Hd _ IH]; intros g; [constructor|].
  cbn [updateSignalStrengths_loop]. destruct (draw g) as [r g1].
  specialize (IH g1). destruct (updateSignalStrengths_loop rest g1) as [[rest' sigs] g2].
  cbn in IH. destruct (decide _); cbn; constructor; auto.
Qed.

Lemma simulateDeviceAppearance_keeps now1 now2 name type st :
  Forall P (m_availableDevices st) ->
  Forall P (m_availableDevices (simulateDeviceAppearance now1 now2 name type st)).
Proof using P_new.
  intros H. unfold simulateDeviceAppearance.
  pose proof (P_new now1 now2 name type (m_randomGenerator st)) as Hn.
  destruct (newDevice now1 now2 name type (m_randomGenerator st)) as [d g].
  cbn in Hn. cbn. apply Forall_app. split; [exact H|]. constructor; [exact Hn | constructor].
Qed.

Lemma appearances_keeps clock l k st :
  Forall P (m_availableDevices st) ->
  Forall P (m_availableDevices (appearances clock k l st)).
Proof using P_new.
  revert k st. induction l as [|[name type] rest IH]; intros k st H; [exact H|].
  cbn [appearances]. apply IH. apply simulateDeviceAppearance_keeps. exact H.
Qed.

Lemma updateDeviceStates_keeps clock st :
  Forall P (m_availableDevices st) ->
  Forall P (m_availableDevices (updateDeviceStates clock st)).
Proof using P_new.
  intros H. unfold updateDeviceStates.
  destruct (negb (isInitialized st)); [exact H|].
  destruct (m_isDiscovering st); [|exact H].
  destruct (draw (m_randomGenerator st)) as [r g].
  destruct (_ <? 10); [|exact H]. apply appearances_keeps. exact H.
Qed.

Lemma step_keeps (e : Event) (st : BluetoothSim) :
  Forall P (m_availableDevices st) -> Forall P (m_availableDevices (step e st)).
Proof using P_new P_pairing P_strength.
  intros H. destruct e; cbn [step].
  - unfold initialize. destruct (m_simulateBluetoothOff st); exact H.
  - unfold startDiscovery. destruct (negb (isInitialized st)); exact H.
  - exact H.
  - unfold pairDevice. destruct (negb (isInitialized st)); [exact H|].
    destruct (findDevice id (m_availableDevices st)) as [[i d]|] eqn:E; [|exact H].
    destruct (decide (connectionState d = PAIRING)); [exact H|].
    cbn. apply Forall_insert; [exact H|].
    apply BluetoothSimProofs.findDevice_elem in E as [Hin _].
    rewrite Forall_forall in H. apply P_pairing, H, Hin.
  - unfold unpairDevice, disconnectDevice. repeat case_match; exact H.
  - unfold connectDevice. repeat case_match; exact H.
  - unfold disconnectDevice. repeat case_match; exact H.
  - apply simulateDeviceAppearance_keeps. exact H.
  - unfold simulateDeviceDisappearance.
    destruct (findDevice id (m_availableDevices st)) as [[i d]|]; [|exact H].
    cbn. apply Forall_erase_at. exact H.
  - rewrite updateSignalStrength_available.
    destruct (findDevice id (m_availableDevices st)) as [[i d]|] eqn:E; [|exact H].
    apply Forall_insert; [exact H|].
    apply BluetoothSimProofs.findDevice_elem in E as [Hin _].
    rewrite Forall_forall in H. apply P_strength, H, Hin.
  - unfold simulateBluetoothOff. destruct enable; exact H.
  - exact H.
  - exact H.
  - destruct (m_discoveryTimer st); [apply updateDeviceStates_keeps|]; exact H.
  - destruct (m_stateTimer st); [apply updateDeviceStates_keeps|]; exact H.
  - destruct (m_signalTimer st); [|exact H]. unfold updateSignalStrengths.
    destruct (negb (isInitialized st)); [exact H|].
    pose proof (updateSignalStrengths_loop_keeps (m_availableDevices st)
                  (m_randomGenerator st) H) as Hl.
    destruct (updateSignalStrengths_loop (m_availableDevices st) (m_randomGenerator st))
      as [[available sigs1] g1].
    destruct (updateSignalStrengths_loop (m_pairedDevices st) g1) as [[paired sigs2] g2].
    exact Hl.
  - unfold timeout. destruct (list_find _ _) as [[i t]|]; [|exact H].
    destruct (timer_kind t).
    + rewrite BluetoothSimProofs.pairingCompleted_available.
      cbn [m_availableDevices set_heap_timers].
      destruct (findDevice _ _) as [[j d]|]; [apply Forall_erase_at|]; exact H.
    + unfold connectionCompleted. repeat case_match; exact H.
Qed.

Lemma reachable_available (g : mt19937) (file : option QJsonValue) (events : list Event) :
  Forall P (m_availableDevices (run events (construct g file))).
Proof using P_new P_pairing P_strength.
  assert (H0 : Forall P (m_availableDevices (construct g file))).
  { unfold construct, loadPairedDevices. destruct file; constructor. }
  revert H0. generalize (construct g file).
  induction events as [|e events IH]; intros st H; [exact H|].
  cbn. apply IH. apply step_keeps. exact H.
Qed.

End AvailableInvariant.

Lemma newDevice_record (now1 now2 : Clock) (name : string) (type : BluetoothDeviceType)
  (g : mt19937) :
  exists address strength,
    (newDevice now1 now2 name type g).1
    = {| deviceId := "BT_" +:+ number (currentMSecsSinceEpoch now1);
         deviceName := name;
         deviceAddress := address;
         deviceType := type;
         connectionState := DISCONNECTED;
         isPaired := false;
         isTrusted := false;
         signalStrength := strength;
         lastSeen := toString_ymd_hms (currentDateTime now2);
         pairedTime := null_QDateTime;
         supportedProfiles := generateSupportedProfiles type;
         manufacturer := "Generic Manufacturer";
         model := "Generic Model";
         firmwareVersion := "1.0.0" |}
    /\ address = (generateDeviceAddress g).1
    /\ 75 <= strength <= 99.
Proof.
  unfold newDevice. destruct (generateDeviceAddress g) as [address g1].
  destruct (draw g1) as [r g2]. eexists _, _. split; [reflexivity|].
  split; [reflexivity|]. apply BluetoothSimProofs.phone_strength_range.
Qed.

(** X12. In every state the registry can reach from its construction, every
    device of the available collection is unpaired: its paired flag is
    false, its state is [DISCONNECTED] or [PAIRING] and it has no pairing
    time. Paired, connecting and connected devices are in the paired
    collection only. *)
Theorem available_devices_unpaired (g : mt19937) (file : option QJsonValue)
  (events : list Event) :
  Forall unpaired_device (m_availableDevices (run events (construct g file))).
Proof.
  apply reachable_available.
  - intros now1 now2 name type g0.
    destruct (newDevice_record now1 now2 name type g0) as (a & s & -> & _).
    repeat split; auto.
  - intros d (Hp & _ & Ht). repeat split; auto.
  - intros d z H. exact H.
Qed.

(** ** The address of a discovered device *)

Lemma hex_digit_upper_hex (v : Z) : 0 <= v < 16 -> is_hex_upper (hex_digit_upper v) = true.
Proof.
  intros H.
  assert (Hall : forallb (λ v, is_hex_upper (hex_digit_upper v)) (Zrange 0 16) = true)
    by (vm_compute; reflexivity).
  rewrite forallb_forall in Hall. apply Hall, QtProofs.Zrange_elem. lia.
Qed.

Lemma hex2_upper_hex (v : Z) :
  0 <= v < 256 ->
  is_hex_upper (hex_digit_upper (v / 16)) = true
  /\ is_hex_upper (hex_digit_upper (v mod 16)) = true.
Proof.
  intros H. split; apply hex_digit_upper_hex.
  - split; [apply Z.div_pos; lia | apply Z.div_lt_upper_bound; lia].
  - apply Z.mod_pos_bound. lia.
Qed.

Lemma byte_range (r : Z) : 0 <= to_result_type r mod 256 < 256.
Proof. apply Z.mod_pos_bound. lia. Qed.

Lemma generateDeviceAddress_hex (g : mt19937) :
  is_device_address (generateDeviceAddress g).1 = true.
Proof.
  unfold generateDeviceAddress. cbn [generateDeviceAddress_from].
  unfold draw. cbn [outputs drawn fst snd].
  set (b0 := to_result_type _ mod 256). set (b1 := to_result_type _ mod 256).
  set (b2 := to_result_type _ mod 256). set (b3 := to_result_type _ mod 256).
  set (b4 := to_result_type _ mod 256). set (b5 := to_result_type _ mod 256).
  unfold hex2_upper. cbv [String.append].
  unfold is_device_address. cbn [list_ascii_of_string forallb].
  destruct (hex2_upper_hex b0 (byte_range _)) as [-> ->].
  destruct (hex2_upper_hex b1 (byte_range _)) as [-> ->].
  destruct (hex2_upper_hex b2 (byte_range _)) as [-> ->].
  destruct (hex2_upper_hex b3 (byte_range _)) as [-> ->].
  destruct (hex2_upper_hex b4 (byte_range _)) as [-> ->].
  destruct (hex2_upper_hex b5 (byte_range _)) as [-> ->].
  reflexivity.
Qed.

(** X13. [generateDeviceAddress] always returns six pairs of upper-case
    hexadecimal digits separated by colons (17 characters) and draws six
    numbers from the generator. *)
Theorem generateDeviceAddress_shape (g : mt19937) :
  is_device_address (generateDeviceAddress g).1 = true
  /\ String.length (generateDeviceAddress g).1 = 17%nat
  /\ drawn (generateDeviceAddress g).2 = (drawn g + 6)%nat.
Proof.
  split; [apply generateDeviceAddress_hex|].
  unfold generateDeviceAddress. cbn [generateDeviceAddress_from].
  unfold draw. cbn [outputs drawn fst snd].
  unfold hex2_upper. cbv [String.append].
  split; [reflexivity | cbn; lia].
Qed.

(** X14. In every reachable state every device of the available collection
    still has what discovery gave it: an id that starts with "BT_", an
    address of six hexadecimal pairs, the profile list of its type, no
    trust, and the generic manufacturer, model and firmware strings. *)
Theorem available_devices_discovered (g : mt19937) (file : option QJsonValue)
  (events : list Event) :
  Forall discovered_device (m_availableDevices (run events (construct g file))).
Proof.
  apply reachable_available.
  - intros now1 now2 name type g0.
    destruct (newDevice_record now1 now2 name type g0) as (a & s & -> & -> & _).
    pose proof (generateDeviceAddress_hex g0) as Ha.
    unfold discovered_device.
    cbn [deviceId deviceAddress supportedProfiles deviceType isTrusted manufacturer
           model firmwareVersion].
    split; [cbv [String.append]; cbn; destruct (number _); reflexivity|].
    split; [exact Ha|]. repeat split.
  - intros d H. exact H.
  - intros d z H. exact H.
Qed.

(** ** A batch of mock devices *)

Lemma appearances_one_id clock ms l : forall k st,
  (forall j, currentMSecsSinceEpoch (clock j) = ms) ->
  exists new,
    m_availableDevices (appearances clock k l st) = m_availableDevices st ++ new
    /\ map deviceName new = map fst l
    /\ map deviceType new = map snd l
    /\ Forall (λ d, deviceId d = "BT_" +:+ number ms) new.
Proof.
  induction l as [|[name type] rest IH]; intros k st Hms.
  - exists []. rewrite app_nil_r. repeat split; constructor.
  - cbn [appearances].
    destruct (IH (S (S k)) (simulateDeviceAppearance (clock k) (clock (S k)) name type st) Hms)
      as (new & Hav & Hn & Ht & Hid).
    destruct (newDevice_record (clock k) (clock (S k)) name type (m_randomGenerator st))
      as (a & s & Hrec & _).
    assert (Hav1 : m_availableDevices
                     (simulateDeviceAppearance (clock k) (clock (S k)) name type st)
                   = m_availableDevices st
                     ++ [(newDevice (clock k) (clock (S k)) name type (m_randomGenerator st)).1]).
    { unfold simulateDeviceAppearance. destruct (newDevice _ _ _ _ _). reflexivity. }
    exists ((newDevice (clock k) (clock (S k)) name type (m_randomGenerator st)).1 :: new).
    rewrite Hav, Hav1, <- app_assoc. split; [reflexivity|].
    rewrite Hrec. cbn [map deviceName deviceType fst snd]. rewrite Hn, Ht.
    repeat split. constructor; [|exact Hid].
    cbn [deviceId]. rewrite Hms. reflexivity.
Qed.

(** X15. [generateMockDevices] appends seven devices with the names and types
    of its list, in order; when the millisecond clock does not advance
    during the call, all seven get the same id. *)
Theorem generateMockDevices_one_id (clock : nat -> Clock) (ms : Z) (st : BluetoothSim) :
  (forall j, currentMSecsSinceEpoch (clock j) = ms) ->
  exists new,
    m_availableDevices (generateMockDevices clock st) = m_availableDevices st ++ new
    /\ map deviceName new
       = ["iPhone 15 Pro"; "Samsung Galaxy S24"; "Sony WH-1000XM5"; "Bose QuietComfort 45";
          "JBL Flip 6"; "VW Passat Audio"; "Apple Watch Series 9"]
    /\ map deviceType new
       = [PHONE; PHONE; HEADSET; HEADSET; SPEAKER; CAR_AUDIO; SMARTWATCH]
    /\ Forall (λ d, deviceId d = "BT_" +:+ number ms) new.
Proof.
  intros Hms. unfold generateMockDevices.
  destruct (appearances_one_id clock ms mockDevices O st Hms) as (new & H1 & H2 & H3 & H4).
  exists new. auto.
Qed.

Lemma generateMockDevices_one_id_witness :
  exists new,
    m_availableDevices
      (generateMockDevices (λ _, Examples.clock_at 1714564802000) Examples.discovering)
    = new
    /\ length new = 7%nat
    /\ Forall (λ d, deviceId d = "BT_1714564802000") new.
Proof.
  destruct (generateMockDevices_one_id (λ _, Examples.clock_at 1714564802000)
              1714564802000 Examples.discovering)
    as (new & H1 & H2 & _ & H4); [reflexivity|].
  exists new. split; [exact H1|].
  split; [rewrite <- (length_map deviceName), H2; reflexivity | exact H4].
Defined.

(** ** A device that disappears while it is being paired *)

(** X16. When the only available device with the id disappears after
    [pairDevice] accepted it, the pairing timer is not cancelled, and when
    its lambda runs nothing is paired and nothing is emitted: no
    [devicePaired], no [pairingError]. All that was emitted since the request
    is the change to [PAIRING] and [deviceRemoved]. *)
Theorem pairing_of_vanished_device (now : Clock) (st : BluetoothSim) (id : string)
  (d : BluetoothDevice) :
  isInitialized st = true ->
  with_id id (m_availableDevices st) = [d] ->
  connectionState d <> PAIRING ->
  exists st1,
    pairDevice id st = (true, st1)
    /\ let st2 := simulateDeviceDisappearance id st1 in
       let st3 := pairingCompleted now id st2 in
       heap_timers st2 = heap_timers st1
       /\ with_id id (m_availableDevices st3) = []
       /\ m_pairedDevices st3 = m_pairedDevices st
       /\ config_file st3 = config_file st
       /\ emitted st3 = emitted st ++ [connectionStateChanged id PAIRING; deviceRemoved id].
Proof.
  intros Hinit Hav Hstate.
  destruct (with_id_single_find id _ d Hav) as (i & Hfind & Htake & Hdrop).
  pose proof (BluetoothSimProofs.findDevice_Some _ _ _ _ Hfind) as (Hi & Hid & _).
  unfold pairDevice. rewrite Hinit, Hfind. cbn [negb].
  destruct (decide (connectionState d = PAIRING)); [contradiction|].
  eexists. split; [reflexivity|].
  match goal with |- context [simulateDeviceDisappearance id ?s] => set (st1 := s) end.
  assert (Hav1 : m_availableDevices st1
                 = <[i := set_connectionState PAIRING d]> (m_availableDevices st))
    by reflexivity.
  assert (Hf1 : findDevice id (m_availableDevices st1)
                = Some (i, set_connectionState PAIRING d)).
  { rewrite Hav1. eapply findDevice_insert; [exact Hfind | exact Hid]. }
  cbv zeta. unfold simulateDeviceDisappearance. rewrite Hf1.
  match goal with |- context [pairingCompleted now id ?s] => set (st2 := s) end.
  assert (Hav2 : m_availableDevices st2 = erase_at i (m_availableDevices st)).
  { subst st2. cbn [m_availableDevices set_m_availableDevices].
    rewrite Hav1. apply erase_at_insert. }
  assert (Hw2 : with_id id (m_availableDevices st2) = []).
  { rewrite Hav2. unfold erase_at, with_id in *. rewrite filter_app, Htake, Hdrop. reflexivity. }
  assert (Hf2 : findDevice id (m_availableDevices st2) = None).
  { apply BluetoothSimProofs.findDevice_None.
    apply BluetoothSimProofs.with_id_nil_iff. exact Hw2. }
  unfold pairingCompleted. rewrite Hf2.
  cbn [m_availableDevices m_pairedDevices config_file emitted set_m_pairingTimers heap_timers].
  split; [reflexivity|]. split; [exact Hw2|]. split; [reflexivity|]. split; [reflexivity|].
  subst st2 st1.
  cbn [emitted emit set_emitted set_m_availableDevices simulatePairingProcess
         set_m_pairingTimers set_next_timer set_heap_timers].
  rewrite <- app_assoc. reflexivity.
Qed.

Lemma pairing_of_vanished_device_witness :
  exists st1,
    pairDevice Examples.startup_id Examples.apart = (true, st1)
    /\ m_pairedDevices
         (pairingCompleted (Examples.clock_at 1714564810123) Examples.startup_id
            (simulateDeviceDisappearance Examples.startup_id st1)) = [].
Proof.
  with_first_of (m_availableDevices Examples.apart) ltac:(fun d =>
    destruct (pairing_of_vanished_device (Examples.clock_at 1714564810123)
                Examples.apart Examples.startup_id d)
      as (st1 & H1 & _ & _ & H2 & _)).
  - vm_compute. reflexivity.
  - vm_compute. reflexivity.
  - discriminate.
  - exists st1. split; [exact H1|]. rewrite H2. vm_compute. reflexivity.
Defined.

End BluetoothSimMore.

(** * The pairing callback and the two collections *)

Module BluetoothSimPairing.
Import Qt BluetoothSim.

(** ** What is kept in every reachable state *)

Lemma reachable_unpaired (g : mt19937) (file : option QJsonValue) (events : list Event) :
  Forall unpaired_device (m_availableDevices (run events (construct g file))).
Proof.
  apply BluetoothSimMore.reachable_available.
  - intros now1 now2 name type g0.
    destruct (BluetoothSimMore.newDevice_record now1 now2 name type g0) as (a & s & -> & _).
    repeat split; auto.
  - intros d (Hp & _ & Ht). repeat split; auto.
  - intros d z H. exact H.
Qed.

Lemma construct_saved_devices (g : mt19937) (file : option QJsonValue) :
  m_pairedDevices (construct g file) = saved_devices file
  /\ config_file (construct g file) = file.
Proof. unfold construct, loadPairedDevices. destruct file; split; reflexivity. Qed.

Lemma isPaired_fromJson_toJson (d : BluetoothDevice) :
  isPaired (device_fromJson (device_toJson d)) = isPaired d.
Proof.
  destruct (BluetoothSimMore.device_members d) as (_ & _ & _ & _ & _ & M6 & _).
  unfold device_fromJson. cbv zeta. cbn [isPaired]. rewrite M6. reflexivity.
Qed.

Lemma saved_devices_flags (l : list BluetoothDevice) :
  paired_flags l -> paired_flags (saved_devices (Some (JArray (map device_toJson l)))).
Proof.
  unfold paired_flags, saved_devices. cbn [toArray]. intros H.
  induction H as [|d l Hd _ IH]; [constructor|].
  cbn [map]. constructor; [rewrite isPaired_fromJson_toJson; exact Hd | exact IH].
Qed.

Lemma flags_insert (l : list BluetoothDevice) (i : nat) (d d' : BluetoothDevice) :
  paired_flags l -> l !! i = Some d -> isPaired d' = isPaired d ->
  paired_flags (<[i := d']> l).
Proof.
  unfold paired_flags. intros H Hi Heq. apply Forall_insert; [exact H|].
  rewrite Heq. rewrite Forall_forall in H. apply H.
  eapply list_elem_of_lookup_2; eassumption.
Qed.

Lemma flags_insert_found (id : string) (l : list BluetoothDevice) (i : nat)
  (d d' : BluetoothDevice) :
  paired_flags l -> findDevice id l = Some (i, d) -> isPaired d' = isPaired d ->
  paired_flags (<[i := d']> l).
Proof.
  intros H Hf Heq. apply BluetoothSimProofs.findDevice_Some in Hf as (Hi & _).
  eapply flags_insert; eassumption.
Qed.

Lemma disconnectDevice_flagged (id : string) (st : BluetoothSim) :
  flagged st -> flagged (disconnectDevice id st).2.
Proof.
  intros [Hp Hf]. unfold disconnectDevice.
  destruct (list_find _ _) as [[i d]|] eqn:E; [|split; assumption].
  apply list_find_Some in E as (Hi & _).
  split; [|exact Hf]. cbn. eapply flags_insert; [exact Hp | exact Hi | reflexivity].
Qed.

Lemma appearances_paired clock l : forall k st,
  m_pairedDevices (appearances clock k l st) = m_pairedDevices st
  /\ config_file (appearances clock k l st) = config_file st.
Proof.
  induction l as [|[name type] rest IH]; intros k st; [split; reflexivity|].
  cbn [appearances]. destruct (IH (S (S k)) (simulateDeviceAppearance (clock k) (clock (S k)) name type st))
    as [H1 H2].
  rewrite H1, H2. unfold simulateDeviceAppearance.
  destruct (newDevice _ _ _ _ _). split; reflexivity.
Qed.

Lemma updateDeviceStates_flagged clock st :
  flagged st -> flagged (updateDeviceStates clock st).
Proof.
  intros H. unfold updateDeviceStates.
  destruct (negb (isInitialized st)); [exact H|].
  destruct (m_isDiscovering st); [|exact H].
  destruct (draw (m_randomGenerator st)) as [r g].
  destruct (_ <? 10); [|exact H].
  unfold flagged, generateMockDevices.
  match goal with |- context [appearances ?c ?k ?l ?s] =>
    destruct (appearances_paired c l k s) as [H1 H2] end.
  rewrite H1, H2. exact H.
Qed.

Lemma step_flagged (e : Event) (st : BluetoothSim) : flagged st -> flagged (step e st).
Proof.
  intros H. pose proof H as [Hp Hf]. destruct e; cbn [step].
  - unfold initialize. destruct (m_simulateBluetoothOff st); exact H.
  - unfold startDiscovery. destruct (negb (isInitialized st)); exact H.
  - exact H.
  - unfold pairDevice. destruct (negb (isInitialized st)); [exact H|].
    destruct (findDevice id (m_availableDevices st)) as [[i d]|]; [|exact H].
    destruct (decide (connectionState d = PAIRING)); exact H.
  - unfold unpairDevice.
    destruct (findDevice id (m_pairedDevices st)) as [[i d]|]; [|exact H].
    assert (H1 : flagged (if decide (connectionState d = CONNECTED)
                          then (disconnectDevice id st).2 else st))
      by (destruct (decide _); [apply disconnectDevice_flagged|]; exact H).
    destruct H1 as [Hp1 _].
    set (st1 := if decide (connectionState d = CONNECTED)
                then (disconnectDevice id st).2 else st) in *.
    assert (He : paired_flags (erase_at i (m_pairedDevices st1)))
      by (apply BluetoothSimMore.Forall_erase_at; exact Hp1).
    split; cbn; [exact He | apply saved_devices_flags; exact He].
  - unfold connectDevice. destruct (negb (isInitialized st)); [exact H|].
    destruct (negb (isDevicePaired id st)); [exact H|].
    destruct (findDevice id (m_pairedDevices st)) as [[i d]|] eqn:E; [|exact H].
    destruct (decide (connectionState d = CONNECTING)); [exact H|].
    split; [|exact Hf]. cbn. eapply flags_insert_found; [exact Hp | exact E | reflexivity].
  - apply disconnectDevice_flagged. exact H.
  - unfold simulateDeviceAppearance. destruct (newDevice _ _ _ _ _). exact H.
  - unfold simulateDeviceDisappearance.
    destruct (findDevice id (m_availableDevices st)) as [[i d]|]; exact H.
  - unfold updateSignalStrength, updateSignalStrength_in.
    destruct (findDevice id (m_availableDevices st)) as [[i d]|];
      cbn [m_pairedDevices emit set_emitted set_m_availableDevices];
      destruct (findDevice id (m_pairedDevices st)) as [[j p]|] eqn:E; try exact H;
      (split; [|exact Hf]); cbn;
      (eapply flags_insert_found; [exact Hp | exact E | reflexivity]).
  - unfold simulateBluetoothOff. destruct enable; exact H.
  - exact H.
  - exact H.
  - destruct (m_discoveryTimer st); [apply updateDeviceStates_flagged|]; exact H.
  - destruct (m_stateTimer st); [apply updateDeviceStates_flagged|]; exact H.
  - destruct (m_signalTimer st); [|exact H]. unfold updateSignalStrengths.
    destruct (negb (isInitialized st)); [exact H|].
    destruct (updateSignalStrengths_loop (m_availableDevices st) (m_randomGenerator st))
      as [[available sigs1] g1].
    pose proof (BluetoothSimMore.updateSignalStrengths_loop_keeps
                  (λ d, isPaired d = true) (λ d z Hd, Hd) (m_pairedDevices st) g1 Hp) as Hl.
    destruct (updateSignalStrengths_loop (m_pairedDevices st) g1) as [[paired sigs2] g2].
    split; [exact Hl | exact Hf].
  - unfold timeout. destruct (list_find _ _) as [[i t]|]; [|exact H].
    destruct (timer_kind t).
    + unfold pairingCompleted.
      cbn [m_availableDevices set_heap_timers m_pairedDevices].
      destruct (findDevice _ _) as [[j d]|]; [|exact H].
      assert (Ha : paired_flags (m_pairedDevices st ++ [paired_record now d])).
      { apply Forall_app. split; [exact Hp|]. constructor; [reflexivity | constructor]. }
      split; cbn; [exact Ha | apply saved_devices_flags; exact Ha].
    + unfold connectionCompleted.
      cbn [m_pairedDevices set_heap_timers].
      destruct (findDevice _ _) as [[j d]|] eqn:E; [|exact H].
      split; [|exact Hf]. cbn. eapply flags_insert_found; [exact Hp | exact E | reflexivity].
Qed.

Lemma reachable_flagged (g : mt19937) (file : option QJsonValue) (events : list Event) :
  paired_flags (saved_devices file) -> flagged (run events (construct g file)).
Proof.
  intros H0.
  assert (H : flagged (construct g file)).
  { destruct (construct_saved_devices g file) as [H1 H2].
    unfold flagged. rewrite H1, H2. split; exact H0. }
  revert H. generalize (construct g file).
  induction events as [|e events IH]; intros st H; [exact H|].
  cbn. apply IH, step_flagged, H.
Qed.

Lemma flagged_disjoint (st : BluetoothSim) :
  Forall unpaired_device (m_availableDevices st) ->
  paired_flags (m_pairedDevices st) ->
  disjoint_collections st.
Proof.
  intros Ha Hp d Hd Hd'. unfold paired_flags in Hp. rewrite Forall_forall in Ha, Hp.
  destruct (Ha d Hd) as (Hfalse & _). rewrite (Hp d Hd') in Hfalse. discriminate.
Qed.

Lemma elem_of_erase_at {A} (x : A) (i : nat) (l : list A) :
  x ∈ erase_at i l -> x ∈ l.
Proof.
  unfold erase_at. intros H. apply elem_of_app in H as [H|H].
  - apply list_elem_of_lookup in H as [j Hj].
    apply lookup_take_Some in Hj as [Hj _]. eapply list_elem_of_lookup_2; eassumption.
  - apply list_elem_of_lookup in H as [j Hj]. rewrite lookup_drop in Hj.
    eapply list_elem_of_lookup_2; eassumption.
Qed.

(** ** C1: the device whose pairing completes *)



End BluetoothSimPairing.

(** * Properties of the storage device registry *)

Module USBMonitorProofs.
Import Qt USBMonitor.

(** ** C10: removal without an id *)

(** C10. [simulateUSBRemoval] with the empty id: on a registry that holds
    devices the first one is erased, the others stay in order, and
    [deviceDisconnected] is emitted with the id of the erased device; on an
    empty registry the object is unchanged and nothing is emitted. *)
Theorem simulateUSBRemoval_empty_id (st : USBMonitor) :
  match m_connectedDevices st with
  | [] => simulateUSBRemoval "" st = st
  | first :: rest =>
      m_connectedDevices (simulateUSBRemoval "" st) = rest
      /\ emitted (simulateUSBRemoval "" st)
         = emitted st ++ [deviceDisconnected (deviceId first)]
  end.
Proof.
  unfold simulateUSBRemoval.
  destruct (m_connectedDevices st) as [|first rest] eqn:E.
  - reflexivity.
  - destruct (decide ("" = "")) as [_|Hne]; [|contradiction].
    unfold findDevice. cbn.
    destruct (decide (deviceId first = deviceId first)) as [_|Hne]; [|contradiction].
    cbn. destruct (m_isMonitoring st); cbn; rewrite E; split; reflexivity.
Qed.

(** ** C8: what a scan finds and where it puts it *)

Lemma updateDeviceSpace_core fs id st :
  core <$> m_connectedDevices (updateDeviceSpace fs id st) = core <$> m_connectedDevices st
  /\ m_supportedFormats (updateDeviceSpace fs id st) = m_supportedFormats st.
Proof.
  unfold updateDeviceSpace.
  destruct (findDevice id (m_connectedDevices st)) as [[i d]|] eqn:E; [|auto].
  destruct (storage fs (mountPoint d)); [|auto].
  cbn. split; [|reflexivity].
  rewrite list_fmap_insert. apply list_insert_id.
  unfold findDevice in E. apply list_find_Some in E as (Hi & _).
  rewrite list_lookup_fmap, Hi. reflexivity.
Qed.

Lemma scan_at_core fs id k st :
  core <$> m_connectedDevices (scan_at fs id k st)
  = match (core <$> m_connectedDevices st) !! k with
    | Some c => <[k := rescanned fs (m_supportedFormats st) id c]> (core <$> m_connectedDevices st)
    | None => core <$> m_connectedDevices st
    end
  /\ m_supportedFormats (scan_at fs id k st) = m_supportedFormats st.
Proof.
  unfold scan_at. rewrite list_lookup_fmap.
  destruct (m_connectedDevices st !! k) as [d|] eqn:Ek; cbn; [|auto].
  unfold rescanned.
  destruct (bool_decide (deviceId d = id) && isConnected d) eqn:Hc.
  - destruct (directory fs (mountPoint d)) as [dir|] eqn:Ed.
    + cbn.
      match goal with |- context [updateDeviceSpace fs id ?s] =>
        destruct (updateDeviceSpace_core fs id s) as [Hcore Hfmt] end.
      rewrite Hcore, Hfmt. cbn. rewrite list_fmap_insert. auto.
    + split; [|reflexivity]. symmetry. apply list_insert_id.
      rewrite list_lookup_fmap, Ek. reflexivity.
  - split; [|reflexivity]. symmetry. apply list_insert_id.
    rewrite list_lookup_fmap, Ek. reflexivity.
Qed.

(** After the loop has visited the positions [k, k + n), a device at one of
    them holds the rescanned list and every other device is as before. *)
Lemma scan_loop_core fs id n : forall k st j c,
  (core <$> m_connectedDevices st) !! j = Some c ->
  (core <$> m_connectedDevices (scan_loop fs id n k st)) !! j
  = Some (if decide (k <= j < k + n)%nat
          then rescanned fs (m_supportedFormats st) id c else c)
  /\ m_supportedFormats (scan_loop fs id n k st) = m_supportedFormats st.
Proof.
  induction n as [|n IH]; intros k st j c Hj.
  - cbn. destruct (decide _); [lia | auto].
  - cbn [scan_loop].
    destruct (scan_at_core fs id k st) as [Hcore Hfmt].
    assert (Hj1 : (core <$> m_connectedDevices (scan_at fs id k st)) !! j
                  = Some (if decide (j = k) then rescanned fs (m_supportedFormats st) id c else c)).
    { rewrite Hcore.
      destruct ((core <$> m_connectedDevices st) !! k) as [ck|] eqn:Ek.
      - destruct (decide (j = k)) as [->|Hne].
        + rewrite list_lookup_insert_eq by (eapply lookup_lt_Some; eassumption).
          congruence.
        + rewrite list_lookup_insert_ne by congruence. exact Hj.
      - destruct (decide (j = k)) as [->|Hne]; [congruence | exact Hj]. }
    destruct (IH (S k) _ j _ Hj1) as [Hres Hfmt'].
    rewrite Hres, Hfmt', Hfmt. split; [|reflexivity]. f_equal.
    destruct (decide (j = k)) as [->|Hne].
    + destruct (decide (S k <= k < S k + n)%nat); [lia|].
      destruct (decide (k <= k < k + S n)%nat); [reflexivity | lia].
    + destruct (decide (S k <= j < S k + n)%nat), (decide (k <= j < k + S n)%nat);
        try lia; reflexivity.
Qed.

(** A scan gives every connected device with the id, whose mount directory
    exists, the list built from the directory; what the device held before
    does not enter it. *)
Lemma scanMediaFiles_replaces fs st i d dir :
  m_connectedDevices st !! i = Some d ->
  isConnected d = true ->
  directory fs (mountPoint d) = Some dir ->
  exists d', m_connectedDevices (scanMediaFiles fs (deviceId d) st) !! i = Some d'
             /\ deviceId d' = deviceId d
             /\ mediaFiles d' = scannedFiles (m_supportedFormats st) dir.
Proof.
  intros Hi Hconn Hdir. unfold scanMediaFiles.
  assert (Hc : (core <$> m_connectedDevices st) !! i = Some (core d))
    by (rewrite list_lookup_fmap, Hi; reflexivity).
  destruct (scan_loop_core fs (deviceId d) (length (m_connectedDevices st)) O st i _ Hc)
    as [Hres _].
  pose proof (lookup_lt_Some _ _ _ Hi) as Hlen.
  destruct (decide (0 <= i < 0 + length (m_connectedDevices st))%nat); [|lia].
  rewrite list_lookup_fmap in Hres.
  destruct (m_connectedDevices (scan_loop _ _ _ _ _) !! i) as [d'|]; [|discriminate].
  exists d'. split; [reflexivity|].
  cbn in Hres. inversion Hres as [Hcore]. unfold core, rescanned in Hcore.
  rewrite Hconn, Hdir in Hcore. rewrite bool_decide_eq_true_2 in Hcore by reflexivity.
  cbn in Hcore. inversion Hcore. auto.
Qed.

(** *** The entry built for [Artist - Title.mp3] *)

Lemma after_last_app (c : ascii) (p n : string) :
  after_last c n = None -> after_last c (p +:+ String c n) = Some n.
Proof.
  intros Hn. induction p as [|x p IH].
  - change ("" +:+ String c n) with (String c n). cbn [after_last].
    rewrite Hn. destruct (decide (c = c)); [reflexivity | contradiction].
  - change (String x p +:+ String c n) with (String x (p +:+ String c n)).
    cbn [after_last]. rewrite IH. reflexivity.
Qed.

Lemma fileName_of_absolute (dir name : string) :
  after_last "/" name = None -> fileName_of (dir +:+ "/" +:+ name) = name.
Proof.
  intros H. unfold fileName_of.
  change (dir +:+ "/" +:+ name) with (dir +:+ String "/" name).
  rewrite (after_last_app "/" dir name H). reflexivity.
Qed.

Lemma mediaFile_of_artist_title (dir : Directory) (e : FileEntry) :
  entry_name e = "Artist - Title.mp3" ->
  let m := mediaFile_of dir e in
  fileName m = "Artist - Title.mp3" /\ artist m = "Artist" /\ title m = "Title"
  /\ fileType m = "mp3" /\ album m = "Unknown Album".
Proof.
  intros Hname. unfold mediaFile_of, getFileMetadataInternal, baseName_of. cbn.
  rewrite Hname.
  rewrite (fileName_of_absolute (absolutePath dir) "Artist - Title.mp3") by reflexivity.
  repeat split; vm_compute; reflexivity.
Qed.

Lemma scannedFiles_artist_title (formats : list string) (dir : Directory) (e : FileEntry) :
  e ∈ files dir -> entry_name e = "Artist - Title.mp3" -> "mp3" ∈ formats ->
  mediaFile_of dir e ∈ scannedFiles formats dir.
Proof.
  intros He Hname Hfmt. unfold scannedFiles, entryInfoList.
  apply list_elem_of_fmap_2. apply list_elem_of_filter. split.
  - unfold isMediaFile. rewrite Hname. apply bool_decide_eq_true_2. exact Hfmt.
  - apply list_elem_of_filter. split; [|exact He].
    unfold matches_filters. rewrite Hname.
    destruct formats as [|f formats]; [reflexivity|].
    apply existsb_exists. exists "mp3". split; [|reflexivity].
    apply list_elem_of_In. exact Hfmt.
Qed.

(** C8, as the code has it. For a connected device whose mount directory
    exists and lists a file named [Artist - Title.mp3], and while "mp3" is
    one of the supported formats: after a scan for the device's id the
    device holds exactly the list built from the directory (whatever it held
    before), and this list has an entry for the file with artist "Artist",
    title "Title" and file type "mp3". *)
Theorem scanMediaFiles_artist_title (fs : FileSystem) (st : USBMonitor) (i : nat)
  (d : USBDevice) (dir : Directory) (e : FileEntry) :
  m_connectedDevices st !! i = Some d ->
  isConnected d = true ->
  directory fs (mountPoint d) = Some dir ->
  e ∈ files dir ->
  entry_name e = "Artist - Title.mp3" ->
  "mp3" ∈ m_supportedFormats st ->
  exists d',
    m_connectedDevices (scanMediaFiles fs (deviceId d) st) !! i = Some d'
    /\ mediaFiles d' = scannedFiles (m_supportedFormats st) dir
    /\ exists m, m ∈ mediaFiles d'
         /\ fileName m = "Artist - Title.mp3"
         /\ artist m = "Artist" /\ title m = "Title" /\ fileType m = "mp3".
Proof.
  intros Hi Hconn Hdir He Hname Hfmt.
  destruct (scanMediaFiles_replaces fs st i d dir Hi Hconn Hdir) as (d' & Hd' & _ & Hfiles).
  exists d'. split; [exact Hd' | split; [exact Hfiles|]].
  exists (mediaFile_of dir e). rewrite Hfiles.
  split; [apply scannedFiles_artist_title; assumption|].
  destruct (mediaFile_of_artist_title dir e Hname) as (? & ? & ? & ? & _). auto.
Qed.

Lemma scanMediaFiles_artist_title_witness :
  exists d',
    m_connectedDevices
      (scanMediaFiles Examples.disk Examples.usb_id Examples.inserted) !! O = Some d'
    /\ mediaFiles d' = scannedFiles (m_supportedFormats Examples.inserted) Examples.usb_dir
    /\ exists m, m ∈ mediaFiles d'
         /\ fileName m = "Artist - Title.mp3"
         /\ artist m = "Artist" /\ title m = "Title" /\ fileType m = "mp3".
Proof.
  refine (scanMediaFiles_artist_title Examples.disk Examples.inserted O
            {| deviceId := Examples.usb_id; deviceName := "USB_DRIVE_01";
               mountPoint := "mnt/usb/USB_1714564800200";
               totalSpace := 32000000000; freeSpace := 28000000000;
               fileSystem := "FAT32"; isConnected := true;
               connectedTime := currentDateTime (Examples.clock_at 1714564800200);
               mediaFiles := [] |}
            Examples.usb_dir Examples.song _ _ _ _ _ _).
  - vm_compute. reflexivity.
  - reflexivity.
  - vm_compute. reflexivity.
  - apply list_elem_of_here.
  - reflexivity.
  - apply list_elem_of_here.
Defined.

(** C8 as stated fails when "mp3" is not among the supported formats: the
    device is connected, its mount directory lists [Artist - Title.mp3], and
    the scan leaves the device without any media file. *)
Lemma scanMediaFiles_without_mp3_format :
  let st := Examples.wav_only in
  let st' := scanMediaFiles Examples.disk Examples.usb_id st in
  (exists d, m_connectedDevices st !! O = Some d
             /\ deviceId d = Examples.usb_id /\ isConnected d = true
             /\ directory Examples.disk (mountPoint d) = Some Examples.usb_dir)
  /\ Examples.song ∈ files Examples.usb_dir
  /\ entry_name Examples.song = "Artist - Title.mp3"
  /\ ~ (exists d' m, m_connectedDevices st' !! O = Some d' /\ m ∈ mediaFiles d'
                     /\ fileName m = "Artist - Title.mp3").
Proof.
  cbv zeta. split; [|split; [|split]].
  - eexists. split; [vm_compute; reflexivity|]. repeat split.
  - apply list_elem_of_here.
  - reflexivity.
  - intros (d' & m & Hd' & Hm & _). vm_compute in Hd'. inversion Hd'; subst d'.
    cbn in Hm. inversion Hm.
Qed.

End USBMonitorProofs.

(** * Further properties of the storage device registry *)

Module USBMonitorMore.
Import Qt USBMonitor.

(** ** Finding a device *)

Lemma usb_findDevice_None (id : string) (l : list USBDevice) :
  findDevice id l = None <-> (forall d, d ∈ l -> deviceId d <> id).
Proof.
  unfold findDevice. rewrite list_find_None, Forall_forall. reflexivity.
Qed.

Lemma usb_findDevice_Some (id : string) (l : list USBDevice) (i : nat) (d : USBDevice) :
  findDevice id l = Some (i, d) ->
  l !! i = Some d /\ deviceId d = id
  /\ (forall j y, l !! j = Some y -> (j < i)%nat -> deviceId y <> id).
Proof. unfold findDevice. intros H. apply list_find_Some in H. exact H. Qed.

Lemma usb_findDevice_exists (id : string) (l : list USBDevice) (d : USBDevice) :
  d ∈ l -> deviceId d = id -> exists i x, findDevice id l = Some (i, x).
Proof.
  intros Hin Hid.
  destruct (list_find_elem_of (λ d, deviceId d = id) l d Hin Hid) as [[i x] H].
  exists i, x. exact H.
Qed.

(** Replacing a device by one with the same id moves no search. *)
Lemma usb_findDevice_insert (id : string) (l : list USBDevice) (i : nat) (d d' : USBDevice) :
  l !! i = Some d -> deviceId d' = deviceId d ->
  findDevice id (<[i := d']> l)
  = match findDevice id l with
    | Some (j, x) => Some (j, if decide (j = i) then d' else x)
    | None => None
    end.
Proof.
  intros Hi Hid.
  pose proof (lookup_lt_Some _ _ _ Hi) as Hlen.
  destruct (findDevice id l) as [[j x]|] eqn:E.
  - apply usb_findDevice_Some in E as (Hj & Hx & Hfirst).
    unfold findDevice. apply list_find_Some.
    destruct (decide (j = i)) as [->|Hne].
    + split; [apply list_lookup_insert_eq; exact Hlen|].
      split; [congruence|].
      intros k y Hk Hlt. rewrite list_lookup_insert_ne in Hk by lia.
      eapply Hfirst; eassumption.
    + split; [rewrite list_lookup_insert_ne by congruence; exact Hj|].
      split; [exact Hx|].
      intros k y Hk Hlt. destruct (decide (k = i)) as [->|Hki].
      * rewrite list_lookup_insert_eq in Hk by exact Hlen. injection Hk as <-.
        rewrite Hid. eapply Hfirst; eassumption.
      * rewrite list_lookup_insert_ne in Hk by congruence. eapply Hfirst; eassumption.
  - apply usb_findDevice_None. intros y Hy.
    apply list_elem_of_lookup in Hy as [k Hk].
    destruct (decide (k = i)) as [->|Hki].
    + rewrite list_lookup_insert_eq in Hk by exact Hlen. injection Hk as <-.
      rewrite Hid. apply (proj1 (usb_findDevice_None id l) E).
      eapply list_elem_of_lookup_2; eassumption.
    + rewrite list_lookup_insert_ne in Hk by congruence.
      apply (proj1 (usb_findDevice_None id l) E).
      eapply list_elem_of_lookup_2; eassumption.
Qed.

Lemma usb_with_id_nil_iff (id : string) (l : list USBDevice) :
  with_id id l = [] <-> (forall d, d ∈ l -> deviceId d <> id).
Proof.
  unfold with_id. split.
  - intros H d Hd Hid.
    assert (d ∈ filter (λ d, deviceId d = id) l) as Hin by (apply list_elem_of_filter; auto).
    rewrite H in Hin. inversion Hin.
  - intros H. induction l as [|y rest IH]; [reflexivity|].
    rewrite filter_cons. destruct (decide (deviceId y = id)) as [Hy|_].
    + exfalso. apply (H y); [apply list_elem_of_here | exact Hy].
    + apply IH. intros d Hd. apply H. apply list_elem_of_further. exact Hd.
Qed.

Lemma usb_with_id_single (id : string) (l : list USBDevice) (d : USBDevice) :
  with_id id l = [d] ->
  exists i, findDevice id l = Some (i, d)
            /\ forall j y, l !! j = Some y -> j <> i -> deviceId y <> id.
Proof.
  intros H.
  assert (Hd : d ∈ with_id id l) by (rewrite H; apply list_elem_of_here).
  unfold with_id in Hd. apply list_elem_of_filter in Hd as [Hid Hin].
  destruct (list_find_elem_of (λ d, deviceId d = id) l d Hin Hid) as [[i x] Hfind].
  exists i. pose proof Hfind as Hf. apply list_find_Some in Hf as (Hi & Hx & Hfirst).
  assert (Hsplit : l = take i l ++ x :: drop (S i) l)
    by (symmetry; apply take_drop_middle; exact Hi).
  assert (Htake : with_id id (take i l) = []).
  { apply usb_with_id_nil_iff. intros y Hy.
    apply list_elem_of_lookup in Hy as [j Hj].
    pose proof (lookup_lt_Some _ _ _ Hj) as Hlen. rewrite length_take in Hlen.
    rewrite lookup_take_lt in Hj by lia. eapply Hfirst; [exact Hj | lia]. }
  unfold with_id in *. rewrite Hsplit, filter_app, filter_cons, Htake in H.
  destruct (decide (deviceId x = id)); [|contradiction].
  cbn [app] in H. injection H as -> Hrest.
  split; [exact Hfind|].
  intros j y Hj Hne.
  destruct (decide (j < i)%nat) as [Hlt|Hge]; [eapply Hfirst; eassumption|].
  assert (Hy : y ∈ drop (S i) l).
  { apply list_elem_of_lookup. exists (j - S i)%nat.
    rewrite lookup_drop. replace (S i + (j - S i))%nat with j by lia. exact Hj. }
  apply (proj1 (usb_with_id_nil_iff id (drop (S i) l)) Hrest y Hy).
Qed.

(** ** Saving and loading the device list *)

Lemma media_members (m : MediaFile) :
  let o := toObject (media_toJson m) in
  member "fileName" o = JString (fileName m)
  /\ member "filePath" o = JString (filePath m)
  /\ member "title" o = JString (title m)
  /\ member "artist" o = JString (artist m)
  /\ member "album" o = JString (album m)
  /\ member "duration" o = JString (duration m)
  /\ member "fileSize" o = JInt (fileSize m)
  /\ member "fileType" o = JString (fileType m)
  /\ member "lastModified" o = JString (toString_ISODate (lastModified m)).
Proof.
  cbv zeta. unfold media_toJson, toObject.
  repeat split; read_member; reflexivity.
Qed.

Lemma usb_device_members (d : USBDevice) :
  let o := toObject (device_toJson d) in
  member "deviceId" o = JString (deviceId d)
  /\ member "deviceName" o = JString (deviceName d)
  /\ member "mountPoint" o = JString (mountPoint d)
  /\ member "totalSpace" o = JInt (totalSpace d)
  /\ member "freeSpace" o = JInt (freeSpace d)
  /\ member "fileSystem" o = JString (fileSystem d)
  /\ member "isConnected" o = JBool (isConnected d)
  /\ member "connectedTime" o = JString (toString_ISODate (connectedTime d))
  /\ member "mediaFiles" o = JArray (map media_toJson (mediaFiles d)).
Proof.
  cbv zeta. unfold device_toJson, toObject.
  repeat split; read_member; reflexivity.
Qed.

Lemma toLongLong_exact (z : Z) : exact_number z -> toLongLong (JInt z) = z.
Proof.
  unfold exact_number, toLongLong.
  change (2 ^ 53) with 9007199254740992. change (2 ^ 63) with 9223372036854775808.
  intros H. destruct (decide _) as [_|Hn]; [reflexivity | exfalso; apply Hn; lia].
Qed.

Lemma media_fromJson_toJson (m : MediaFile) :
  wf_media m -> media_fromJson (media_toJson m) = persisted_media m.
Proof.
  intros (Hz & Ht).
  destruct (media_members m) as (M1 & M2 & M3 & M4 & M5 & M6 & M7 & M8 & M9).
  unfold media_fromJson. cbv zeta.
  rewrite M1, M2, M3, M4, M5, M6, M7, M8, M9.
  rewrite toLongLong_exact by assumption.
  cbn [toString].
  rewrite QtProofs.fromString_toString_ISODate by assumption.
  reflexivity.
Qed.

Lemma media_list_fromJson_toJson (l : list MediaFile) :
  Forall wf_media l -> map media_fromJson (map media_toJson l) = map persisted_media l.
Proof.
  intros H. induction H as [|m l Hm _ IH]; [reflexivity|].
  cbn [map]. rewrite media_fromJson_toJson by assumption. f_equal. exact IH.
Qed.

Lemma usb_device_fromJson_toJson (d : USBDevice) :
  wf_device d -> device_fromJson (device_toJson d) = persisted d.
Proof.
  intros (Ht & Hf & Hc & Hm).
  destruct (usb_device_members d) as (M1 & M2 & M3 & M4 & M5 & M6 & M7 & M8 & M9).
  unfold device_fromJson. cbv zeta.
  rewrite M1, M2, M3, M4, M5, M6, M7, M8, M9.
  rewrite !toLongLong_exact by assumption.
  cbn [toString toBool toArray].
  rewrite QtProofs.fromString_toString_ISODate by assumption.
  rewrite media_list_fromJson_toJson by assumption.
  reflexivity.
Qed.

(** X17. Saving the device list and constructing the registry from the file
    gives the same devices in the same order, each with its media files and
    its connected flag as saved; only the milliseconds of the connection
    time and of the files' modification times are lost. *)
Theorem device_list_roundtrip (st : USBMonitor) :
  Forall wf_device (m_connectedDevices st) ->
  m_connectedDevices (construct (config_file (saveDeviceList st)))
  = map persisted (m_connectedDevices st).
Proof.
  intros Hwf. unfold construct, loadDeviceList, saveDeviceList.
  cbn [config_file set_config_file m_connectedDevices set_m_connectedDevices toArray app].
  induction Hwf as [|d l Hd _ IH]; [reflexivity|].
  cbn [map]. rewrite usb_device_fromJson_toJson by assumption. f_equal. exact IH.
Qed.

(** Shows a concrete device list well formed. *)
Ltac usb_wf_concrete :=
  repeat match goal with
         | |- Forall _ _ => constructor
         | |- wf_device _ => unfold wf_device; cbn
         | |- wf_media _ => unfold wf_media; cbn
         | |- _ /\ _ => split
         | |- exact_number _ => unfold exact_number; split; vm_compute; congruence
         | |- wf_QDateTime _ => first [left; reflexivity | right; split; vm_compute; reflexivity]
         end.

Lemma device_list_roundtrip_witness :
  m_connectedDevices (construct (config_file (saveDeviceList Examples.scanned)))
  = map persisted (m_connectedDevices Examples.scanned)
  /\ map (λ d, length (mediaFiles d)) (m_connectedDevices Examples.scanned) = [1%nat]
  /\ map persisted (m_connectedDevices Examples.scanned)
     <> m_connectedDevices Examples.scanned.
Proof.
  split.
  - apply device_list_roundtrip.
    evaluate (m_connectedDevices Examples.scanned). usb_wf_concrete.
  - split; [vm_compute; reflexivity | vm_compute; discriminate].
Defined.

(** ** Insertion and removal *)

Lemma generateDeviceId_not_empty (now : Clock) : generateDeviceId now <> "".
Proof. unfold generateDeviceId. cbv [String.append]. discriminate. Qed.

Lemma simulateUSBRemoval_by_id (id : string) (st : USBMonitor) :
  id <> "" ->
  simulateUSBRemoval id st
  = match findDevice id (m_connectedDevices st) with
    | Some (i, d) =>
        let st1 := emit (deviceDisconnected id) st in
        let st2 :=
          if m_isMonitoring st1
          then set_m_fileSystemWatcher (removePath (mountPoint d) (m_fileSystemWatcher st1)) st1
          else st1 in
        set_m_connectedDevices (erase_at i (m_connectedDevices st2)) st2
    | None => st
    end.
Proof.
  intros Hid. unfold simulateUSBRemoval.
  destruct (m_connectedDevices st) as [|first rest]; [reflexivity|].
  destruct (decide (id = "")); [contradiction | reflexivity].
Qed.

Lemma removePath_addPath (path : string) (watched : list string) :
  removePath path (addPath path watched) = removePath path watched.
Proof.
  unfold addPath, removePath. destruct (decide (path ∈ watched)); [reflexivity|].
  rewrite filter_app, filter_cons.
  destruct (decide (path <> path)); [contradiction|]. apply app_nil_r.
Qed.

Lemma erase_at_last {A} (l : list A) (x : A) : erase_at (length l) (l ++ [x]) = l.
Proof.
  unfold erase_at. rewrite take_app_length.
  rewrite drop_ge by (rewrite length_app; cbn; lia). apply app_nil_r.
Qed.

(** X18. A drive that is inserted and then removed by its id, when no device
    of the registry had that id: the device list is what it was,
    [deviceConnected] and [deviceDisconnected] were emitted for it, the id no
    longer counts as connected, and when the registry is monitoring its
    mount directory is not watched. *)
Theorem simulateUSBInsertion_then_removal (now1 now2 : Clock) (name : string)
  (st : USBMonitor) :
  (forall d, d ∈ m_connectedDevices st -> deviceId d <> generateDeviceId now1) ->
  let id := generateDeviceId now1 in
  let st1 := simulateUSBInsertion now1 now2 name st in
  let st2 := simulateUSBRemoval id st1 in
  isDeviceConnected id st1 = true
  /\ m_connectedDevices st2 = m_connectedDevices st
  /\ isDeviceConnected id st2 = false
  /\ emitted st2 = emitted st ++ [deviceConnected (getDevice id st1); deviceDisconnected id]
  /\ m_fileSystemWatcher st2
     = (if m_isMonitoring st
        then removePath ("mnt/usb/" +:+ id) (m_fileSystemWatcher st)
        else m_fileSystemWatcher st).
Proof.
  intros Hfresh. cbv zeta.
  set (id := generateDeviceId now1).
  set (device := {| deviceId := id; deviceName := name; mountPoint := "mnt/usb/" +:+ id;
                    totalSpace := 32000000000; freeSpace := 28000000000;
                    fileSystem := "FAT32"; isConnected := true;
                    connectedTime := currentDateTime now2; mediaFiles := [] |}).
  set (st1 := simulateUSBInsertion now1 now2 name st).
  assert (Hdev : m_connectedDevices st1 = m_connectedDevices st ++ [device]).
  { subst st1. unfold simulateUSBInsertion. cbv zeta.
    cbn [m_isMonitoring emit set_emitted set_m_connectedDevices].
    destruct (m_isMonitoring st); reflexivity. }
  assert (Hem : emitted st1 = emitted st ++ [deviceConnected device]).
  { subst st1. unfold simulateUSBInsertion. cbv zeta.
    cbn [m_isMonitoring emit set_emitted set_m_connectedDevices].
    destruct (m_isMonitoring st); reflexivity. }
  assert (Hmon : m_isMonitoring st1 = m_isMonitoring st).
  { subst st1. unfold simulateUSBInsertion. cbv zeta.
    cbn [m_isMonitoring emit set_emitted set_m_connectedDevices].
    destruct (m_isMonitoring st) eqn:E; cbn; rewrite ?E; reflexivity. }
  assert (Hw : m_fileSystemWatcher st1
               = if m_isMonitoring st
                 then addPath ("mnt/usb/" +:+ id) (m_fileSystemWatcher st)
                 else m_fileSystemWatcher st).
  { subst st1. unfold simulateUSBInsertion. cbv zeta.
    cbn [m_isMonitoring emit set_emitted set_m_connectedDevices].
    destruct (m_isMonitoring st); reflexivity. }
  assert (Hfind : findDevice id (m_connectedDevices st1)
                  = Some (length (m_connectedDevices st), device)).
  { rewrite Hdev. unfold findDevice. apply list_find_Some. split; [|split].
    - rewrite lookup_app_r by lia. rewrite Nat.sub_diag. reflexivity.
    - reflexivity.
    - intros j y Hj Hlt. rewrite lookup_app_l in Hj by exact Hlt.
      apply Hfresh. eapply list_elem_of_lookup_2; eassumption. }
  assert (Hnone : forallb (λ d, negb (bool_decide (deviceId d = id) && isConnected d))
                    (m_connectedDevices st) = true).
  { apply forallb_forall. intros d Hd. apply list_elem_of_In in Hd.
    rewrite bool_decide_eq_false_2 by (apply Hfresh; exact Hd). reflexivity. }
  split.
  { unfold isDeviceConnected. rewrite Hdev, existsb_app. cbn [existsb isConnected deviceId device].
    rewrite bool_decide_eq_true_2 by reflexivity. apply orb_true_r. }
  rewrite simulateUSBRemoval_by_id by apply generateDeviceId_not_empty.
  fold id. rewrite Hfind. cbv zeta.
  cbn [m_isMonitoring emit set_emitted]. rewrite Hmon.
  assert (Hget : getDevice id st1 = device) by (unfold getDevice; rewrite Hfind; reflexivity).
  rewrite Hget.
  assert (Hno : existsb (λ d, bool_decide (deviceId d = id) && isConnected d)
                  (m_connectedDevices st) = false).
  { apply not_true_is_false. intros Hex. apply existsb_exists in Hex as (d & Hd & Hc).
    rewrite forallb_forall in Hnone. specialize (Hnone d Hd). rewrite Hc in Hnone.
    discriminate. }
  destruct (m_isMonitoring st) eqn:Emon.
  - unfold isDeviceConnected.
    cbn [m_connectedDevices set_m_connectedDevices set_m_fileSystemWatcher set_emitted
           emit emitted m_fileSystemWatcher mountPoint device].
    rewrite Hdev, erase_at_last, Hem, <- app_assoc, Hw, removePath_addPath.
    repeat split. exact Hno.
  - unfold isDeviceConnected.
    cbn [m_connectedDevices set_m_connectedDevices set_m_fileSystemWatcher set_emitted
           emit emitted m_fileSystemWatcher mountPoint device].
    rewrite Hdev, erase_at_last, Hem, <- app_assoc, Hw.
    repeat split. exact Hno.
Qed.

Lemma simulateUSBInsertion_then_removal_witness :
  m_connectedDevices
    (simulateUSBRemoval Examples.usb_id Examples.inserted) = [].
Proof.
  apply (simulateUSBInsertion_then_removal (Examples.clock_at 1714564800200)
           (Examples.clock_at 1714564800200) "USB_DRIVE_01" (construct None)).
  intros d Hd. vm_compute in Hd. inversion Hd.
Defined.

(** [simulateUSBRemoval] with an id that is not empty and that no device
    has changes nothing and emits nothing. *)
Theorem simulateUSBRemoval_unknown (id : string) (st : USBMonitor) :
  id <> "" ->
  (forall d, d ∈ m_connectedDevices st -> deviceId d <> id) ->
  simulateUSBRemoval id st = st.
Proof.
  intros Hid Hnone. rewrite simulateUSBRemoval_by_id by exact Hid.
  rewrite (proj2 (usb_findDevice_None id _) Hnone). reflexivity.
Qed.

Lemma simulateUSBRemoval_unknown_witness :
  simulateUSBRemoval "USB_0" Examples.inserted = Examples.inserted.
Proof.
  apply simulateUSBRemoval_unknown; [discriminate|].
  intros d Hd. elems Hd. discriminate.
Defined.

(** ** Scans that find nothing to do *)

Lemma scan_loop_nothing (fs : FileSystem) (id : string) (n : nat) : forall i st,
  (forall d, d ∈ m_connectedDevices st -> deviceId d = id -> isConnected d = true ->
             directory fs (mountPoint d) = None) ->
  scan_loop fs id n i st = st.
Proof.
  induction n as [|n IH]; intros i st H; [reflexivity|].
  cbn [scan_loop].
  assert (Hat : scan_at fs id i st = st).
  { unfold scan_at. destruct (m_connectedDevices st !! i) as [d|] eqn:E; [|reflexivity].
    destruct (bool_decide (deviceId d = id)) eqn:Eid; [|reflexivity].
    destruct (isConnected d) eqn:Ec; [|reflexivity].
    cbn [andb]. apply bool_decide_eq_true_1 in Eid.
    rewrite (H d); [reflexivity | | exact Eid | exact Ec].
    eapply list_elem_of_lookup_2; eassumption. }
  rewrite Hat. apply IH. exact H.
Qed.

(** X19. [scanMediaFiles] changes nothing and emits nothing when every
    connected device with the id has a mount point that is not an existing
    directory; in particular when no device has the id, or none of them is
    connected. The lists those devices hold stay as they were. *)
Theorem scanMediaFiles_nothing_to_scan (fs : FileSystem) (id : string) (st : USBMonitor) :
  (forall d, d ∈ m_connectedDevices st -> deviceId d = id -> isConnected d = true ->
             directory fs (mountPoint d) = None) ->
  scanMediaFiles fs id st = st.
Proof. intros H. unfold scanMediaFiles. apply scan_loop_nothing. exact H. Qed.

Lemma scanMediaFiles_nothing_to_scan_witness :
  scanMediaFiles {| directory := λ _, None; storage := λ _, None |}
    Examples.usb_id Examples.scanned
  = Examples.scanned
  /\ isDeviceConnected Examples.usb_id Examples.scanned = true.
Proof.
  split; [|vm_compute; reflexivity].
  apply scanMediaFiles_nothing_to_scan. intros d _ _ _. reflexivity.
Defined.

(** X20. After [unmountDevice] of the only device with an id: the id does not
    count as connected, the device is still in the registry with the media
    files it had, nothing was emitted, and a scan of the id changes
    nothing. *)
Theorem unmountDevice_then_scan (fs : FileSystem) (id : string) (st : USBMonitor)
  (d : USBDevice) :
  with_id id (m_connectedDevices st) = [d] ->
  let st' := unmountDevice id st in
  isDeviceConnected id st' = false
  /\ getDevice id st' = set_isConnected false d
  /\ getMediaFiles id st' = mediaFiles d
  /\ emitted st' = emitted st
  /\ scanMediaFiles fs id st' = st'.
Proof.
  intros Hone. destruct (usb_with_id_single id _ d Hone) as (i & Hfind & Hothers).
  pose proof (usb_findDevice_Some _ _ _ _ Hfind) as (Hi & Hid & _).
  cbv zeta.
  set (st' := unmountDevice id st).
  assert (Hdev : m_connectedDevices st'
                 = <[i := set_isConnected false d]> (m_connectedDevices st)).
  { subst st'. unfold unmountDevice. rewrite Hfind.
    cbn [m_isMonitoring set_m_connectedDevices].
    destruct (m_isMonitoring st); reflexivity. }
  assert (Hem : emitted st' = emitted st).
  { subst st'. unfold unmountDevice. rewrite Hfind.
    cbn [m_isMonitoring set_m_connectedDevices].
    destruct (m_isMonitoring st); reflexivity. }
  assert (Hfind' : findDevice id (m_connectedDevices st')
                   = Some (i, set_isConnected false d)).
  { rewrite Hdev, (usb_findDevice_insert id _ i d) by (exact Hi || reflexivity).
    rewrite Hfind. destruct (decide (i = i)); [reflexivity | contradiction]. }
  assert (Hoff : forall y, y ∈ m_connectedDevices st' -> deviceId y = id ->
                           isConnected y = false).
  { intros y Hy Hyid. rewrite Hdev in Hy. apply list_elem_of_lookup in Hy as [j Hj].
    destruct (decide (j = i)) as [->|Hne].
    - rewrite list_lookup_insert_eq in Hj by (eapply lookup_lt_Some; eassumption).
      injection Hj as <-. reflexivity.
    - rewrite list_lookup_insert_ne in Hj by congruence.
      exfalso. eapply Hothers; eassumption. }
  split.
  { unfold isDeviceConnected. apply not_true_is_false. intros Hex.
    apply existsb_exists in Hex as (y & Hy & Hc). apply list_elem_of_In in Hy.
    apply andb_true_iff in Hc as [Hyid Hc]. apply bool_decide_eq_true_1 in Hyid.
    rewrite (Hoff y Hy Hyid) in Hc. discriminate. }
  split; [unfold getDevice; rewrite Hfind'; reflexivity|].
  split; [unfold getMediaFiles; rewrite Hfind'; reflexivity|].
  split; [exact Hem|].
  unfold scanMediaFiles. apply scan_loop_nothing.
  intros y Hy Hyid Hc. rewrite (Hoff y Hy Hyid) in Hc. discriminate.
Qed.

Lemma unmountDevice_then_scan_witness :
  let st' := unmountDevice Examples.usb_id Examples.scanned in
  isDeviceConnected Examples.usb_id st' = false
  /\ length (getMediaFiles Examples.usb_id st') = 1%nat
  /\ scanMediaFiles Examples.disk Examples.usb_id st' = st'.
Proof.
  cbv zeta.
  assert (H : exists d, with_id Examples.usb_id (m_connectedDevices Examples.scanned) = [d]
                        /\ length (mediaFiles d) = 1%nat).
  { eexists. split; vm_compute; reflexivity. }
  destruct H as (d & Hone & Hlen).
  destruct (unmountDevice_then_scan Examples.disk Examples.usb_id Examples.scanned d Hone)
    as (H1 & _ & H3 & _ & H5).
  split; [exact H1|]. split; [rewrite H3; exact Hlen | exact H5].
Defined.

(** ** Adding and removing a media file by hand *)

Lemma set_mediaFiles_back (d : USBDevice) (l : list MediaFile) :
  set_mediaFiles (mediaFiles d) (set_mediaFiles l d) = d.
Proof. destruct d; reflexivity. Qed.

(** X21. [addMediaFile] appends the file to the list of the first device with
    the id, so that [getMediaFiles] of the id returns the old list followed
    by the file; the lists of other ids are not affected; with no device of
    that id the call changes nothing and emits nothing. *)
Theorem addMediaFile_getMediaFiles (id : string) (f : MediaFile) (st : USBMonitor) :
  match findDevice id (m_connectedDevices st) with
  | Some (i, d) =>
      getMediaFiles id (addMediaFile id f st) = getMediaFiles id st ++ [f]
      /\ emitted (addMediaFile id f st)
         = emitted st ++ [mediaFileAdded id f; mediaFilesChanged id (mediaFiles d ++ [f])]
  | None => addMediaFile id f st = st
  end
  /\ forall id', id' <> id ->
       getMediaFiles id' (addMediaFile id f st) = getMediaFiles id' st.
Proof.
  unfold addMediaFile, getMediaFiles.
  destruct (findDevice id (m_connectedDevices st)) as [[i d]|] eqn:Hfind.
  - pose proof (usb_findDevice_Some _ _ _ _ Hfind) as (Hi & Hid & _).
    cbn [emit set_emitted emitted m_connectedDevices set_m_connectedDevices].
    split; [split|].
    + rewrite (usb_findDevice_insert id _ i d) by (exact Hi || reflexivity).
      rewrite Hfind. destruct (decide (i = i)); [reflexivity | contradiction].
    + rewrite <- app_assoc. reflexivity.
    + intros id' Hne.
      rewrite (usb_findDevice_insert id' _ i d) by (exact Hi || reflexivity).
      destruct (findDevice id' (m_connectedDevices st)) as [[j x]|] eqn:E; [|reflexivity].
      destruct (decide (j = i)) as [->|_]; [|reflexivity].
      apply usb_findDevice_Some in E as (Hx & Hxid & _). congruence.
  - split; [reflexivity|]. intros id' _. reflexivity.
Qed.

Lemma removeMediaFile_from_found (id name : string) (d : USBDevice) (j : nat) (m : MediaFile)
  (post : list USBDevice) (st : USBMonitor) : forall pre k,
  (forall y, y ∈ pre -> deviceId y <> id) ->
  deviceId d = id ->
  findFile name (mediaFiles d) = Some (j, m) ->
  removeMediaFile_from id name k (pre ++ d :: post) st
  = emit (mediaFilesChanged id (erase_at j (mediaFiles d)))
      (emit (mediaFileRemoved id name)
         (set_m_connectedDevices
            (<[(k + length pre)%nat := set_mediaFiles (erase_at j (mediaFiles d)) d]>
               (m_connectedDevices st)) st)).
Proof.
  induction pre as [|y pre IH]; intros k Hpre Hid Hfile.
  - cbn [app removeMediaFile_from length]. rewrite Nat.add_0_r.
    destruct (decide (deviceId d = id)); [|contradiction].
    rewrite Hfile. reflexivity.
  - cbn [app removeMediaFile_from length].
    destruct (decide (deviceId y = id)) as [Hy|_].
    + exfalso. apply (Hpre y); [apply list_elem_of_here | exact Hy].
    + rewrite IH; [|intros z Hz; apply Hpre, list_elem_of_further, Hz | exact Hid | exact Hfile].
      replace (S k + length pre)%nat with (k + S (length pre))%nat by lia. reflexivity.
Qed.

Lemma removeMediaFile_from_none (id name : string) (st : USBMonitor) : forall rest k,
  (forall y, y ∈ rest -> deviceId y = id -> findFile name (mediaFiles y) = None) ->
  removeMediaFile_from id name k rest st = st.
Proof.
  induction rest as [|y rest IH]; intros k H; [reflexivity|].
  cbn [removeMediaFile_from].
  destruct (decide (deviceId y = id)) as [Hy|_].
  - rewrite (H y (list_elem_of_here _ _) Hy).
    apply IH. intros z Hz. apply H, list_elem_of_further, Hz.
  - apply IH. intros z Hz. apply H, list_elem_of_further, Hz.
Qed.

(** X22. A file added to a device that holds no file of that name, and then
    removed by its name: the device list is what it was, and the four
    signals were emitted in order, the last one with the original list. *)
Theorem addMediaFile_then_removeMediaFile (id : string) (f : MediaFile) (st : USBMonitor)
  (i : nat) (d : USBDevice) :
  findDevice id (m_connectedDevices st) = Some (i, d) ->
  (forall m, m ∈ mediaFiles d -> fileName m <> fileName f) ->
  let st' := removeMediaFile id (fileName f) (addMediaFile id f st) in
  m_connectedDevices st' = m_connectedDevices st
  /\ emitted st'
     = emitted st
       ++ [ mediaFileAdded id f; mediaFilesChanged id (mediaFiles d ++ [f]);
            mediaFileRemoved id (fileName f); mediaFilesChanged id (mediaFiles d) ].
Proof.
  intros Hfind Hfresh.
  pose proof (usb_findDevice_Some _ _ _ _ Hfind) as (Hi & Hid & Hfirst).
  pose proof (lookup_lt_Some _ _ _ Hi) as Hlen.
  set (d1 := set_mediaFiles (mediaFiles d ++ [f]) d).
  set (st1 := addMediaFile id f st).
  assert (Hdev1 : m_connectedDevices st1 = <[i := d1]> (m_connectedDevices st))
    by (subst st1; unfold addMediaFile; rewrite Hfind; reflexivity).
  assert (Hem1 : emitted st1
                 = (emitted st ++ [mediaFileAdded id f])
                   ++ [mediaFilesChanged id (mediaFiles d ++ [f])])
    by (subst st1; unfold addMediaFile; rewrite Hfind; reflexivity).
  assert (Hfile : findFile (fileName f) (mediaFiles d1)
                  = Some (length (mediaFiles d), f)).
  { subst d1. cbn [mediaFiles set_mediaFiles]. unfold findFile. apply list_find_Some.
    split; [rewrite lookup_app_r by lia; rewrite Nat.sub_diag; reflexivity|].
    split; [reflexivity|].
    intros k y Hk Hlt. rewrite lookup_app_l in Hk by exact Hlt.
    apply Hfresh. eapply list_elem_of_lookup_2; eassumption. }
  assert (Hpre : forall y, y ∈ take i (m_connectedDevices st) -> deviceId y <> id).
  { intros y Hy. apply list_elem_of_lookup in Hy as [k Hk].
    pose proof (lookup_lt_Some _ _ _ Hk) as Hk'. rewrite length_take in Hk'.
    rewrite lookup_take_lt in Hk by lia. eapply Hfirst; [exact Hk | lia]. }
  assert (Hrem : removeMediaFile id (fileName f) st1
                 = emit (mediaFilesChanged id (mediaFiles d))
                     (emit (mediaFileRemoved id (fileName f))
                        (set_m_connectedDevices (m_connectedDevices st) st1))).
  { unfold removeMediaFile. rewrite Hdev1 at 1.
    rewrite (insert_take_drop (m_connectedDevices st) i d1 Hlen).
    rewrite (removeMediaFile_from_found id (fileName f) d1 (length (mediaFiles d)) f
               (drop (S i) (m_connectedDevices st)) st1
               (take i (m_connectedDevices st)) O Hpre Hid Hfile).
    rewrite length_take, Nat.min_l by lia. cbn [Nat.add].
    subst d1. cbn [mediaFiles set_mediaFiles]. rewrite erase_at_last.
    rewrite Hdev1, list_insert_insert_eq.
    rewrite (set_mediaFiles_back d (mediaFiles d ++ [f])).
    rewrite list_insert_id by exact Hi. reflexivity. }
  cbv zeta. rewrite Hrem.
  cbn [emit emitted set_emitted m_connectedDevices set_m_connectedDevices].
  rewrite Hem1. split; [reflexivity|]. rewrite <- !app_assoc. reflexivity.
Qed.

Lemma addMediaFile_then_removeMediaFile_witness :
  let f := mediaFile_of Examples.usb_dir
             {| entry_name := "Band - Song.wav"; entry_size := 1764000;
                entry_lastModified := null_QDateTime |} in
  m_connectedDevices
    (removeMediaFile Examples.usb_id (fileName f)
       (addMediaFile Examples.usb_id f Examples.scanned))
  = m_connectedDevices Examples.scanned.
Proof.
  cbv zeta.
  assert (H : exists d, findDevice Examples.usb_id (m_connectedDevices Examples.scanned)
                        = Some (O, d)
                        /\ map fileName (mediaFiles d) = ["Artist - Title.mp3"]).
  { eexists. split; vm_compute; reflexivity. }
  destruct H as (d & Hfind & Hnames).
  apply (addMediaFile_then_removeMediaFile Examples.usb_id _ Examples.scanned O d Hfind).
  intros m Hm Heq.
  assert (Hin : fileName m ∈ map fileName (mediaFiles d))
    by (apply list_elem_of_fmap_2; exact Hm).
  rewrite Hnames, Heq in Hin. vm_compute in Hin.
  apply list_elem_of_In in Hin. cbn in Hin. destruct Hin as [Hin|[]]. discriminate.
Defined.

(** [removeMediaFile] changes nothing and emits nothing when no device
    with the id holds a file of that name. *)
Theorem removeMediaFile_unknown (id name : string) (st : USBMonitor) :
  (forall d m, d ∈ m_connectedDevices st -> deviceId d = id -> m ∈ mediaFiles d ->
               fileName m <> name) ->
  removeMediaFile id name st = st.
Proof.
  intros H. unfold removeMediaFile. apply removeMediaFile_from_none.
  intros y Hy Hyid. unfold findFile. apply list_find_None, Forall_forall.
  intros m Hm. eapply H; eassumption.
Qed.

Lemma removeMediaFile_unknown_witness :
  removeMediaFile Examples.usb_id "readme.txt" Examples.scanned = Examples.scanned.
Proof.
  apply removeMediaFile_unknown. intros d m Hd _ Hm.
  elems Hd. elems Hm. discriminate.
Defined.

(** ** What a scan records *)

Lemma toLower_char_idempotent (c : ascii) : toLower_char (toLower_char c) = toLower_char c.
Proof. destruct c as [[] [] [] [] [] [] [] []]; reflexivity. Qed.

Lemma toLower_idempotent (s : string) : toLower (toLower s) = toLower s.
Proof.
  induction s as [|c s IH]; [reflexivity|].
  cbn [toLower]. rewrite toLower_char_idempotent, IH. reflexivity.
Qed.

Lemma isMediaFile_lower_case (formats : list string) (name : string) :
  isMediaFile formats name = true ->
  exists f, f ∈ formats /\ toLower f = f /\ f = toLower (suffix_of name).
Proof.
  unfold isMediaFile. intros H. apply bool_decide_eq_true_1 in H.
  exists (toLower (suffix_of name)). split; [exact H|].
  split; [apply toLower_idempotent | reflexivity].
Qed.

(** X23. A format is matched against the lower-cased suffix of a file name as
    it is written: when every supported format has an upper-case letter,
    no file name is a media file and a scan records nothing, whatever the
    directory holds. *)
Theorem upper_case_formats_match_nothing (formats : list string) (dir : Directory) :
  (forall f, f ∈ formats -> toLower f <> f) ->
  (forall name, isMediaFile formats name = false)
  /\ scannedFiles formats dir = [].
Proof.
  intros Hupper.
  assert (Hno : forall name, isMediaFile formats name = false).
  { intros name. apply not_true_is_false. intros H.
    apply isMediaFile_lower_case in H as (f & Hf & Hlow & _).
    exact (Hupper f Hf Hlow). }
  split; [exact Hno|].
  unfold scannedFiles.
  induction (entryInfoList formats dir) as [|e l IH]; [reflexivity|].
  rewrite filter_cons. destruct (decide (isMediaFile formats (entry_name e) = true)) as [H|_].
  - rewrite Hno in H. discriminate.
  - exact IH.
Qed.

Lemma upper_case_formats_match_nothing_witness :
  scannedFiles ["MP3"; "Wav"] Examples.usb_dir = []
  /\ scannedFiles ["mp3"; "wav"] Examples.usb_dir <> [].
Proof.
  split.
  - apply upper_case_formats_match_nothing. intros f Hf. elems Hf; discriminate.
  - vm_compute. discriminate.
Defined.

Lemma scannedFiles_from (formats : list string) (dir : Directory) (m : MediaFile) :
  m ∈ scannedFiles formats dir -> scanned_from formats dir m.
Proof.
  unfold scannedFiles, entryInfoList. intros H.
  apply list_elem_of_fmap in H as (e & -> & He).
  apply list_elem_of_filter in He as [Hmedia He].
  apply list_elem_of_filter in He as [_ He].
  exists e. unfold mediaFile_of.
  cbn [fileName filePath fileSize lastModified fileType album].
  repeat split; try assumption.
  unfold isMediaFile in Hmedia. apply bool_decide_eq_true_1 in Hmedia. exact Hmedia.
Qed.

(** X24. After a scan of a connected device whose mount point is an existing
    directory, every file the device holds comes from an entry of that
    directory: it has the entry's name, size and modification time, its
    path is the directory's absolute path, a slash and the name, its type is
    the lower-cased suffix of the name and is one of the supported formats,
    and its album is "Unknown Album". *)
Theorem scanMediaFiles_records_entries (fs : FileSystem) (st : USBMonitor) (i : nat)
  (d : USBDevice) (dir : Directory) :
  m_connectedDevices st !! i = Some d ->
  isConnected d = true ->
  directory fs (mountPoint d) = Some dir ->
  exists d',
    m_connectedDevices (scanMediaFiles fs (deviceId d) st) !! i = Some d'
    /\ deviceId d' = deviceId d
    /\ Forall (scanned_from (m_supportedFormats st) dir) (mediaFiles d').
Proof.
  intros Hi Hc Hdir.
  destruct (USBMonitorProofs.scanMediaFiles_replaces fs st i d dir Hi Hc Hdir)
    as (d' & Hi' & Hid & Hfiles).
  exists d'. split; [exact Hi'|]. split; [exact Hid|].
  rewrite Hfiles. apply Forall_forall. intros m Hm. apply scannedFiles_from. exact Hm.
Qed.

Lemma scanMediaFiles_records_entries_witness :
  exists d',
    m_connectedDevices Examples.scanned !! O = Some d'
    /\ Forall (scanned_from DEFAULT_SUPPORTED_FORMATS Examples.usb_dir) (mediaFiles d').
Proof.
  assert (H : exists d, m_connectedDevices Examples.inserted !! O = Some d
                        /\ deviceId d = Examples.usb_id
                        /\ isConnected d = true
                        /\ directory Examples.disk (mountPoint d) = Some Examples.usb_dir).
  { eexists. repeat split; vm_compute; reflexivity. }
  destruct H as (d & Hi & Hid & Hc & Hdir).
  destruct (scanMediaFiles_records_entries Examples.disk Examples.inserted O d
              Examples.usb_dir Hi Hc Hdir) as (d' & Hi' & _ & Hall).
  exists d'. rewrite Hid in Hi'. split; [exact Hi' | exact Hall].
Defined.

(** ** The periodic scan *)

Lemma scan_at_length fs id k st :
  length (m_connectedDevices (scan_at fs id k st)) = length (m_connectedDevices st).
Proof.
  destruct (USBMonitorProofs.scan_at_core fs id k st) as [H _].
  apply (f_equal length) in H. rewrite length_fmap in H. rewrite H.
  destruct ((core <$> m_connectedDevices st) !! k);
    rewrite ?length_insert, length_fmap; reflexivity.
Qed.

Lemma scan_loop_length fs id n : forall k st,
  length (m_connectedDevices (scan_loop fs id n k st)) = length (m_connectedDevices st).
Proof.
  induction n as [|n IH]; intros k st; [reflexivity|].
  cbn [scan_loop]. rewrite IH. apply scan_at_length.
Qed.

(** A scan of an id applies [rescanned] to every device. *)
Lemma scanMediaFiles_cores fs id st :
  core <$> m_connectedDevices (scanMediaFiles fs id st)
  = rescanned fs (m_supportedFormats st) id <$> (core <$> m_connectedDevices st)
  /\ m_supportedFormats (scanMediaFiles fs id st) = m_supportedFormats st.
Proof.
  unfold scanMediaFiles. split.
  - apply list_eq. intros j. rewrite (list_lookup_fmap (rescanned _ _ _)).
    destruct ((core <$> m_connectedDevices st) !! j) as [c|] eqn:E.
    + destruct (USBMonitorProofs.scan_loop_core fs id (length (m_connectedDevices st))
                  O st j c E) as [H _].
      pose proof (lookup_lt_Some _ _ _ E) as Hlt. rewrite length_fmap in Hlt.
      rewrite H. destruct (decide _); [reflexivity | lia].
    + apply lookup_ge_None in E. rewrite length_fmap in E.
      apply lookup_ge_None. rewrite length_fmap, scan_loop_length. exact E.
  - destruct (m_connectedDevices st) as [|d l] eqn:E; [reflexivity|].
    assert (Hc : (core <$> m_connectedDevices st) !! O = Some (core d))
      by (rewrite E; reflexivity).
    rewrite <- E.
    destruct (USBMonitorProofs.scan_loop_core fs id (length (m_connectedDevices st))
                O st O _ Hc) as [_ H].
    exact H.
Qed.

Lemma rescanned_step fs formats id c0 c :
  c = c0 \/ c = rescanned_own fs formats c0 ->
  (c0.1.1.1 = id -> c0.1.1.2 = true -> rescanned fs formats id c = rescanned_own fs formats c0)
  /\ (rescanned fs formats id c = c0 \/ rescanned fs formats id c = rescanned_own fs formats c0)
  /\ c.1.1.1 = c0.1.1.1 /\ c.1.1.2 = c0.1.1.2
  /\ (c0.1.1.2 = false -> c = rescanned_own fs formats c0).
Proof.
  destruct c0 as [[[did conn] mount] old]. unfold rescanned_own, rescanned. cbn [fst snd].
  rewrite (bool_decide_eq_true_2 (did = did)) by reflexivity. cbn [andb].
  intros [->| ->].
  - split; [intros <- ->; rewrite bool_decide_eq_true_2 by reflexivity; reflexivity|].
    split; [|destruct conn; repeat split; intros; try discriminate; reflexivity].
    destruct (bool_decide (did = id)) eqn:E, conn; cbn [andb]; auto.
  - destruct conn; cbn [andb].
    + destruct (directory fs mount) as [dir|] eqn:Ed.
      * cbn [fst snd]. rewrite Ed.
        split; [intros <- _; rewrite bool_decide_eq_true_2 by reflexivity; reflexivity|].
        split; [|repeat split; intros; discriminate].
        destruct (bool_decide (did = id)); cbn [andb]; auto.
      * rewrite Ed.
        split; [intros <- _; rewrite bool_decide_eq_true_2 by reflexivity; reflexivity|].
        split; [|repeat split; intros; discriminate].
        destruct (bool_decide (did = id)); cbn [andb]; auto.
    + rewrite andb_false_r. repeat split; auto.
Qed.

Lemma rescanned_own_stable fs formats id c0 :
  rescanned fs formats id (rescanned_own fs formats c0) = rescanned_own fs formats c0.
Proof.
  destruct c0 as [[[did conn] mount] old]. unfold rescanned_own, rescanned. cbn [fst snd].
  rewrite (bool_decide_eq_true_2 (did = did)) by reflexivity. cbn [andb].
  destruct conn.
  - destruct (directory fs mount) as [dir|] eqn:Ed; cbv beta iota zeta;
      destruct (bool_decide (did = id)); cbn [andb]; rewrite ?Ed; reflexivity.
  - rewrite andb_false_r. reflexivity.
Qed.

Lemma scanTimer_at_visited fs formats k cs0 st :
  visited fs formats k cs0 st -> visited fs formats (S k) cs0 (scanTimer_at fs k st).
Proof.
  intros (Hf & Hlen & Hall). unfold scanTimer_at.
  destruct (m_connectedDevices st !! k) as [d|] eqn:Ek.
  - assert (Hk : exists c0, cs0 !! k = Some c0).
    { apply lookup_lt_is_Some. rewrite <- Hlen. eapply lookup_lt_Some; eassumption. }
    destruct Hk as [ck Hck].
    destruct (Hall k ck Hck) as (c & Hc & Hor & _).
    rewrite list_lookup_fmap, Ek in Hc. injection Hc as Hc.
    destruct (rescanned_step fs formats (deviceId d) ck c Hor) as (_ & _ & Hid & Hconn & Hoff).
    assert (Hdid : ck.1.1.1 = deviceId d) by (rewrite <- Hid, <- Hc; reflexivity).
    assert (Hdc : ck.1.1.2 = isConnected d) by (rewrite <- Hconn, <- Hc; reflexivity).
    destruct (isConnected d) eqn:Econn.
    + destruct (scanMediaFiles_cores fs (deviceId d) st) as [Hcores Hfmt].
      split; [congruence|]. split.
      { apply (f_equal length) in Hcores. rewrite !length_fmap in Hcores. congruence. }
      intros j c0 Hj. destruct (Hall j c0 Hj) as (cj & Hcj & Horj & Hlt).
      exists (rescanned fs formats (deviceId d) cj).
      split.
      { rewrite Hcores, list_lookup_fmap, Hcj, Hf. reflexivity. }
      destruct (rescanned_step fs formats (deviceId d) c0 cj Horj)
        as (Hsame & Hor' & _ & _ & _).
      split; [exact Hor'|].
      intros Hjk. destruct (decide (j = k)) as [->|Hne].
      * assert (c0 = ck) by congruence. subst c0. apply Hsame; [exact Hdid | exact Hdc].
      * assert (Hcj' : cj = rescanned_own fs formats c0) by (apply Hlt; lia).
        rewrite Hcj'. apply rescanned_own_stable.
    + split; [exact Hf|]. split; [exact Hlen|].
      intros j c0 Hj. destruct (Hall j c0 Hj) as (cj & Hcj & Horj & Hlt).
      exists cj. split; [exact Hcj|]. split; [exact Horj|].
      intros Hjk. destruct (decide (j = k)) as [->|Hne]; [|apply Hlt; lia].
      assert (c0 = ck) by congruence. subst c0.
      rewrite list_lookup_fmap, Ek in Hcj. injection Hcj as <-.
      rewrite Hc. apply Hoff. exact Hdc.
  - split; [exact Hf|]. split; [exact Hlen|].
    intros j c0 Hj. destruct (Hall j c0 Hj) as (cj & Hcj & Horj & Hlt).
    exists cj. split; [exact Hcj|]. split; [exact Horj|].
    intros Hjk. apply Hlt.
    apply lookup_ge_None in Ek. apply lookup_lt_Some in Hj. lia.
Qed.

Lemma scanTimer_loop_visited fs formats cs0 n : forall k st,
  visited fs formats k cs0 st ->
  visited fs formats (k + n) cs0 (scanTimer_loop fs n k st).
Proof.
  induction n as [|n IH]; intros k st H.
  - rewrite Nat.add_0_r. exact H.
  - cbn [scanTimer_loop]. replace (k + S n)%nat with (S k + n)%nat by lia.
    apply IH, scanTimer_at_visited, H.
Qed.

(** X25. When the scan timer fires, the device list keeps its length and
    order, every connected device whose mount point is an existing
    directory then holds exactly the files scanned from that directory, and
    every other device holds what it held; ids, mount points and connected
    flags are unchanged, also when several devices share an id. *)
Theorem scanTimer_timeout_rescans (fs : FileSystem) (st : USBMonitor) :
  Forall2 (after_tick fs (m_supportedFormats st))
    (m_connectedDevices st) (m_connectedDevices (scanTimer_timeout fs st)).
Proof.
  unfold scanTimer_timeout.
  assert (H0 : visited fs (m_supportedFormats st) 0 (core <$> m_connectedDevices st) st).
  { split; [reflexivity|]. split; [rewrite length_fmap; reflexivity|].
    intros j c0 Hj. exists c0. split; [exact Hj|]. split; [auto | lia]. }
  apply (scanTimer_loop_visited fs _ _ (length (m_connectedDevices st))) in H0.
  destruct H0 as (_ & Hlen & Hall). rewrite length_fmap in Hlen.
  apply Forall2_same_length_lookup. split; [symmetry; exact Hlen|].
  intros i d d' Hd Hd'.
  assert (Hc : (core <$> m_connectedDevices st) !! i = Some (core d))
    by (rewrite list_lookup_fmap, Hd; reflexivity).
  destruct (Hall i _ Hc) as (c & Hc' & _ & Hlt).
  cbn [Nat.add] in Hlt. specialize (Hlt (lookup_lt_Some _ _ _ Hd)).
  rewrite list_lookup_fmap, Hd' in Hc'. injection Hc' as Hc'. rewrite Hlt in Hc'.
  unfold core, rescanned_own, rescanned in Hc'. cbn [fst snd] in Hc'.
  rewrite (bool_decide_eq_true_2 (deviceId d = deviceId d)) in Hc' by reflexivity.
  cbn [andb] in Hc'. unfold after_tick.
  destruct (isConnected d) eqn:Ec; [destruct (directory fs (mountPoint d)) eqn:Ed|];
    injection Hc' as H1 H2 H3 H4; repeat split; try assumption.
  destruct (directory fs (mountPoint d)); assumption.
Qed.

End USBMonitorMore.

(** * Properties of the sensor simulator *)

Module MockI2CProofs.
Import Qt MockI2C.

(** ** Comparison and [std::clamp] on doubles *)

Lemma SFcompare_antisym (x y : double) :
  SFcompare y x = option_map CompOpp (SFcompare x y).
Proof.
  destruct x as [sx|sx| |sx mx ex], y as [sy|sy| |sy my ey]; cbn;
    try (destruct sx); try (destruct sy); try reflexivity.
  all: rewrite (Z.compare_antisym ex ey); destruct (ex ?= ey); cbn; try reflexivity.
  all: change (Pos.compare_cont Eq my mx) with (Pos.compare_cont (CompOpp Eq) my mx).
  all: rewrite <- (Pos.compare_cont_antisym mx my Eq).
  all: destruct (Pos.compare_cont Eq mx my); reflexivity.
Qed.

Lemma SFcompare_refl (x : double) : is_nan x = false -> SFcompare x x = Some Eq.
Proof.
  destruct x as [s|s| |s m e]; cbn; intros H; try discriminate;
    try (destruct s; reflexivity).
  rewrite Z.compare_refl, Pos.compare_cont_refl. destruct s; reflexivity.
Qed.

Lemma SFcompare_not_nan (x y : double) :
  is_nan x = false -> is_nan y = false -> exists c, SFcompare x y = Some c.
Proof.
  destruct x, y; cbn; intros Hx Hy; try discriminate; eexists; reflexivity.
Qed.

Lemma within_not_nan lo hi x : within lo hi x -> is_nan x = false.
Proof. intros [H _]. destruct x; try reflexivity. destruct lo; discriminate. Qed.

Lemma clamp_nan lo hi : clamp S754_nan lo hi = S754_nan.
Proof. destruct lo, hi; reflexivity. Qed.

Lemma clamp_within (v lo hi : double) :
  is_nan v = false -> is_nan lo = false -> is_nan hi = false -> dle lo hi = true ->
  within lo hi (clamp v lo hi).
Proof.
  intros Hv Hlo Hhi Hle. unfold within, clamp, dlt, dle, SFltb, SFleb in *.
  pose proof (SFcompare_antisym v lo) as Hvl.
  pose proof (SFcompare_antisym hi v) as Hhv.
  destruct (SFcompare_not_nan v lo Hv Hlo) as [c1 E1].
  destruct (SFcompare_not_nan hi v Hhi Hv) as [c2 E2].
  rewrite E1 in *. rewrite E2 in *. cbn in Hvl, Hhv.
  destruct c1.
  - destruct c2; rewrite ?Hvl, ?Hhv, ?Hle, ?(SFcompare_refl hi Hhi); cbn; auto.
  - rewrite (SFcompare_refl lo Hlo), Hle. auto.
  - destruct c2; rewrite ?Hvl, ?Hhv, ?Hle, ?(SFcompare_refl hi Hhi); cbn; auto.
Qed.

(** ** Sums that are numbers *)

Lemma shr_1_nonneg (mrs : shr_record) : 0 <= shr_m mrs -> 0 <= shr_m (shr_1 mrs).
Proof.
  destruct mrs as [m r s]. cbn. intros H.
  destruct m as [|p|p]; [cbn; lia | destruct p; cbn; lia | lia].
Qed.

Lemma iter_pos_shr_1_nonneg (p : positive) : forall mrs,
  0 <= shr_m mrs -> 0 <= shr_m (SpecFloat.iter_pos shr_1 p mrs).
Proof.
  induction p as [p IH|p IH|]; intros mrs H; cbn.
  - apply IH, IH, shr_1_nonneg, H.
  - apply IH, IH, H.
  - apply shr_1_nonneg, H.
Qed.

Lemma shr_fexp_nonneg (m e : Z) (l : location) :
  0 <= m -> 0 <= shr_m (fst (shr_fexp 53 1024 m e l)).
Proof.
  intros H. unfold shr_fexp, shr.
  assert (H0 : 0 <= shr_m (shr_record_of_loc m l))
    by (destruct l as [|[| |]]; exact H).
  destruct (fexp 53 1024 (Zdigits2 m + e) - e); cbn; try exact H0.
  apply iter_pos_shr_1_nonneg, H0.
Qed.

Lemma round_nearest_even_nonneg (m : Z) (l : location) :
  0 <= m -> 0 <= round_nearest_even m l.
Proof.
  intros H. unfold round_nearest_even. destruct l as [|[| |]]; try lia.
  destruct (Z.even m); lia.
Qed.

Lemma binary_round_aux_not_nan (s : bool) (m e : Z) (l : location) :
  0 <= m -> is_nan (binary_round_aux 53 1024 s m e l) = false.
Proof.
  intros H. unfold binary_round_aux.
  pose proof (shr_fexp_nonneg m e l H) as H1.
  destruct (shr_fexp 53 1024 m e l) as [mrs' e']. cbn in H1.
  pose proof (shr_fexp_nonneg _ e' loc_Exact
                (round_nearest_even_nonneg _ (loc_of_shr_record mrs') H1)) as H2.
  destruct (shr_fexp 53 1024 _ e' loc_Exact) as [mrs'' e'']. cbn in H2.
  destruct (shr_m mrs'') as [|p|p]; [reflexivity | | lia].
  destruct (e'' <=? 1024 - 53); reflexivity.
Qed.

Lemma binary_normalize_not_nan (m e : Z) (s : bool) :
  is_nan (binary_normalize 53 1024 m e s) = false.
Proof.
  unfold binary_normalize, binary_round.
  destruct m as [|p|p]; [reflexivity | |];
    destruct (shl_align _ _ _) as [mz ez]; apply binary_round_aux_not_nan; lia.
Qed.

(** A sum is NaN only when a term is, or when the terms are infinities of
    opposite signs. *)
Lemma dadd_not_nan (x y : double) :
  is_nan x = false -> is_finite y = true -> is_nan (dadd x y) = false.
Proof.
  unfold dadd.
  destruct x as [sx|sx| |sx mx ex], y as [sy|sy| |sy my ey]; cbn;
    intros Hx Hy; try discriminate; try reflexivity.
  - destruct sx, sy; reflexivity.
  - apply binary_normalize_not_nan.
Qed.

Lemma dmul_finite_not_nan (x y : double) :
  is_finite x = true -> is_finite y = true -> is_nan (dmul x y) = false.
Proof.
  unfold dmul.
  destruct x as [sx|sx| |sx mx ex], y as [sy|sy| |sy my ey]; cbn;
    intros Hx Hy; try discriminate; try reflexivity.
  apply binary_round_aux_not_nan. lia.
Qed.

Lemma dadd_finite_not_nan (x y : double) :
  is_finite x = true -> is_nan y = false -> is_nan (dadd x y) = false.
Proof.
  unfold dadd.
  destruct x as [sx|sx| |sx mx ex], y as [sy|sy| |sy my ey]; cbn;
    intros Hx Hy; try discriminate; try reflexivity.
  - destruct sx, sy; reflexivity.
  - apply binary_normalize_not_nan.
Qed.

Lemma noise_not_nan (r : Z) : is_nan (noise r) = false.
Proof.
  unfold noise, dmul.
  pose proof (binary_normalize_not_nan
                (to_result_type (to_result_type r mod 100 - 50)) 0 false) as H.
  unfold double_of_Z.
  destruct (binary_normalize 53 1024 _ 0 false) as [s|s| |s m e];
    [reflexivity | reflexivity | discriminate |].
  change d0_1 with (S754_finite false 7205759403792794 (-56)).
  cbn [SFmul]. apply binary_round_aux_not_nan. lia.
Qed.

(** ** C4: the readings of a tick *)

Lemma finite_not_nan (x : double) : is_finite x = true -> is_nan x = false.
Proof. destruct x; cbn; congruence. Qed.

(** The reading a tick stores, field by field. *)
Lemma updateSensorData_reading (now : Clock) (rnd : Randomness) (st : MockI2C) :
  m_simulateSensorFailure st = false ->
  let corrupt := m_simulateDataCorruption st in
  let data := m_currentData (updateSensorData now rnd st) in
  temperature data
  = clamp (dadd (if corrupt
                 then dadd (temperature_sample rnd) (noise (temperature_noise rnd))
                 else temperature_sample rnd) (m_tempOffset st)) dm40 d80
  /\ humidity data
     = clamp (dadd (if corrupt
                    then dadd (humidity_sample rnd) (noise (humidity_noise rnd))
                    else humidity_sample rnd) (m_humidityOffset st)) d0 d100
  /\ pressure data = clamp (dadd (pressure_sample rnd) (m_pressureOffset st)) d800 d1200
  /\ lightLevel data = clamp (dadd (light_sample rnd) (m_lightOffset st)) d0 d10000
  /\ isValid data = true
  /\ emitted (updateSensorData now rnd st) = emitted st ++ [dataUpdated data].
Proof.
  intros Hfail. unfold updateSensorData. rewrite Hfail.
  unfold applyCalibration, generateRandomData, logData.
  destruct (m_simulateDataCorruption st) eqn:Hc; cbn; rewrite ?Hc;
    destruct (m_dataLoggingEnabled st); cbn; repeat split; reflexivity.
Qed.

(** When every sample the distributions return is finite (as for finite
    ranges) and every calibration offset is finite,
    the reading a tick stores (and announces with [dataUpdated]) has its
    temperature in [-40, 80], its humidity in [0, 100], its pressure in
    [800, 1200] and its light level in [0, 10000], with or without the
    corruption noise. *)
Theorem reading_within_bounds (now : Clock) (rnd : Randomness) (st : MockI2C) :
  m_simulateSensorFailure st = false ->
  finite_samples rnd ->
  finite_offsets st ->
  let data := m_currentData (updateSensorData now rnd st) in
  within dm40 d80 (temperature data)
  /\ within d0 d100 (humidity data)
  /\ within d800 d1200 (pressure data)
  /\ within d0 d10000 (lightLevel data)
  /\ isValid data = true.
Proof.
  intros Hfail (Hst & Hsh & Hsp & Hsl) (Hot & Hoh & Hop & Hol).
  destruct (updateSensorData_reading now rnd st Hfail) as (Ht & Hh & Hp & Hl & Hv & _).
  cbv zeta. rewrite Ht, Hh, Hp, Hl, Hv.
  repeat split; try (apply clamp_within; try reflexivity);
    apply dadd_not_nan; try assumption;
    try (apply finite_not_nan; assumption);
    destruct (m_simulateDataCorruption st);
    try (apply finite_not_nan; assumption);
    apply dadd_finite_not_nan; try assumption; apply noise_not_nan.
Qed.

Lemma reading_within_bounds_witness :
  let data :=
    m_currentData
      (updateSensorData (Examples.clock_at 1714564805000) Examples.samples
         (simulateDataCorruption true Examples.recalibrated)) in
  within dm40 d80 (temperature data)
  /\ within d0 d100 (humidity data)
  /\ within d800 d1200 (pressure data)
  /\ within d0 d10000 (lightLevel data)
  /\ isValid data = true.
Proof.
  apply reading_within_bounds.
  - reflexivity.
  - repeat split.
  - repeat split.
Defined.

(** C4. The clamp of [applyCalibration] does not bring every reading into
    its range: after [calibrateTemperature(NaN)] a tick with samples from
    the default ranges stores, and marks as valid, a temperature that is
    not a number; [std::clamp] compares with [<] and returns it as it is,
    and it is not within [-40, 80]. *)
Theorem reading_nan_offset :
  let st := calibrateTemperature S754_nan Examples.sensor in
  let data := m_currentData (updateSensorData (Examples.clock_at 1714564805000)
                               Examples.samples st) in
  m_simulateSensorFailure st = false
  /\ finite_samples Examples.samples
  /\ isValid data = true
  /\ temperature data = S754_nan
  /\ ~ within dm40 d80 (temperature data).
Proof.
  cbv zeta. split; [reflexivity|]. split; [repeat split|]. split; [reflexivity|].
  split; [vm_compute; reflexivity|].
  intros [H _]. vm_compute in H. discriminate.
Qed.

(** A reading is within its bounds exactly when the calibrated value is a
    number. *)
Lemma clamp_within_iff (v lo hi : double) :
  is_nan lo = false -> is_nan hi = false -> dle lo hi = true ->
  within lo hi (clamp v lo hi) <-> is_nan v = false.
Proof.
  intros Hlo Hhi Hle. split.
  - intros H. destruct v; try reflexivity.
    apply within_not_nan in H. rewrite clamp_nan in H. discriminate.
  - intros Hv. apply clamp_within; assumption.
Qed.

(** ** C3: saving and loading the calibration *)

Lemma toDouble_json_double (d def : double) :
  is_finite d = true -> toDouble (json_double d) def = d.
Proof. intros H. unfold json_double. rewrite H. reflexivity. Qed.

(** What the loader finds in a saved document. *)
Lemma calibration_members (st : MockI2C) :
  let config := toObject (calibration_toJson st) in
  member "temperature_offset" config = json_double (m_tempOffset st)
  /\ member "humidity_offset" config = json_double (m_humidityOffset st)
  /\ member "pressure_offset" config = json_double (m_pressureOffset st)
  /\ member "light_offset" config = json_double (m_lightOffset st)
  /\ member "temperature_range" config = range_toJson (m_tempMin st) (m_tempMax st).
Proof.
  cbv zeta. unfold calibration_toJson, toObject.
  repeat split; read_member; reflexivity.
Qed.

(** The object constructed from a saved document, member by member. *)
Lemma construct_saved (garbage : SensorData) (log : option QJsonValue) (st : MockI2C) :
  let st' := construct garbage (config_file (saveCalibrationData st)) log in
  m_tempOffset st' = toDouble (json_double (m_tempOffset st)) d0
  /\ m_humidityOffset st' = toDouble (json_double (m_humidityOffset st)) d0
  /\ m_pressureOffset st' = toDouble (json_double (m_pressureOffset st)) d0
  /\ m_lightOffset st' = toDouble (json_double (m_lightOffset st)) d0
  /\ m_tempMin st' = toDouble (json_double (m_tempMin st)) d18
  /\ m_tempMax st' = toDouble (json_double (m_tempMax st)) d25
  /\ m_tempDist st' = {| dist_a := m_tempMin st'; dist_b := m_tempMax st' |}
  /\ m_humidityMin st' = d40 /\ m_humidityMax st' = d60
  /\ m_pressureMin st' = d1013 /\ m_pressureMax st' = d1013_5
  /\ m_lightMin st' = d100 /\ m_lightMax st' = d1000
  /\ m_humidityDist st' = {| dist_a := d40; dist_b := d60 |}
  /\ m_pressureDist st' = {| dist_a := d1013; dist_b := d1013_5 |}
  /\ m_lightDist st' = {| dist_a := d100; dist_b := d1000 |}.
Proof.
  destruct (calibration_members st) as (Ht & Hh & Hp & Hl & Hr).
  cbv zeta. unfold construct, loadCalibrationData, saveCalibrationData.
  cbn [config_file set_config_file].
  rewrite Ht, Hh, Hp, Hl, Hr. unfold range_toJson. cbn [toArray].
  repeat split.
Qed.

(** The offsets and the temperature range come back from the file when
    they are finite. *)
Lemma calibration_roundtrip_offsets (garbage : SensorData) (log : option QJsonValue)
  (st : MockI2C) :
  finite_offsets st ->
  is_finite (m_tempMin st) = true -> is_finite (m_tempMax st) = true ->
  let st' := construct garbage (config_file (saveCalibrationData st)) log in
  m_tempOffset st' = m_tempOffset st /\ m_humidityOffset st' = m_humidityOffset st
  /\ m_pressureOffset st' = m_pressureOffset st /\ m_lightOffset st' = m_lightOffset st
  /\ m_tempMin st' = m_tempMin st /\ m_tempMax st' = m_tempMax st.
Proof.
  intros (Ht & Hh & Hp & Hl) Hmin Hmax.
  destruct (construct_saved garbage log st)
    as (H1 & H2 & H3 & H4 & H5 & H6 & _).
  cbv zeta. rewrite H1, H2, H3, H4, H5, H6.
  rewrite !toDouble_json_double by assumption. repeat split.
Qed.

(** The humidity, pressure and light ranges are written but never read:
    the object constructed from a saved file has the default ranges
    whatever was saved. *)
Lemma calibration_load_default_ranges (garbage : SensorData) (log : option QJsonValue)
  (st : MockI2C) :
  let st' := construct garbage (config_file (saveCalibrationData st)) log in
  m_humidityMin st' = d40 /\ m_humidityMax st' = d60
  /\ m_pressureMin st' = d1013 /\ m_pressureMax st' = d1013_5
  /\ m_lightMin st' = d100 /\ m_lightMax st' = d1000
  /\ m_humidityDist st' = {| dist_a := d40; dist_b := d60 |}.
Proof.
  destruct (construct_saved garbage log st)
    as (_ & _ & _ & _ & _ & _ & _ & H1 & H2 & H3 & H4 & H5 & H6 & H7 & _).
  cbv zeta. repeat split; assumption.
Qed.

(** C3, at a humidity range of 30 to 70 percent. The range is saved (the
    file holds it) and the simulator constructed from the file samples
    humidity from the default 40 to 60 percent again; the light offset and
    the temperature range of the same file do come back. *)
Theorem calibration_roundtrip_loses_range :
  let st := Examples.recalibrated in
  let st' := Examples.restarted in
  member "humidity_range" (toObject (calibration_toJson st))
  = JArray [JDouble (double_of_Z 30); JDouble (double_of_Z 70)]
  /\ m_humidityMin st = double_of_Z 30 /\ m_humidityMax st = double_of_Z 70
  /\ m_humidityMin st' = d40 /\ m_humidityMax st' = d60
  /\ m_humidityMin st' <> m_humidityMin st
  /\ m_lightOffset st' = m_lightOffset st
  /\ m_tempMin st' = m_tempMin st.
Proof.
  cbv zeta. repeat split; try (vm_compute; reflexivity).
  vm_compute. discriminate.
Qed.

End MockI2CProofs.

(** * Further properties of the sensor simulator *)

Module MockI2CMore.
Import Qt MockI2C.

(** ** The corruption noise *)

Lemma noise_index_range (bits r : Z) : 0 <= noise_index bits r < 100.
Proof. unfold noise_index. apply Z.mod_pos_bound. lia. Qed.

Lemma noise_shape_32 (k : Z) : 0 <= k < 100 -> noise_shape 32 (4 * 10 ^ 8) k = true.
Proof.
  intros H.
  assert (Hall : forallb (noise_shape 32 (4 * 10 ^ 8)) (Zrange 0 (Z.to_nat 100)) = true)
    by (vm_compute; reflexivity).
  rewrite forallb_forall in Hall. apply Hall, QtProofs.Zrange_elem. lia.
Qed.

Lemma noise_shape_64 (k : Z) : 0 <= k < 100 -> noise_shape 64 (10 ^ 17) k = true.
Proof.
  intros H.
  assert (Hall : forallb (noise_shape 64 (10 ^ 17)) (Zrange 0 (Z.to_nat 100)) = true)
    by (vm_compute; reflexivity).
  rewrite forallb_forall in Hall. apply Hall, QtProofs.Zrange_elem. lia.
Qed.

(** X26. The noise added to a corrupted temperature or humidity is never
    negative, whether the generator's unsigned result type has 32 or 64
    bits: [% 100 - 50] is taken in that type, so a remainder below 50 wraps
    around and gives a term above 4 * 10^8 (above 10^17 with 64 bits), and
    a remainder from 50 up gives a term between 0 and 5. The noise of the
    model is the one of 64 bits. *)
Theorem noise_never_negative (r : Z) :
  (dle d0 (noise_at 32 r) = true
   /\ (if noise_index 32 r <? 50
       then dle (double_of_Z (4 * 10 ^ 8)) (noise_at 32 r)
       else dle (noise_at 32 r) (double_of_Z 5)) = true)
  /\ (dle d0 (noise_at 64 r) = true
      /\ (if noise_index 64 r <? 50
          then dle (double_of_Z (10 ^ 17)) (noise_at 64 r)
          else dle (noise_at 64 r) (double_of_Z 5)) = true)
  /\ noise r = noise_at result_bits r.
Proof.
  pose proof (noise_shape_32 (noise_index 32 r) (noise_index_range 32 r)) as H32.
  pose proof (noise_shape_64 (noise_index 64 r) (noise_index_range 64 r)) as H64.
  unfold noise_shape in H32, H64.
  apply andb_true_iff in H32 as [A1 A2]. apply andb_true_iff in H64 as [B1 B2].
  unfold noise_at. repeat split; assumption || reflexivity.
Qed.

(** ** Ticks during a sensor failure *)

Lemma updateSensorData_failure (now : Clock) (rnd : Randomness) (st : MockI2C) :
  m_simulateSensorFailure st = true ->
  let st' := updateSensorData now rnd st in
  m_simulateSensorFailure st' = true
  /\ values (m_currentData st') = values (m_currentData st)
  /\ isValid (m_currentData st') = false
  /\ emitted st' = emitted st ++ [sensorError "Sensor failure - invalid readings"]
  /\ sensor_log st' = sensor_log st.
Proof.
  intros H. cbv zeta. unfold updateSensorData. rewrite H.
  cbn. rewrite H. repeat split.
Qed.

Lemma ticks_failure (inputs : list (Clock * Randomness)) : forall st,
  m_simulateSensorFailure st = true ->
  values (m_currentData (ticks inputs st)) = values (m_currentData st)
  /\ (isValid (m_currentData st) = false \/ inputs <> [] ->
      isValid (m_currentData (ticks inputs st)) = false)
  /\ emitted (ticks inputs st)
     = emitted st
       ++ repeat (sensorError "Sensor failure - invalid readings") (length inputs)
  /\ sensor_log (ticks inputs st) = sensor_log st.
Proof.
  induction inputs as [|[now rnd] rest IH]; intros st H.
  - cbn [ticks length repeat]. rewrite app_nil_r.
    repeat split. intros [Hv|Hne]; [exact Hv | contradiction].
  - cbn [ticks length repeat].
    destruct (updateSensorData_failure now rnd st H) as (Hf & Hval & Hinv & Hem & Hlog).
    destruct (IH _ Hf) as (IH1 & IH2 & IH3 & IH4).
    rewrite IH1, IH3, IH4, Hval, Hem, Hlog, <- app_assoc.
    repeat split. intros _. apply IH2. left. exact Hinv.
Qed.

(** X27. While the sensor failure is simulated, ticks of the update timer leave
    the four values and the time stamp of the reading as they were and mark
    it invalid; each tick emits [sensorError] and nothing else, and nothing
    is logged. *)
Theorem sensor_failure_freezes_reading (inputs : list (Clock * Randomness)) (st : MockI2C) :
  m_simulateSensorFailure st = true ->
  inputs <> [] ->
  let st' := ticks inputs st in
  values (m_currentData st') = values (m_currentData st)
  /\ isValid (m_currentData st') = false
  /\ emitted st'
     = emitted st
       ++ repeat (sensorError "Sensor failure - invalid readings") (length inputs)
  /\ sensor_log st' = sensor_log st.
Proof.
  intros H Hne. cbv zeta.
  destruct (ticks_failure inputs st H) as (H1 & H2 & H3 & H4).
  repeat split; auto.
Qed.

Lemma sensor_failure_freezes_reading_witness :
  let st := simulateSensorFailure true Examples.measuring in
  let st' := ticks [ (Examples.clock_at 1714564810000, Examples.samples);
                     (Examples.clock_at 1714564815000, Examples.samples) ] st in
  values (m_currentData st') = values (m_currentData st)
  /\ isValid (m_currentData st') = false.
Proof.
  cbv zeta.
  destruct (sensor_failure_freezes_reading
              [ (Examples.clock_at 1714564810000, Examples.samples);
                (Examples.clock_at 1714564815000, Examples.samples) ]
              (simulateSensorFailure true Examples.measuring))
    as (H1 & H2 & _); [vm_compute; reflexivity | discriminate |].
  split; [exact H1 | exact H2].
Defined.

(** ** The data log *)

Lemma updateSensorData_logged (now : Clock) (rnd : Randomness) (st : MockI2C) :
  m_simulateSensorFailure st = false ->
  m_dataLoggingEnabled st = true ->
  let st' := updateSensorData now rnd st in
  m_simulateSensorFailure st' = false
  /\ m_dataLoggingEnabled st' = true
  /\ (exists point,
        log_entries st' = log_entries st ++ [point]
        /\ member "timestamp" (toObject point) = JString (getCurrentTimestamp now)
        /\ member "temperature" (toObject point)
           = json_double (temperature (m_currentData st'))
        /\ member "humidity" (toObject point) = json_double (humidity (m_currentData st'))
        /\ member "pressure" (toObject point) = json_double (pressure (m_currentData st'))
        /\ member "light_level" (toObject point)
           = json_double (lightLevel (m_currentData st')))
  /\ emitted st' = emitted st ++ [dataUpdated (m_currentData st')]
  /\ isValid (m_currentData st') = true
  /\ timestamp (m_currentData st') = getCurrentTimestamp now.
Proof.
  intros Hf Hl. cbv zeta. unfold updateSensorData. rewrite Hf.
  assert (H1 : m_dataLoggingEnabled (applyCalibration (generateRandomData rnd st)) = true
               /\ m_simulateSensorFailure (applyCalibration (generateRandomData rnd st)) = false
               /\ sensor_log (applyCalibration (generateRandomData rnd st)) = sensor_log st
               /\ emitted (applyCalibration (generateRandomData rnd st)) = emitted st).
  { unfold applyCalibration, generateRandomData.
    cbn [m_dataLoggingEnabled m_simulateSensorFailure sensor_log emitted set_m_currentData].
    auto. }
  revert H1. generalize (applyCalibration (generateRandomData rnd st)).
  intros st1 (Hl1 & Hf1 & Hlog1 & Hem1).
  cbv zeta. cbn [m_dataLoggingEnabled set_m_currentData]. rewrite Hl1.
  unfold logData, log_entries.
  cbn [emit set_emitted emitted m_currentData set_m_currentData set_sensor_log sensor_log
         m_simulateSensorFailure m_dataLoggingEnabled set_isValid set_timestamp
         isValid timestamp temperature humidity pressure lightLevel].
  rewrite Hlog1, Hem1, Hl1, Hf1.
  split; [reflexivity|]. split; [reflexivity|].
  split; [|repeat split].
  eexists. split; [reflexivity|]. unfold toObject.
  repeat split; read_member; reflexivity.
Qed.

Lemma ticks_logged (inputs : list (Clock * Randomness)) : forall st,
  m_simulateSensorFailure st = false ->
  m_dataLoggingEnabled st = true ->
  exists points,
    log_entries (ticks inputs st) = log_entries st ++ points
    /\ map (λ p, member "timestamp" (toObject p)) points
       = map (λ i, JString (getCurrentTimestamp i.1)) inputs
    /\ length (emitted (ticks inputs st)) = (length (emitted st) + length inputs)%nat.
Proof.
  induction inputs as [|[now rnd] rest IH]; intros st Hf Hl.
  - exists []. cbn [ticks map length]. rewrite app_nil_r, Nat.add_0_r. auto.
  - cbn [ticks].
    destruct (updateSensorData_logged now rnd st Hf Hl)
      as (Hf1 & Hl1 & (point & Hlog & Hts & _) & Hem & _).
    destruct (IH _ Hf1 Hl1) as (points & Hlogs & Htss & Hlen).
    exists (point :: points). rewrite Hlogs, Hlog, <- app_assoc.
    split; [reflexivity|]. cbn [map fst length]. rewrite Hts, Htss.
    split; [reflexivity|]. rewrite Hlen, Hem, length_app. cbn [length]. lia.
Qed.

(** X28. With data logging enabled and no sensor failure, every tick appends
    exactly one record to the log, after the records the file held (none
    when the file is missing or is not an array): after a run of ticks the
    new records carry the time stamps of the ticks in order, and one signal
    was emitted per tick. *)
Theorem logging_appends (inputs : list (Clock * Randomness)) (st : MockI2C) :
  m_simulateSensorFailure st = false ->
  m_dataLoggingEnabled st = true ->
  exists points,
    log_entries (ticks inputs st) = log_entries st ++ points
    /\ map (λ p, member "timestamp" (toObject p)) points
       = map (λ i, JString (getCurrentTimestamp i.1)) inputs
    /\ length (emitted (ticks inputs st)) = (length (emitted st) + length inputs)%nat.
Proof. intros Hf Hl. apply ticks_logged; assumption. Qed.

Lemma logging_appends_witness :
  exists points,
    log_entries
      (ticks [ (Examples.clock_at 1714564810000, Examples.samples);
               (Examples.clock_at 1714564815000, Examples.samples) ]
         (enableDataLogging true Examples.measuring))
    = points
    /\ length points = 2%nat.
Proof.
  destruct (logging_appends
              [ (Examples.clock_at 1714564810000, Examples.samples);
                (Examples.clock_at 1714564815000, Examples.samples) ]
              (enableDataLogging true Examples.measuring))
    as (points & H1 & H2 & _); [reflexivity | reflexivity |].
  exists points. split; [exact H1|].
  apply (f_equal length) in H2. rewrite !length_map in H2. exact H2.
Defined.

(** ** The calibration file across a restart *)

Lemma toDouble_json_double_or (d def : double) :
  toDouble (json_double d) def = if is_finite d then d else def.
Proof. unfold json_double. destruct (is_finite d); reflexivity. Qed.

(** X29. Saving the calibration and constructing the simulator from the file:
    a finite offset and a finite bound of the temperature range come back
    as saved; an offset that is not finite comes back as 0 and such a
    temperature bound as 18 or 25; the humidity, pressure and light ranges
    are the constructor's defaults whatever was saved. *)
Theorem calibration_restart (garbage : SensorData) (log : option QJsonValue) (st : MockI2C) :
  let st' := construct garbage (config_file (saveCalibrationData st)) log in
  m_tempOffset st' = (if is_finite (m_tempOffset st) then m_tempOffset st else d0)
  /\ m_humidityOffset st'
     = (if is_finite (m_humidityOffset st) then m_humidityOffset st else d0)
  /\ m_pressureOffset st'
     = (if is_finite (m_pressureOffset st) then m_pressureOffset st else d0)
  /\ m_lightOffset st' = (if is_finite (m_lightOffset st) then m_lightOffset st else d0)
  /\ m_tempMin st' = (if is_finite (m_tempMin st) then m_tempMin st else d18)
  /\ m_tempMax st' = (if is_finite (m_tempMax st) then m_tempMax st else d25)
  /\ m_tempDist st' = {| dist_a := m_tempMin st'; dist_b := m_tempMax st' |}
  /\ (m_humidityMin st', m_humidityMax st') = (d40, d60)
  /\ (m_pressureMin st', m_pressureMax st') = (d1013, d1013_5)
  /\ (m_lightMin st', m_lightMax st') = (d100, d1000)
  /\ finite_offsets st'.
Proof.
  cbv zeta.
  destruct (MockI2CProofs.construct_saved garbage log st)
    as (H1 & H2 & H3 & H4 & H5 & H6 & H7 & H8).
  destruct (MockI2CProofs.calibration_load_default_ranges garbage log st)
    as (R1 & R2 & R3 & R4 & R5 & R6 & _).
  rewrite toDouble_json_double_or in H1, H2, H3, H4, H5, H6.
  rewrite R1, R2, R3, R4, R5, R6.
  repeat (split; [assumption || reflexivity|]).
  unfold finite_offsets. rewrite H1, H2, H3, H4.
  repeat split;
    match goal with |- is_finite (if is_finite ?x then _ else _) = true =>
      destruct (is_finite x) eqn:E; [exact E | reflexivity] end.
Qed.

(** ** The pressure and light registers *)

Lemma bytes_of_int (z : Z) :
  0 <= z < 65536 ->
  0 <= high_byte z < 256 /\ 0 <= low_byte z < 256 /\ high_byte z * 256 + low_byte z = z.
Proof.
  intros H. unfold high_byte, low_byte.
  change 255 with (Z.ones 8). rewrite !Z.land_ones by lia.
  rewrite Z.shiftr_div_pow2 by lia. change (2 ^ 8) with 256.
  assert (H1 : 0 <= z / 256 < 256)
    by (split; [apply Z.div_pos; lia | apply Z.div_lt_upper_bound; lia]).
  rewrite (Z.mod_small (z / 256)) by exact H1.
  pose proof (Z.mod_pos_bound z 256 ltac:(lia)) as H2.
  pose proof (Z.div_mod z 256 ltac:(lia)) as H3.
  repeat split; lia.
Qed.

(** X30. On a connected simulator whose pressure and light readings have an
    integer part between 0 and 65535, the registers 2 and 3 hold the high
    and the low byte of the integer part of the pressure and the registers
    4 and 5 those of the light level: each pair gives the integer part
    back. *)
Theorem readRegister_two_bytes (st : MockI2C) (p l : Z) :
  isConnected st = true ->
  to_int (pressure (m_currentData st)) = Some p -> 0 <= p < 65536 ->
  to_int (lightLevel (m_currentData st)) = Some l -> 0 <= l < 65536 ->
  exists p1 p0 l1 l0,
    readRegister 2 st = Some p1 /\ readRegister 3 st = Some p0
    /\ readRegister 4 st = Some l1 /\ readRegister 5 st = Some l0
    /\ 0 <= p1 < 256 /\ 0 <= p0 < 256 /\ 0 <= l1 < 256 /\ 0 <= l0 < 256
    /\ p1 * 256 + p0 = p /\ l1 * 256 + l0 = l.
Proof.
  intros Hc Hp Hpr Hl Hlr.
  destruct (bytes_of_int p Hpr) as (P1 & P0 & Pe).
  destruct (bytes_of_int l Hlr) as (L1 & L0 & Le).
  exists (high_byte p), (low_byte p), (high_byte l), (low_byte l).
  unfold readRegister. rewrite Hc, Hp, Hl. cbn [negb Z.eqb option_map].
  repeat split; assumption || lia.
Qed.

Lemma readRegister_two_bytes_witness :
  exists p1 p0 l1 l0,
    readRegister 2 Examples.measuring = Some p1
    /\ readRegister 3 Examples.measuring = Some p0
    /\ readRegister 4 Examples.measuring = Some l1
    /\ readRegister 5 Examples.measuring = Some l0
    /\ p1 * 256 + p0 = 1013 /\ l1 * 256 + l0 = 640.
Proof.
  destruct (readRegister_two_bytes Examples.measuring 1013 640)
    as (p1 & p0 & l1 & l0 & H2 & H3 & H4 & H5 & _ & _ & _ & _ & Hp & Hl);
    try (vm_compute; reflexivity); try lia.
  exists p1, p0, l1, l0. repeat split; assumption.
Defined.

End MockI2CMore.
